(** * skorecard: bucketers and the two-stage BucketingProcess

    A shallow embedding of [skorecard/bucketers/bucketers.py] and
    [skorecard/pipeline/bucketing_process.py].

    Conventions of the embedding
    - a pandas column is a [list (option Qc)]: exact rationals stand for the
      floats of the source and [None] is NaN (a missing value);
    - a Python [dict] that is only looked up is a [gmap]; a [dict] that is
      iterated over is an association list in insertion order;
    - a raised exception is [Raise e]; [warnings.warn] appends to a log that
      survives a later exception;
    - algorithms of other packages (scikit-learn trees and clustering, the
      optbinning solver, the sort of pandas) are [Variable]s of a [Section],
      constrained only by what their documentation promises. *)

From Stdlib Require Import QArith Qcanon Qround.
From stdpp Require Import base tactics option numbers list strings gmap sorting pretty.

Local Open Scope Z_scope.

(** ** Python strings *)

Module PyStr.

Definition nl : string := String (Ascii.ascii_of_nat 10) EmptyString.

(** [sep.join(l)] *)
Definition join (sep : string) (l : list string) : string := String.concat sep l.

(** [needle in hay] for two strings. *)
Definition contains (needle hay : string) : Prop :=
  ∃ pre post, hay = pre +:+ needle +:+ post.

Fixpoint prefixb (p s : string) : bool :=
  match p, s with
  | EmptyString, _ => true
  | String a p', String b s' => bool_decide (a = b) && prefixb p' s'
  | String _ _, EmptyString => false
  end.

Fixpoint containsb (needle hay : string) : bool :=
  prefixb needle hay ||
  match hay with
  | EmptyString => false
  | String _ hay' => containsb needle hay'
  end.

End PyStr.

(** ** Python dicts that are iterated: association lists in insertion order *)

Module PyDict.

Fixpoint get {K V : Type} `{EqDecision K} (k : K) (d : list (K * V)) : option V :=
  match d with
  | [] => None
  | (k', v) :: d' => if decide (k' = k) then Some v else get k d'
  end.

(** [d[k] = v]: an existing key keeps its place, a new key goes last. *)
Fixpoint set {K V : Type} `{EqDecision K} (k : K) (v : V) (d : list (K * V)) : list (K * V) :=
  match d with
  | [] => [(k, v)]
  | (k', v') :: d' => if decide (k' = k) then (k, v) :: d' else (k', v') :: set k v d'
  end.

Definition keys {K V : Type} (d : list (K * V)) : list K := d.*1.
Definition values {K V : Type} (d : list (K * V)) : list V := d.*2.

End PyDict.

(** ** Exceptions, warnings and the monad of a [fit] call *)

Inductive exception : Type :=
  | NotPreBucketedError (msg : string)
  | NotBucketedError (msg : string)
  | ValueError (msg : string)
  | KeyError (key : string)
  | IndexError
  | AssertionError
  | ZeroDivisionError.

Inductive warning : Type :=
  | ApproximationWarning (msg : string).

Inductive outcome (A : Type) : Type :=
  | Ok (a : A)
  | Raise (e : exception).
Arguments Ok {A} a.
Arguments Raise {A} e.

(** A computation leaves a log of events of type [E] (warnings, calls of
    external code) and then returns or raises. *)
Definition M (E A : Type) : Type := list E * outcome A.

Definition ret {E A} (a : A) : M E A := ([], Ok a).
Definition raise {E A} (e : exception) : M E A := ([], Raise e).
Definition emit {E} (ev : E) : M E unit := ([ev], Ok tt).

Definition bind {E A B} (m : M E A) (k : A → M E B) : M E B :=
  match m with
  | (w, Ok a) => let '(w', r) := k a in (w ++ w', r)
  | (w, Raise e) => (w, Raise e)
  end.

Global Instance M_ret {E} : MRet (M E) := @ret E.
Global Instance M_bind {E} : MBind (M E) := λ A B k m, bind m k.

Definition events {E A} (m : M E A) : list E := m.1.
Definition result {E A} (m : M E A) : outcome A := m.2.

(** ** bucketing_process.py *)

Module BucketingProcess.

(** [f"Special: {label}"] *)
Definition special_label (label : string) : string := "Special: " +:+ label.

(** [_find_remapped_specials(bucket_labels, var_specials)].  [bucket_labels]
    is the dict [{bucket: label}] of one prebucketing [BucketMapping] and
    [var_specials] the dict [{label: values}] declared for the feature; both
    may be [None].  The two nested [for] loops are the two [foldl]s. *)
Definition _find_remapped_specials {V : Type}
    (bucket_labels : option (list (Z * string)))
    (var_specials : option (list (string * V))) : list (string * list Z) :=
  match bucket_labels, var_specials with
  | Some bucket_labels, Some var_specials =>
      foldl (λ new_specials label,
        foldl (λ new_specials item,
          if decide (item.2 = special_label label)
          then PyDict.set label [item.1] new_specials
          else new_specials) new_specials bucket_labels)
        [] (PyDict.keys var_specials)
  | _, _ => []
  end.

(** The two column checks that close [fit], on the [.columns] of the two
    fitted stages. *)
Definition not_prebucketed_msg (not_prebucketed : list string) : string :=
  "The following columns are bucketed but have not been pre-bucketed: "
    +:+ PyStr.join ", " not_prebucketed +:+ "." +:+ PyStr.nl
  +:+ "Consider adding an AsIsNumericalBucketer or AsIsCategoricalBucketer to the prebucketing pipeline."
    +:+ PyStr.nl
  +:+ "Or add an additional bucketing step after the BucketingProcess:" +:+ PyStr.nl
  +:+ "make_pipeline(BucketingProcess(..), Bucketer())".

Definition not_bucketed_msg (not_bucketed : list string) : string :=
  "The following columns are prebucketed but have not been bucketed: "
    +:+ PyStr.join ", " not_bucketed +:+ "." +:+ PyStr.nl
  +:+ "Consider updating the bucketing pipeline," +:+ PyStr.nl.

Definition check_columns (prebucketing_columns bucketing_columns : list string)
    : M warning unit :=
  let not_prebucketed := filter (λ col, col ∉ prebucketing_columns) bucketing_columns in
  if decide (length not_prebucketed ≠ 0%nat)
  then raise (NotPreBucketedError (not_prebucketed_msg not_prebucketed))
  else
    let not_bucketed := filter (λ col, col ∉ bucketing_columns) prebucketing_columns in
    if decide (length not_bucketed ≠ 0%nat)
    then raise (NotBucketedError (not_bucketed_msg not_bucketed))
    else mret tt.

(** The specials declared on the process: [{column: {name: values}}]. *)
Abbreviation raw_specials V := (list (string * list (string * list V))).
(** The specials of the second stage: [{column: {name: [pre-bucket id]}}]. *)
Abbreviation remapped_specials := (gmap string (list (string * list Z))).
(** [FeaturesBucketMapping]: the [BucketMapping]s of a fitted stage by
    feature name, in order. *)
Abbreviation FeaturesBucketMapping BucketMapping := (list (string * BucketMapping)).

Section process.

(** What the process only passes around: the data, the target, the
    estimators inside the two pipelines, the raw special values, one fitted
    [BucketMapping], a bucket table and the summary. *)
Context {DataFrame Target Estimator V BucketMapping Table Summary : Type}.

(** A step of a pipeline is a bucketer, of which [fit] touches [.specials]. *)
Record Step (S : Type) : Type := mkStep { estimator : Estimator; specials : S }.
Arguments mkStep {S}.
Arguments estimator {S}.
Arguments specials {S}.

(** Modelled from the spec: [FeaturesBucketMapping.columns] enumerates the
    covered columns; the class is not in the sources at hand. *)
Definition columns (fbm : FeaturesBucketMapping BucketMapping) : list string :=
  PyDict.keys fbm.

(** Modelled from the spec: [FeaturesBucketMapping.get] is the lookup by
    feature name; its class is not in the sources at hand.  A feature that was
    not fitted has no mapping, which is an error here. *)
Definition get (fbm : FeaturesBucketMapping BucketMapping) (col : string) : M warning BucketMapping :=
  match PyDict.get col fbm with
  | Some bm => mret bm
  | None => raise (KeyError col)
  end.

Variable labels : BucketMapping → option (list (Z * string)).
Variable X_columns : DataFrame → list string.
Variable build_bucket_table : DataFrame → Target → string → BucketMapping → Table.
Variable _generate_summary : DataFrame → Target → Summary.
Variable repr : Estimator → string.
(** [prebucketing_pipeline.fit_transform] and [bucketing_pipeline.fit]. *)
Variable pipeline_fit_transform :
  list (Step (raw_specials V)) → DataFrame → Target
  → M warning (DataFrame * (FeaturesBucketMapping BucketMapping)).
Variable pipeline_fit :
  list (Step remapped_specials) → DataFrame → Target → M warning (FeaturesBucketMapping BucketMapping).

Record t : Type := mk {
  prebucketing_pipeline : list (Step (raw_specials V));
  bucketing_pipeline : list (Step remapped_specials);
  process_specials : raw_specials V;
  _prebucketing_specials : raw_specials V;
  _bucketing_specials : remapped_specials;
  prebucketing_mapping_ : FeaturesBucketMapping BucketMapping;
  bucketing_mapping_ : FeaturesBucketMapping BucketMapping;
  prebucket_tables_ : list (string * Table);
  bucket_tables_ : list (string * Table);
  summary_ : option Summary;
}.

(** [__init__]: the pre-bucketers must come without specials and all get the
    specials of the process; [_bucketing_specials] starts as [dict()]. *)
Fixpoint init_steps (specials0 : raw_specials V) (steps : list (Step (raw_specials V)))
    : M warning (list (Step (raw_specials V))) :=
  match steps with
  | [] => mret []
  | step :: rest =>
      if decide (length (specials step) ≠ 0%nat)
      then raise (ValueError
        ("Specials should be defined on the BucketingProcess level, remove the specials from "
           +:+ repr (estimator step)))
      else
        rest' ← init_steps specials0 rest;
        mret (mkStep (estimator step) specials0 :: rest')
  end.

Definition __init__ (prebucketing_pipeline0 : list (Step (raw_specials V)))
    (bucketing_pipeline0 : list (Step remapped_specials)) (specials0 : raw_specials V)
    : M warning t :=
  pre ← init_steps specials0 prebucketing_pipeline0;
  mret {| prebucketing_pipeline := pre;
          bucketing_pipeline := bucketing_pipeline0;
          process_specials := specials0;
          _prebucketing_specials := specials0;
          _bucketing_specials := ∅;
          prebucketing_mapping_ := [];
          bucketing_mapping_ := [];
          prebucket_tables_ := [];
          bucket_tables_ := [];
          summary_ := None |}.

(** [for column in X.columns: if column in fbm.maps.keys(): tables[column] = ...] *)
Definition tables_of (X : DataFrame) (y : Target) (fbm : FeaturesBucketMapping BucketMapping)
    (X_source : DataFrame) : list (string * Table) :=
  omap (λ column,
    match PyDict.get column fbm with
    | Some bm => Some (column, build_bucket_table X_source y column bm)
    | None => None
    end) (X_columns X).

(** The loop over [self._prebucketing_specials.items()]: the store
    [self._bucketing_specials] is updated in place, and only for a feature
    with at least one remapped group. *)
Fixpoint remap_specials (items : raw_specials V) (fbm : FeaturesBucketMapping BucketMapping)
    (store : remapped_specials) : M warning remapped_specials :=
  match items with
  | [] => mret store
  | (var, var_specials) :: rest =>
      bm ← get fbm var;
      let new_specials := _find_remapped_specials (labels bm) (Some var_specials) in
      remap_specials rest fbm
        (if decide (length new_specials ≠ 0%nat) then <[var := new_specials]> store else store)
  end.

(** [step.specials = self._bucketing_specials] for every step. *)
Definition assign_specials (store : remapped_specials)
    (steps : list (Step remapped_specials)) : list (Step remapped_specials) :=
  (λ step, mkStep (estimator step) store) <$> steps.

(** What [fit] does once the bucketing pipeline has been fitted. *)
Definition finish_fit (self : t) (X X_prebucketed_ : DataFrame) (y : Target)
    (pre_fbm : FeaturesBucketMapping BucketMapping) (store : remapped_specials)
    (steps : list (Step remapped_specials)) (buck_fbm : FeaturesBucketMapping BucketMapping)
    : M warning t :=
  check_columns (columns pre_fbm) (columns buck_fbm);;
  mret {| prebucketing_pipeline := prebucketing_pipeline self;
          bucketing_pipeline := steps;
          process_specials := process_specials self;
          _prebucketing_specials := _prebucketing_specials self;
          _bucketing_specials := store;
          prebucketing_mapping_ := pre_fbm;
          bucketing_mapping_ := buck_fbm;
          prebucket_tables_ := tables_of X y pre_fbm X;
          bucket_tables_ := tables_of X y buck_fbm X_prebucketed_;
          summary_ := Some (_generate_summary X y) |}.

Definition fit (self : t) (X : DataFrame) (y : Target) : M warning t :=
  '(X_prebucketed_, pre_fbm) ← pipeline_fit_transform (prebucketing_pipeline self) X y;
  store ← remap_specials (_prebucketing_specials self) pre_fbm (_bucketing_specials self);
  let steps := assign_specials store (bucketing_pipeline self) in
  buck_fbm ← pipeline_fit steps X_prebucketed_ y;
  finish_fit self X X_prebucketed_ y pre_fbm store steps buck_fbm.

(** [table.rename(columns={"bucket_id": "pre-bucket"})], of pandas, and
    [table["bucket"] = bucket_mapping.transform(table["pre-bucket"])]. *)
Variable rename_bucket_id : Table → Table.
Variable with_bucket_column : Table → BucketMapping → Table.

Definition no_prebucket_table_msg (column : string) : string :=
  "column '" +:+ column +:+ "' was not part of the pre-bucketing process".

(** [prebucket_table(column)], on a process that [fit] has returned (so that
    [check_is_fitted] lets it through). *)
Definition prebucket_table (self : t) (column : string) : M warning Table :=
  match PyDict.get column (prebucket_tables_ self) with
  | None => raise (ValueError (no_prebucket_table_msg column))
  | Some table =>
      let table := rename_bucket_id table in
      bucket_mapping ← get (bucketing_mapping_ self) column;
      mret (with_bucket_column table bucket_mapping)
  end.

End process.

End BucketingProcess.

(** ** bucketers.py: what all bucketers share *)

Module Bucketers.

Inductive var_type : Type := numerical | categorical.

(** The [map] of a [BucketMapping]: a list of boundaries for a numerical
    feature (floats, so NaN is [None]), a dict [{value: bucket}] for a
    categorical one. *)
Inductive bucket_map (Val : Type) : Type :=
  | Boundaries (boundaries : list (option Val))
  | Categories (mapping : list (Val * Z)).
Arguments Boundaries {Val}.
Arguments Categories {Val}.

(** The arguments of the constructor call
    [BucketMapping(feature_name=, type=, map=, right=, specials=, missing_bucket=)];
    [right] is [None] where the call leaves it out. *)
Record BucketMapping (Val : Type) : Type := mkBucketMapping {
  feature_name : string;
  type : var_type;
  map : bucket_map Val;
  right : option bool;
  specials : list (string * list Val);
  missing_bucket : option Z;
}.
Arguments mkBucketMapping {Val}.
Arguments feature_name {Val}.
Arguments type {Val}.
Arguments map {Val}.
Arguments right {Val}.
Arguments specials {Val}.
Arguments missing_bucket {Val}.

(** The columns of a bucket table that [fit] reads. *)
Record row : Type := mkRow { bucket_id : Z; label : string; Count : Z }.

Inductive missing_treatment : Type :=
  | separate
  | most_frequent
  | per_feature (buckets : gmap string Z).

Inductive duplicates : Type := duplicates_raise | duplicates_drop.

(** What a [fit] leaves behind besides its result: warnings, and the calls
    of external code whose number or arguments matter. *)
Inductive event (Val : Type) : Type :=
  | Warned (w : warning)
  | Built_bucket_table (column : string) (bucket_mapping : BucketMapping Val)
  | Called_qcut (q : nat) (mode : duplicates)
  | Fitted_DecisionTreeClassifier (max_leaf_nodes : Z) (min_samples_leaf : Qc).
Arguments Warned {Val}.
Arguments Built_bucket_table {Val}.
Arguments Called_qcut {Val}.
Arguments Fitted_DecisionTreeClassifier {Val}.

(** A frame: named columns, each a list of cells, [None] for a missing cell. *)
Definition DataFrame (Val : Type) : Type := list (string * list (option Val)).

(** [X.shape[0]] *)
Definition n_rows {Val} (X : DataFrame Val) : nat :=
  match X with
  | [] => 0
  | (_, cells) :: _ => length cells
  end.

(** [l[1:-1]] *)
Definition slice_1_m1 {A} (l : list A) : list A := take (length l - 2) (drop 1 l).

(** Boolean indexing [a[mask]]. *)
Fixpoint select {A} (mask : list bool) (a : list A) : list A :=
  match mask, a with
  | b :: mask', x :: a' => if b then x :: select mask' a' else select mask' a'
  | _, _ => []
  end.

Section shared.

Context {Val Y : Type} `{EqDecision Val}.

(** [X[feature]] *)
Definition getitem (X : DataFrame Val) (feature : string) : M (event Val) (list (option Val)) :=
  match PyDict.get feature X with
  | Some cells => mret cells
  | None => raise (KeyError feature)
  end.

(** Modelled from the spec: [BaseBucketer._check_variables] resolves the
    effective variable list, the explicit list or all columns if none is
    given; the base class is not in the sources at hand. *)
Definition _check_variables (X : DataFrame Val) (variables : list string) : list string :=
  match variables with
  | [] => PyDict.keys X
  | _ => variables
  end.

(** A special row: its value is listed under any of the declared groups. *)
Definition is_special (special : list (string * list Val)) (cell : option Val) : bool :=
  match cell with
  | Some v => bool_decide (v ∈ concat (PyDict.values special))
  | None => false
  end.

(** Modelled from the spec: [BaseBucketer._filter_specials_for_fit], of the
    base class that is not in the sources at hand, splits the rows of a
    feature into special rows and normal rows and keeps the normal ones, in
    [X] and in [y] alike. *)
Definition _filter_specials_for_fit (X : list (option Val)) (y : option (list Y))
    (special : list (string * list Val)) : list (option Val) * option (list Y) :=
  let keep := (λ cell, negb (is_special special cell)) <$> X in
  (select keep X, select keep <$> y).

(** Modelled from the spec: [BaseBucketer._filter_na_for_fit], of the same
    base class, removes the rows with a missing value, in [X] and in [y]
    alike. *)
Definition _filter_na_for_fit (X : list (option Val)) (y : option (list Y))
    : list (option Val) * option (list Y) :=
  let keep := (λ cell : option Val, bool_decide (is_Some cell)) <$> X in
  (select keep X, select keep <$> y).

(** The values of a column without missing cells. *)
Definition values (X : list (option Val)) : list Val := omap id X.

(** [Series.unique()] where its result is counted or sorted: the distinct
    cells; pandas keeps NaN as one of them. *)
Definition unique (X : list (option Val)) : list (option Val) := remove_dups X.

(** [Series.unique()] where the order of its result matters: the distinct
    cells in the order of their first appearance. *)
Fixpoint unique_in_order (X : list (option Val)) : list (option Val) :=
  match X with
  | [] => []
  | cell :: X' => cell :: filter (λ c, c ≠ cell) (unique_in_order X')
  end.

Variable Table : Type.
Variable rows : Table → list row.
(** [build_bucket_table(X, y, column=, bucket_mapping=)], of the reporting
    package. *)
Variable build_bucket_table :
  DataFrame Val → option (list Y) → string → BucketMapping Val → Table.
(** [table.sort_values("Count", ascending=False).reset_index(drop=True)] *)
Variable sort_values_Count_descending : list row → list row.

Definition call_build_bucket_table (X : DataFrame Val) (y : option (list Y))
    (column : string) (bucket_mapping : BucketMapping Val) : M (event Val) Table :=
  emit (Built_bucket_table column bucket_mapping);;
  mret (build_bucket_table X y column bucket_mapping).

(** The [missing_bucket] that [fit] reads off the first bucket table under
    ["most_frequent"]: [.iloc[0]] of the sorted table, or row [1] of its
    [bucket_id] column when row [0] is labelled ["Missing"]. *)
Definition most_frequent_bucket (table : list row) : M (event Val) Z :=
  match sort_values_Count_descending table !! 0%nat with
  | None => raise IndexError
  | Some most_frequent_row =>
      if decide (label most_frequent_row ≠ "Missing")
      then mret (bucket_id most_frequent_row)
      else
        match sort_values_Count_descending table !! 1%nat with
        | Some second_row => mret (bucket_id second_row)
        | None => raise (KeyError "1")
        end
  end.

(** What differs between the bucketers: the [type] and [right] they pass to
    [BucketMapping], their [missing_treatment], and the computation of the
    [specials] and the [map] of one feature (the body of the loop of [fit] up
    to "Deal with missing values"). *)
Record Bucketer : Type := mkBucketer {
  variables : list string;
  bucketer_type : var_type;
  bucketer_right : option bool;
  bucketer_missing_treatment : missing_treatment;
  compute_map :
    string → DataFrame Val → option (list Y) → M (event Val) (list (string * list Val) * bucket_map Val);
}.

(** "Deal with missing values" *)
Definition initial_missing_bucket (mt : missing_treatment) (feature : string) : option Z :=
  match mt with
  | separate | most_frequent => None
  | per_feature buckets => buckets !! feature
  end.

(** The body of the loop [for feature in self.variables] of [fit], which
    every bucketer repeats from "Deal with missing values" on. *)
Definition fit_feature (self : Bucketer) (feature : string) (X : DataFrame Val)
    (y : option (list Y)) : M (event Val) (BucketMapping Val * Table) :=
  '(special, splits) ← compute_map self feature X y;
  let missing_bucket := initial_missing_bucket (bucketer_missing_treatment self) feature in
  let bucket_mapping :=
    mkBucketMapping feature (bucketer_type self) splits (bucketer_right self) special
      missing_bucket in
  table ← call_build_bucket_table X y feature bucket_mapping;
  match bucketer_missing_treatment self with
  | most_frequent =>
      missing_bucket ← most_frequent_bucket (rows table);
      let bucket_mapping :=
        mkBucketMapping feature (bucketer_type self) splits (bucketer_right self) special
          (Some missing_bucket) in
      table ← call_build_bucket_table X y feature bucket_mapping;
      mret (bucket_mapping, table)
  | _ => mret (bucket_mapping, table)
  end.

(** [fit]: the loop over the variables fills [features_bucket_mapping_] and
    [bucket_tables_]; an exception in one feature ends the whole call. *)
Fixpoint fit_features (self : Bucketer) (features : list string) (X : DataFrame Val)
    (y : option (list Y)) (features_bucket_mapping_ : list (string * BucketMapping Val))
    (bucket_tables_ : list (string * Table))
    : M (event Val) (list (string * BucketMapping Val) * list (string * Table)) :=
  match features with
  | [] => mret (features_bucket_mapping_, bucket_tables_)
  | feature :: rest =>
      '(bucket_mapping, table) ← fit_feature self feature X y;
      fit_features self rest X y
        (PyDict.set feature bucket_mapping features_bucket_mapping_)
        (PyDict.set feature table bucket_tables_)
  end.

Definition fit (self : Bucketer) (X : DataFrame Val) (y : option (list Y))
    : M (event Val) (list (string * BucketMapping Val) * list (string * Table)) :=
  fit_features self (_check_variables X (variables self)) X y [] [].

End shared.

Arguments Bucketer Val Y : clear implicits.

(** ** Numbers: numpy and pandas on exact rationals *)

Local Open Scope Qc_scope.

Definition Qc_of_nat (n : nat) : Qc := Qc_of_Z (Z.of_nat n).

Definition Qc_min (a b : Qc) : Qc := if decide (a ≤ b) then a else b.
Definition Qc_max (a b : Qc) : Qc := if decide (a ≤ b) then b else a.

(** [min] and [max] of a non-empty list of numbers, [0] for the empty one,
    which the callers never pass. *)
Definition minimum (l : list Qc) : Qc :=
  match l with
  | [] => 0
  | x :: l' => foldr Qc_min x l'
  end.

Definition maximum (l : list Qc) : Qc :=
  match l with
  | [] => 0
  | x :: l' => foldr Qc_max x l'
  end.

(** [np.sort] and [Series.sort_values] on numbers: any sort gives the same
    list, merge sort is taken. *)
Definition sort (l : list Qc) : list Qc := merge_sort Qcle l.

(** [np.unique]: the sorted distinct values. *)
Definition np_unique (l : list Qc) : list Qc := sort (remove_dups l).

(** [np.mean([a, b])] *)
Definition mean2 (a b : Qc) : Qc := (a + b) / 2.

(** [np.linspace(start, stop, num + 1)] for [num > 0], with exact numbers:
    numpy rounds every point to a float, which keeps the order of the points
    but can make two of them equal. *)
Definition linspace (start stop : Qc) (num : nat) : list Qc :=
  (λ i, start + Qc_of_nat i * ((stop - start) / Qc_of_nat num)) <$> seq 0 (S num).

(** The bin edges of [np.histogram(a, bins=n)]: [n + 1] equally spaced
    edges from the minimum to the maximum of [a]; numpy takes the range
    [(0, 1)] for an empty [a] and widens a range of one point by a half on
    both sides, and refuses [n = 0].  It also refuses a range that is not
    finite, which a column of rationals cannot give. *)
Definition histogram_outer_edges (a : list Qc) : Qc * Qc :=
  match a with
  | [] => (0, 1)
  | _ =>
      let first_edge := minimum a in
      let last_edge := maximum a in
      if decide (first_edge = last_edge)
      then (first_edge - 1 / 2, last_edge + 1 / 2)
      else (first_edge, last_edge)
  end.

Definition histogram_bin_edges {E} (a : list Qc) (bins : nat) : M E (list Qc) :=
  if decide (bins = 0%nat)
  then raise (ValueError "`bins` must be positive, when an integer")
  else
    let '(first_edge, last_edge) := histogram_outer_edges a in
    mret (linspace first_edge last_edge bins).

(** [try: m except ValueError: handler] *)
Definition try_except_ValueError {E A} (m : M E A) (handler : M E A) : M E A :=
  match m with
  | (w, Raise (ValueError _)) => let '(w', r) := handler in (w ++ w', r)
  | _ => m
  end.

(** The head of the loop of every bucketer: the specials of the feature and
    the rows left for the fit,
    [if feature in self.specials.keys(): ... else: ...]. *)
Definition split_specials {Val Y} `{EqDecision Val}
    (specials : gmap string (list (string * list Val))) (feature : string)
    (cells : list (option Val)) (y : option (list Y))
    : list (string * list Val) * (list (option Val) * option (list Y)) :=
  match specials !! feature with
  | Some special => (special, _filter_specials_for_fit cells y special)
  | None => ([], (cells, y))
  end.

(** ** OptimalBucketer *)

Module OptimalBucketer.
Section OptimalBucketer.
Context {Y : Type}.

Record config : Type := mkConfig {
  variables : list string;
  specials : gmap string (list (string * list Qc));
  variables_type : var_type;
  max_n_bins : Z;
  missing_treatment : Bucketers.missing_treatment;
  min_bin_size : Qc;
  cat_cutoff : option Qc;
  time_limit : Z;
}.

(** [binner = OptimalBinning(...); binner.fit(x, y); binner.splits], of the
    optbinning package: boundaries for a numerical feature, given the
    [user_splits], groups of values for a categorical one. *)
Variable OptimalBinning_splits :
  config → string → list Qc → list Qc → option (list Y) → M (event Qc) (list Qc).
Variable OptimalBinning_groups :
  config → string → list Qc → option (list Y) → M (event Qc) (list (list Qc)).

Definition spaces24 : string := "                        ".

Definition not_prebucketed_msg (feature : string) (n_unique : nat) : string :=
  PyStr.nl
  +:+ spaces24 +:+ "OptimalBucketer requires numerical feature '" +:+ feature
    +:+ "' to be pre-bucketed" +:+ PyStr.nl
  +:+ spaces24 +:+ "to max 100 unique values (for performance reasons)." +:+ PyStr.nl
  +:+ spaces24 +:+ "Currently there are " +:+ pretty n_unique
    +:+ " unique values present." +:+ PyStr.nl
  +:+ PyStr.nl
  +:+ spaces24
    +:+ "Apply pre-binning, f.e. with skorecard.bucketers.DecisionTreeBucketer."
    +:+ PyStr.nl
  +:+ spaces24.

(** [for bucket_nr, values in enumerate(binner.splits): for value in values:
    splits[value] = bucket_nr] *)
Definition groups_to_dict (groups : list (list Qc)) : list (Qc * Z) :=
  foldl (λ splits item,
    foldl (λ splits value, PyDict.set value (Z.of_nat item.1) splits) splits item.2)
    [] (imap (λ bucket_nr values, (bucket_nr, values)) groups).

Definition compute_map (self : config) (feature : string) (X : DataFrame Qc)
    (y : option (list Y)) : M (event Qc) (list (string * list Qc) * bucket_map Qc) :=
  cells ← getitem X feature;
  let '(special, (X_flt, y_flt)) := split_specials (specials self) feature cells y in
  match variables_type self with
  | numerical =>
      let '(X_flt, y_flt) := _filter_na_for_fit X_flt y_flt in
      let uniq_values := np_unique (values X_flt) in
      if decide (100 < length uniq_values)%nat
      then raise (NotPreBucketedError (not_prebucketed_msg feature (length uniq_values)))
      else
        splits ← OptimalBinning_splits self feature uniq_values (values X_flt) y_flt;
        mret (special, Boundaries (Some <$> splits))
  | categorical =>
      let '(X_flt, y_flt) := _filter_na_for_fit X_flt y_flt in
      groups ← OptimalBinning_groups self feature (values X_flt) y_flt;
      mret (special, Categories (groups_to_dict groups))
  end.

Definition bucketer (self : config) : Bucketer Qc Y :=
  mkBucketer (variables self) (variables_type self) (Some false) (missing_treatment self)
    (compute_map self).

End OptimalBucketer.
End OptimalBucketer.

(** ** EqualWidthBucketer *)

Module EqualWidthBucketer.
Section EqualWidthBucketer.
Context {Y : Type}.

Record config : Type := mkConfig {
  n_bins : nat;
  variables : list string;
  specials : gmap string (list (string * list Qc));
  missing_treatment : Bucketers.missing_treatment;
}.

Definition compute_map (self : config) (feature : string) (X : DataFrame Qc)
    (y : option (list Y)) : M (event Qc) (list (string * list Qc) * bucket_map Qc) :=
  cells ← getitem X feature;
  let '(special, (X_flt, y_flt)) := split_specials (specials self) feature cells y in
  let '(X_flt, y_flt) := _filter_na_for_fit X_flt y_flt in
  boundaries ← histogram_bin_edges (values X_flt) (n_bins self);
  let boundaries := slice_1_m1 boundaries in
  mret (special, Boundaries (Some <$> boundaries)).

Definition bucketer (self : config) : Bucketer Qc Y :=
  mkBucketer (variables self) numerical (Some true) (missing_treatment self)
    (compute_map self).

End EqualWidthBucketer.
End EqualWidthBucketer.

(** ** AgglomerativeClusteringBucketer *)

Module AgglomerativeClusteringBucketer.
Section AgglomerativeClusteringBucketer.
Context {Y : Type}.

Record config : Type := mkConfig {
  n_bins : nat;
  variables : list string;
  specials : gmap string (list (string * list Qc));
  missing_treatment : Bucketers.missing_treatment;
}.

(** [ab = AgglomerativeClustering(n_clusters=n_bins, **kwargs); ab.fit(x);
    ab.labels_], of scikit-learn: one cluster label per value. *)
Variable AgglomerativeClustering_labels : nat → list Qc → M (event Qc) (list Z).

(** [pd.DataFrame({"x": x, "label": labels})], which wants columns of one
    length. *)
Definition frame (x : list Qc) (labels : list Z) : M (event Qc) (list (Qc * Z)) :=
  if decide (length x = length labels)
  then mret (zip x labels)
  else raise (ValueError "All arrays must be of the same length").

(** [df.sort_values(by="x")] *)
Definition le_x (r1 r2 : Qc * Z) : Prop := r1.1 ≤ r2.1.

Global Instance le_x_dec : RelDecision le_x.
Proof. intros r1 r2. unfold le_x. apply _. Defined.

Definition sort_by_x (df : list (Qc * Z)) : list (Qc * Z) := merge_sort le_x df.

(** [df.groupby("label")["x"]]: the values of every label, by increasing
    label. *)
Definition groupby_label (df : list (Qc * Z)) : list (Z * list Qc) :=
  (λ k, (k, (filter (λ r, r.2 = k) df).*1)) <$> merge_sort Z.le (remove_dups df.*2).

Definition cluster_minimum_values (df : list (Qc * Z)) : list Qc :=
  sort ((λ g, minimum g.2) <$> groupby_label df).

Definition cluster_maximum_values (df : list (Qc * Z)) : list Qc :=
  sort ((λ g, maximum g.2) <$> groupby_label df).

(** [[float(np.mean([mins[i + 1], maxs[i]])) for i in range(len(mins) - 1)]] *)
Definition boundaries_of (mins maxs : list Qc) : list Qc :=
  (λ i, mean2 (default 0 (mins !! S i)) (default 0 (maxs !! i)))
    <$> seq 0 (length mins - 1).

Definition find_boundaries (x : list Qc) (labels : list Z) : M (event Qc) (list Qc) :=
  df ← frame x labels;
  let df := sort_by_x df in
  mret (boundaries_of (cluster_minimum_values df) (cluster_maximum_values df)).

Definition compute_map (self : config) (feature : string) (X : DataFrame Qc)
    (y : option (list Y)) : M (event Qc) (list (string * list Qc) * bucket_map Qc) :=
  cells ← getitem X feature;
  let '(special, (X_flt, y_flt)) := split_specials (specials self) feature cells y in
  let '(X_flt, y_flt) := _filter_na_for_fit X_flt y_flt in
  labels_ ← AgglomerativeClustering_labels (n_bins self) (values X_flt);
  boundaries ← find_boundaries (values X_flt) labels_;
  mret (special, Boundaries (Some <$> boundaries)).

Definition bucketer (self : config) : Bucketer Qc Y :=
  mkBucketer (variables self) numerical (Some true) (missing_treatment self)
    (compute_map self).

End AgglomerativeClusteringBucketer.
End AgglomerativeClusteringBucketer.

(** ** EqualFrequencyBucketer *)

Module EqualFrequencyBucketer.
Section EqualFrequencyBucketer.
Context {Y : Type}.

Record config : Type := mkConfig {
  n_bins : nat;
  variables : list string;
  specials : gmap string (list (string * list Qc));
  missing_treatment : Bucketers.missing_treatment;
}.

(** [np.quantile(a, p)] on the values that are present. *)
Variable quantile : list Qc → Qc → Qc.

(** [pd.qcut(x, q=q, retbins=True, duplicates=mode)[1]]: the [q + 1]
    quantile edges of the values that are present.  When edges coincide
    (there are more than two of them), pandas raises [ValueError] under
    [duplicates="raise"] and keeps one of each under [duplicates="drop"]. *)
Definition qcut (x : list (option Qc)) (q : nat) (mode : duplicates)
    : M (event Qc) (list Qc) :=
  emit (Called_qcut q mode);;
  let bins := quantile (values x) <$> linspace 0 1 q in
  let unique_bins := remove_dups bins in
  if decide ((length unique_bins < length bins)%nat ∧ length bins ≠ 2%nat)
  then
    match mode with
    | duplicates_raise => raise (ValueError "Bin edges must be unique")
    | duplicates_drop => mret unique_bins
    end
  else mret bins.

Definition approximation_warning : warning :=
  ApproximationWarning "Approximated quantiles - too many unique values".

Definition compute_map (self : config) (feature : string) (X : DataFrame Qc)
    (y : option (list Y)) : M (event Qc) (list (string * list Qc) * bucket_map Qc) :=
  cells ← getitem X feature;
  let '(special, (X_flt, _)) := split_specials (specials self) feature cells y in
  boundaries ←
    try_except_ValueError
      (qcut X_flt (n_bins self) duplicates_raise)
      (boundaries ← qcut X_flt (n_bins self) duplicates_drop;
       emit (Warned approximation_warning);;
       mret boundaries);
  let boundaries := slice_1_m1 boundaries in
  mret (special, Boundaries (Some <$> boundaries)).

Definition bucketer (self : config) : Bucketer Qc Y :=
  mkBucketer (variables self) numerical (Some true) (missing_treatment self)
    (compute_map self).

End EqualFrequencyBucketer.
End EqualFrequencyBucketer.

(** ** DecisionTreeBucketer *)

Module DecisionTreeBucketer.
Section DecisionTreeBucketer.
Context {Y : Type}.

Record config : Type := mkConfig {
  variables : list string;
  specials : gmap string (list (string * list Qc));
  max_n_bins : Z;
  missing_treatment : Bucketers.missing_treatment;
  min_bin_size : Qc;
  random_state : Z;
}.

(** [binner = DecisionTreeClassifier(max_leaf_nodes=, min_samples_leaf=,
    random_state=, **kwargs); binner.fit(x, y)] and then
    [binner.tree_.threshold[binner.tree_.feature != _tree.TREE_UNDEFINED]],
    of scikit-learn: the thresholds of the internal nodes. *)
Variable DecisionTreeClassifier_thresholds :
  Z → Qc → Z → list Qc → option (list Y) → M (event Qc) (list Qc).

Definition max_n_bins_msg (n_special_bins : nat) (max_n_bins0 : Z) : string :=
  "max_n_bins must be at least = the number of special bins + 2: set a value "
  +:+ "max_n_bins>= " +:+ pretty (n_special_bins + 2)%nat
  +:+ " (currently max_n_bins=" +:+ pretty max_n_bins0 +:+ ")".

(** From [X_flt, y_flt = self._filter_na_for_fit(...)] to the splits. *)
Definition fit_tree (self : config) (X : DataFrame Qc) (n_special_bins : nat)
    (X_flt : list (option Qc)) (y_flt : option (list Y)) : M (event Qc) (list Qc) :=
  let '(X_flt, y_flt) := _filter_na_for_fit X_flt y_flt in
  if decide (n_rows X = 0%nat) then raise ZeroDivisionError
  else
    let frac_left := Qc_of_nat (length X_flt) / Qc_of_nat (n_rows X) in
    if decide (0 < frac_left)
    then
      let min_bin_size0 := min_bin_size self / frac_left in
      let min_bin_size1 := if decide (1 / 2 < min_bin_size0) then 1 / 2 else min_bin_size0 in
      let max_leaf_nodes := (max_n_bins self - Z.of_nat n_special_bins)%Z in
      emit (Fitted_DecisionTreeClassifier max_leaf_nodes min_bin_size1);;
      thresholds ← DecisionTreeClassifier_thresholds max_leaf_nodes min_bin_size1
                     (random_state self) (values X_flt) y_flt;
      mret (np_unique thresholds)
    else mret [].

Definition compute_map (self : config) (feature : string) (X : DataFrame Qc)
    (y : option (list Y)) : M (event Qc) (list (string * list Qc) * bucket_map Qc) :=
  match specials self !! feature with
  | Some special =>
      let n_special_bins := length special in
      if decide (max_n_bins self - Z.of_nat n_special_bins ≤ 1)%Z
      then raise (ValueError (max_n_bins_msg n_special_bins (max_n_bins self)))
      else
        cells ← getitem X feature;
        let '(X_flt, y_flt) := _filter_specials_for_fit cells y special in
        splits ← fit_tree self X n_special_bins X_flt y_flt;
        mret (special, Boundaries (Some <$> splits))
  | None =>
      cells ← getitem X feature;
      splits ← fit_tree self X 0 cells y;
      mret ([], Boundaries (Some <$> splits))
  end.

Definition bucketer (self : config) : Bucketer Qc Y :=
  mkBucketer (variables self) numerical (Some false) (missing_treatment self)
    (compute_map self).

End DecisionTreeBucketer.
End DecisionTreeBucketer.

(** ** OrdinalCategoricalBucketer *)

Module OrdinalCategoricalBucketer.
Section OrdinalCategoricalBucketer.
Context {Val Y : Type} `{EqDecision Val}.

Inductive encoding : Type := frequency | ordered.

Record config : Type := mkConfig {
  tol : Qc;
  max_n_categories : option nat;
  variables : list string;
  specials : gmap string (list (string * list Val));
  encoding_method : encoding;
  missing_treatment : Bucketers.missing_treatment;
}.

(** [X_y[var].value_counts(normalize=True)], of pandas: the share of every
    category, by decreasing share. *)
Variable value_counts_normalized : list Val → list (Val * Qc).
(** [X_y.groupby([var])["target"].mean().sort_values(ascending=True).index] *)
Variable categories_by_target_mean : list Val → option (list Y) → list Val.

(** [normalized_counts[cats]] *)
Fixpoint reindex (normalized_counts : list (Val * Qc)) (cats : list Val)
    : M (event Val) (list (Val * Qc)) :=
  match cats with
  | [] => mret []
  | cat :: rest =>
      match PyDict.get cat normalized_counts with
      | Some share => tl ← reindex normalized_counts rest; mret ((cat, share) :: tl)
      | None => raise (KeyError "category")
      end
  end.

Definition ordered_without_y_msg : string :=
  "To use encoding_method=='ordered', y cannot be None.".

(** [normalized_counts[: self.max_n_categories]] and
    [normalized_counts[normalized_counts >= self.tol]].  The slice is taken
    by position; versions of pandas before 2.0 read an integer slice as
    labels when the categories, the index of the counts, are floats. *)
Definition frequent_categories (self : config) (normalized_counts : list (Val * Qc))
    : list (Val * Qc) :=
  let normalized_counts :=
    match max_n_categories self with
    | Some n => take n normalized_counts
    | None => normalized_counts
    end in
  filter (λ item, tol self ≤ item.2) normalized_counts.

(** [dict(zip(index, range(0, len(index))))] *)
Definition enumerate_categories (index : list Val) : list (Val * Z) :=
  foldl (λ d item, PyDict.set item.2 (Z.of_nat item.1) d) []
    (imap (λ i cat, (i, cat)) index).

(** The body of the loop of [fit] up to "Deal with missing values". *)
Definition compute_map (self : config) (var : string) (X : DataFrame Val)
    (y : option (list Y)) : M (event Val) (list (string * list Val) * bucket_map Val) :=
  cells ← getitem X var;
  let '(special, (X_flt, y_flt)) := split_specials (specials self) var cells y in
  let '(X_flt, y_flt) := _filter_na_for_fit X_flt y_flt in
  normalized_counts ←
    match encoding_method self with
    | ordered =>
        if decide (y = None :> option (list Y))
        then raise (ValueError ordered_without_y_msg)
        else
          reindex (value_counts_normalized (values X_flt))
            (categories_by_target_mean (values X_flt) y_flt)
    | frequency => mret (value_counts_normalized (values X_flt))
    end;
  let normalized_counts := frequent_categories self normalized_counts in
  mret (special, Categories (enumerate_categories (PyDict.keys normalized_counts))).

Definition bucketer (self : config) : Bucketer Val Y :=
  mkBucketer (variables self) categorical None (missing_treatment self)
    (compute_map self).

Variable Table : Type.
Variable rows : Table → list row.
Variable build_bucket_table :
  DataFrame Val → option (list Y) → string → BucketMapping Val → Table.
Variable sort_values_Count_descending : list row → list row.

(** [fit]: [assert y is not None], then the loop over the variables. *)
Definition fit (self : config) (X : DataFrame Val) (y : option (list Y))
    : M (event Val) (list (string * BucketMapping Val) * list (string * Table)) :=
  if decide (y = None :> option (list Y)) then raise AssertionError
  else
    Bucketers.fit Table rows build_bucket_table sort_values_Count_descending
      (bucketer self) X y.

End OrdinalCategoricalBucketer.
End OrdinalCategoricalBucketer.

(** ** AsIsCategoricalBucketer *)

Module AsIsCategoricalBucketer.
Section AsIsCategoricalBucketer.
Context {Val Y : Type} `{EqDecision Val}.

Record config : Type := mkConfig {
  variables : list string;
  specials : gmap string (list (string * list Val));
  missing_treatment : Bucketers.missing_treatment;
}.

Definition compute_map (self : config) (var : string) (X : DataFrame Val)
    (y : option (list Y)) : M (event Val) (list (string * list Val) * bucket_map Val) :=
  cells ← getitem X var;
  let '(special, (X_flt, y_flt)) := split_specials (specials self) var cells y in
  let '(X_flt, y_flt) := _filter_na_for_fit X_flt y_flt in
  let unq := values (unique_in_order X_flt) in
  let mapping :=
    foldl (λ d item, PyDict.set item.2 (Z.of_nat item.1) d) []
      (imap (λ i cat, (i, cat)) unq) in
  mret (special, Categories mapping).

Definition bucketer (self : config) : Bucketer Val Y :=
  mkBucketer (variables self) categorical None (missing_treatment self)
    (compute_map self).

End AsIsCategoricalBucketer.
End AsIsCategoricalBucketer.

(** ** AsIsNumericalBucketer *)

Module AsIsNumericalBucketer.
Section AsIsNumericalBucketer.
Context {Y : Type}.

Record config : Type := mkConfig {
  right : bool;
  variables : list string;
  specials : gmap string (list (string * list Qc));
  missing_treatment : Bucketers.missing_treatment;
}.

(** [boundaries.sort()] on a Python list of floats.  It permutes the list
    and orders it when no NaN is in it; with a NaN in it the order depends on
    the sorting algorithm. *)
Variable list_sort : list (option Qc) → list (option Qc).

Definition not_prebucketed_msg (feature : string) : string :=
  "The column '" +:+ feature +:+ "' has more than 100 unique values "
  +:+ "and cannot be used with the AsIsBucketer."
  +:+ "Apply a different bucketer first.".

Definition compute_map (self : config) (feature : string) (X : DataFrame Qc)
    (y : option (list Y)) : M (event Qc) (list (string * list Qc) * bucket_map Qc) :=
  cells ← getitem X feature;
  let '(special, (X_flt, _)) := split_specials (specials self) feature cells y in
  let boundaries := list_sort (unique X_flt) in
  if decide (100 < length boundaries)%nat
  then raise (NotPreBucketedError (not_prebucketed_msg feature))
  else mret (special, Boundaries boundaries).

Definition bucketer (self : config) : Bucketer Qc Y :=
  mkBucketer (variables self) numerical (Some (right self)) (missing_treatment self)
    (compute_map self).

End AsIsNumericalBucketer.
End AsIsNumericalBucketer.

(** ** UserInputBucketer *)

Module UserInputBucketer.
Section UserInputBucketer.
Context {Val Y : Type}.
Variable Table : Type.
Variable build_bucket_table :
  DataFrame Val → option (list Y) → string → BucketMapping Val → Table.

Record t : Type := mk {
  features_bucket_mapping_ : list (string * BucketMapping Val);
  variables : list string;
  bucket_tables_ : list (string * Table);
}.

(** [__init__(features_bucket_mapping, variables=[])], given a dict or a
    [FeaturesBucketMapping] (anything else is a [TypeError]): with no
    variables, all the features of the mapping are taken. *)
Definition __init__ (features_bucket_mapping : list (string * BucketMapping Val))
    (variables0 : list string) : t :=
  {| features_bucket_mapping_ := features_bucket_mapping;
     variables :=
       match variables0 with
       | [] => PyDict.keys features_bucket_mapping
       | _ => variables0
       end;
     bucket_tables_ := [] |}.

(** The loop of [fit].  The lookup [features_bucket_mapping_.get(feature)]
    is modelled from the spec, as [BucketingProcess.get]: it fails for a
    feature without a mapping. *)
Fixpoint fit_tables (fbm : list (string * BucketMapping Val)) (features : list string)
    (X : DataFrame Val) (y : option (list Y)) (bucket_tables_ : list (string * Table))
    : M (event Val) (list (string * Table)) :=
  match features with
  | [] => mret bucket_tables_
  | feature :: rest =>
      match PyDict.get feature fbm with
      | None => raise (KeyError feature)
      | Some bucket_mapping =>
          table ← call_build_bucket_table Table build_bucket_table X y feature bucket_mapping;
          fit_tables fbm rest X y (PyDict.set feature table bucket_tables_)
      end
  end.

(** [fit]: the loop fills [bucket_tables_]; the mapping and the variables
    are not touched.  The summary that is made afterwards is not part of the
    record. *)
Definition fit (self : t) (X : DataFrame Val) (y : option (list Y)) : M (event Val) t :=
  tables ← fit_tables (features_bucket_mapping_ self) (variables self) X y [];
  mret {| features_bucket_mapping_ := features_bucket_mapping_ self;
          variables := variables self;
          bucket_tables_ := tables |}.

End UserInputBucketer.
End UserInputBucketer.

(** ** Applying a mapping *)

(** Modelled from the spec: the reserved bucket of a special value in
    [BucketMapping.transform], [-3] for the first declared group, [-4] for the
    second, and so on. *)
Fixpoint special_bucket (special : list (string * list Qc)) (v : Qc) (id : Z) : option Z :=
  match special with
  | [] => None
  | (_, group) :: rest =>
      if decide (v ∈ group) then Some id else special_bucket rest v (id - 1)%Z
  end.

(** Modelled from the spec: the segment of a value among the boundaries in
    [BucketMapping.transform]; with [right] a boundary belongs to the segment
    below it, otherwise to the segment above it. *)
Definition boundary_below (right0 : bool) (v : Qc) (b : option Qc) : bool :=
  match b with
  | Some b => if right0 then bool_decide (b < v) else bool_decide (b ≤ v)
  | None => false
  end.

(** Modelled from the spec: the segment of a value is the number of
    boundaries below it. *)
Definition segment (boundaries : list (option Qc)) (right0 : bool) (v : Qc) : Z :=
  Z.of_nat (length (filter (λ b, boundary_below right0 v b = true) boundaries)).

(** Modelled from the spec: [BucketMapping.transform], whose class is not in
    the sources at hand.  A missing value goes to the missing bucket (the
    explicit one, or [-1]); a value listed under a special group goes to the
    reserved bucket of the group; any other value goes to its segment
    (numerical) or to the bucket of its category, [-2] for an unseen one
    (categorical). *)
Definition BucketMapping_transform_value (bm : BucketMapping Qc) (cell : option Qc) : Z :=
  match cell with
  | None => default (-1)%Z (missing_bucket bm)
  | Some v =>
      match special_bucket (Bucketers.specials bm) v (-3)%Z with
      | Some id => id
      | None =>
          match map bm with
          | Boundaries boundaries =>
              segment boundaries (default true (Bucketers.right bm)) v
          | Categories mapping => default (-2)%Z (PyDict.get v mapping)
          end
      end
  end.

(** Modelled from the spec: [BucketMapping.transform] on a whole column. *)
Definition BucketMapping_transform (bm : BucketMapping Qc) (cells : list (option Qc))
    : list Z :=
  BucketMapping_transform_value bm <$> cells.

End Bucketers.

(** * Vocabulary of the statements and concrete inputs *)

Module BucketingProcessSpec.
Import BucketingProcess.

(** The pre-buckets that carry the label of the group [label]. *)
Definition matching_buckets (bucket_labels : list (Z * string)) (label : string) : list Z :=
  (filter (λ item, item.2 = special_label label) bucket_labels).*1.

(** The inner loop of [_find_remapped_specials]. *)
Definition scan (label : string) (bucket_labels : list (Z * string))
    (new_specials : list (string * list Z)) : list (string * list Z) :=
  foldl (λ new_specials item,
    if decide (item.2 = special_label label)
    then PyDict.set label [item.1] new_specials
    else new_specials) new_specials bucket_labels.

(** The store after the loop over the declared specials, when every
    feature with specials has a prebucketing mapping. *)
Definition remapped {V BucketMapping : Type}
    (labels : BucketMapping → option (list (Z * string)))
    (items : list (string * list (string * list V)))
    (fbm : list (string * BucketMapping))
    (store : gmap string (list (string * list Z))) : gmap string (list (string * list Z)) :=
  foldl (λ store item,
    match PyDict.get item.1 fbm with
    | Some bm =>
        let new_specials := _find_remapped_specials (labels bm) (Some item.2) in
        if decide (length new_specials ≠ 0%nat) then <[item.1 := new_specials]> store else store
    | None => store
    end) store items.

End BucketingProcessSpec.

(** A process whose two stages are constants: a fitted [BucketMapping] is
    given by its labels, and the two pipelines return the mappings [pre] and
    [buck] whatever the data. *)
Module ToyProcess.
Import BucketingProcess.

Definition labels (bm : list (Z * string)) : option (list (Z * string)) := Some bm.
Definition X_columns (X : unit) : list string := [].
Definition build_bucket_table (X y : unit) (column : string) (bm : list (Z * string)) : unit := tt.
Definition _generate_summary (X y : unit) : unit := tt.

Definition pipeline_fit_transform (pre : list (string * list (Z * string)))
    (steps : list (Step (Estimator := string) (raw_specials Qc))) (X y : unit)
    : M warning (unit * list (string * list (Z * string))) :=
  mret (tt, pre).

Definition pipeline_fit (buck : list (string * list (Z * string)))
    (steps : list (Step (Estimator := string) remapped_specials)) (X y : unit)
    : M warning (list (string * list (Z * string))) :=
  mret buck.

Definition fit (pre buck : list (string * list (Z * string))) :=
  BucketingProcess.fit (Table := unit) (Summary := unit) labels X_columns build_bucket_table
    _generate_summary (pipeline_fit_transform pre) (pipeline_fit buck).

(** [BucketingProcess(specials=specials0)] with one bucketer in each
    pipeline. *)
Definition process (specials0 : list (string * list (string * list Qc)))
    : t (Estimator := string) (V := Qc) (BucketMapping := list (Z * string))
        (Table := unit) (Summary := unit) :=
  {| prebucketing_pipeline := [mkStep _ "DecisionTreeBucketer" specials0];
     bucketing_pipeline := [mkStep _ "OptimalBucketer" ∅];
     process_specials := specials0;
     _prebucketing_specials := specials0;
     _bucketing_specials := ∅;
     prebucketing_mapping_ := [];
     bucketing_mapping_ := [];
     prebucket_tables_ := [];
     bucket_tables_ := [];
     summary_ := None |}.

(** The labels of a feature with two pre-buckets, a missing bucket and one
    special group ["=400000.0"] in pre-bucket [-3]. *)
Definition LIMIT_BAL_labels : list (Z * string) :=
  [(0%Z, "[-inf, 25000.0)"); (1%Z, "[25000.0, inf)"); ((-1)%Z, "Missing");
   ((-3)%Z, "Special: =400000.0")].

Definition LIMIT_BAL_specials : list (string * list (string * list Qc)) :=
  [("LIMIT_BAL", [("=400000.0", [Qc_of_Z 400000])])].

(** The same feature after a prebucketing in which no value of the group
    turned up. *)
Definition LIMIT_BAL_labels_without_special : list (Z * string) :=
  [(0%Z, "[-inf, inf)"); ((-1)%Z, "Missing")].

(** A process over frames that are given by their column names, whose
    tables tell what they were built from. *)
Definition names (X : list string) : list string := X.

Definition describe_table (X : list string) (y : unit) (column : string)
    (bm : list (Z * string)) : string :=
  "table of " +:+ column +:+ " on " +:+ PyStr.join "," X.

Definition rename_bucket_id (table : string) : string := table +:+ ", renamed".

Definition with_bucket_column (table : string) (bm : list (Z * string)) : string :=
  table +:+ ", with buckets".

Definition prebucket (pre : list (string * list (Z * string)))
    (steps : list (Step (Estimator := string) (raw_specials Qc))) (X : list string) (y : unit)
    : M warning (list string * list (string * list (Z * string))) :=
  mret ((λ column, column +:+ "_prebucketed") <$> X, pre).

Definition bucket (buck : list (string * list (Z * string)))
    (steps : list (Step (Estimator := string) remapped_specials)) (X : list string) (y : unit)
    : M warning (list (string * list (Z * string))) :=
  mret buck.

Definition fit_names (pre buck : list (string * list (Z * string))) :=
  BucketingProcess.fit (Table := string) (Summary := unit) labels names describe_table
    (λ _ _, tt) (prebucket pre) (bucket buck).

Definition process_of_names (specials0 : list (string * list (string * list Qc)))
    : t (Estimator := string) (V := Qc) (BucketMapping := list (Z * string))
        (Table := string) (Summary := unit) :=
  {| prebucketing_pipeline := [mkStep _ "DecisionTreeBucketer" specials0];
     bucketing_pipeline := [mkStep _ "OptimalBucketer" ∅];
     process_specials := specials0;
     _prebucketing_specials := specials0;
     _bucketing_specials := ∅;
     prebucketing_mapping_ := [];
     bucketing_mapping_ := [];
     prebucket_tables_ := [];
     bucket_tables_ := [];
     summary_ := None |}.

End ToyProcess.

Module BucketersSpec.
Import Bucketers.

(** The normal values of a column: the cells that are neither missing nor
    listed under a special group. *)
Definition normal_values {Val} `{EqDecision Val} (special : list (string * list Val))
    (cells : list (option Val)) : list Val :=
  filter (λ v, v ∉ concat (PyDict.values special)) (omap id cells).

(** The number of distinct elements of a list. *)
Definition distinct {A} `{EqDecision A} (l : list A) : nat := length (remove_dups l).

(** The specials declared for a feature, none if the feature has no entry. *)
Definition specials_of {Val} (specials : gmap string (list (string * list Val)))
    (feature : string) : list (string * list Val) :=
  default [] (specials !! feature).

(** The midpoints between consecutive clusters, each cluster given by its
    values: the mean of the maximum of a cluster and the minimum of the next
    one. *)
Fixpoint midpoints (clusters : list (list Qc)) : list Qc :=
  match clusters with
  | lower :: ((upper :: _) as rest) => mean2 (minimum upper) (maximum lower) :: midpoints rest
  | _ => []
  end.

(** The rows [(x, label)] of clusters given with their labels. *)
Definition rows_of_clusters (clusters : list (Z * list Qc)) : list (Qc * Z) :=
  concat ((λ c : Z * list Qc, (λ v : Qc, (v, c.1)) <$> c.2) <$> clusters).

(** The clusters do not overlap and are in the order of their values: no
    value of a cluster is above a value of a later cluster. *)
Definition separated (clusters : list (list Qc)) : Prop :=
  StronglySorted (λ c1 c2, ∀ a b, a ∈ c1 → b ∈ c2 → (a ≤ b)%Qc) clusters.

End BucketersSpec.

(** External code replaced by simple functions, to run the bucketers on
    concrete columns. *)
Module Toy.
Import Bucketers.

(** A bucket table that counts the rows of every bucket of the mapping and
    labels the buckets by their number, ["Missing"] for [-1]. *)
Definition bucket_label (id : Z) : string :=
  if decide (id = -1)%Z then "Missing" else pretty id.

Definition build_bucket_table (X : DataFrame Qc) (y : option (list bool)) (column : string)
    (bm : BucketMapping Qc) : list row :=
  let ids := BucketMapping_transform bm (default [] (PyDict.get column X)) in
  (λ id, mkRow id (bucket_label id) (Z.of_nat (length (filter (λ i, i = id) ids))))
    <$> merge_sort Z.le (remove_dups ((-1)%Z :: ids)).

Definition rows (table : list row) : list row := table.

Definition Count_ge (r1 r2 : row) : Prop := (Count r2 ≤ Count r1)%Z.

Global Instance Count_ge_dec : RelDecision Count_ge.
Proof. intros r1 r2. unfold Count_ge. apply _. Defined.

Definition sort_values_Count_descending (table : list row) : list row :=
  merge_sort Count_ge table.

(** A tree with one split, at the mean of the smallest and the largest
    value. *)
Definition DecisionTreeClassifier_thresholds (max_leaf_nodes : Z) (min_samples_leaf : Qc)
    (random_state : Z) (x : list Qc) (y : option (list bool)) : M (event Qc) (list Qc) :=
  mret [mean2 (minimum x) (maximum x)].

(** The quantile that takes the value at position [floor (p * (n - 1))] of
    the sorted values. *)
Definition quantile (a : list Qc) (p : Qc) : Qc :=
  default 0%Qc
    (sort a !! Z.to_nat (Qfloor (this (p * Qc_of_nat (length a - 1))%Qc))).

(** A sort of Python lists of floats that puts the NaN last. *)
Definition float_le (a b : option Qc) : Prop :=
  match a, b with
  | Some a, Some b => (a ≤ b)%Qc
  | Some _, None => True
  | None, Some _ => False
  | None, None => True
  end.

Global Instance float_le_dec : RelDecision float_le.
Proof. intros [a|] [b|]; simpl; apply _. Defined.

Definition list_sort (l : list (option Qc)) : list (option Qc) := merge_sort float_le l.

(** A solver that keeps every other split it is given. *)
Fixpoint every_other (l : list Qc) : list Qc :=
  match l with
  | a :: _ :: l' => a :: every_other l'
  | _ => []
  end.

Definition OptimalBinning_splits (self : OptimalBucketer.config) (feature : string)
    (user_splits x : list Qc) (y : option (list bool)) : M (event Qc) (list Qc) :=
  mret (every_other user_splits).

Definition OptimalBinning_groups (self : OptimalBucketer.config) (feature : string)
    (x : list Qc) (y : option (list bool)) : M (event Qc) (list (list Qc)) :=
  mret ((λ v, [v]) <$> np_unique x).

(** The column [1, 2, ..., n]. *)
Definition column_1_to (n : nat) : list (option Qc) :=
  (λ i, Some (Qc_of_nat i)) <$> seq 1 n.

(** Bucketers of the column ["LIMIT_BAL"]; the tree is left with
    [max_n_bins = 2] for one special group. *)
Definition asis_numerical : AsIsNumericalBucketer.config :=
  AsIsNumericalBucketer.mkConfig true ["LIMIT_BAL"] ∅ separate.

Definition optimal : OptimalBucketer.config :=
  OptimalBucketer.mkConfig ["LIMIT_BAL"] ∅ numerical 10 separate (Q2Qc (1 # 20)) None 25.

Definition LIMIT_BAL_specials : gmap string (list (string * list Qc)) :=
  {[ "LIMIT_BAL" := [("=400000.0", [Qc_of_Z 400000])] ]}.

Definition tree_without_budget : DecisionTreeBucketer.config :=
  DecisionTreeBucketer.mkConfig ["LIMIT_BAL"] LIMIT_BAL_specials 2 separate
    (Q2Qc (1 # 20)) 42.

Definition tree : DecisionTreeBucketer.config :=
  DecisionTreeBucketer.mkConfig ["LIMIT_BAL"] LIMIT_BAL_specials 10 separate
    (Q2Qc (1 # 20)) 42.

Definition equal_width_most_frequent : EqualWidthBucketer.config :=
  EqualWidthBucketer.mkConfig 2 ["LIMIT_BAL"] ∅ most_frequent.

(** A column where the missing values are the most frequent. *)
Definition mostly_missing : list (option Qc) :=
  [Some (Qc_of_Z 10); Some (Qc_of_Z 20); None; None; None].

(** A clustering that finds the clusters [{1, 2}], [{5, 6}] and [{10}] in
    the column [5, 1, 10, 2, 6] and labels them [2], [0] and [1]. *)
Definition clustered : list (option Qc) :=
  (λ n : Z, Some (Qc_of_Z n)) <$> [5; 1; 10; 2; 6]%Z.

Definition AgglomerativeClustering_labels (n_clusters : nat) (x : list Qc)
    : M (event Qc) (list Z) :=
  mret [0; 2; 1; 2; 0]%Z.

Definition clusters : list (Z * list Qc) :=
  [(2%Z, [Qc_of_Z 1; Qc_of_Z 2]); (0%Z, [Qc_of_Z 5; Qc_of_Z 6]); (1%Z, [Qc_of_Z 10])].

Definition agglomerative : AgglomerativeClusteringBucketer.config :=
  AgglomerativeClusteringBucketer.mkConfig 3 ["LIMIT_BAL"] ∅ separate.

Definition equal_frequency : EqualFrequencyBucketer.config :=
  EqualFrequencyBucketer.mkConfig 4 ["LIMIT_BAL"] ∅ separate.

Definition frame (cells : list (option Qc)) : DataFrame Qc := [("LIMIT_BAL", cells)].

(** A column where the value [1] fills the first quartile. *)
Definition many_ones : list (option Qc) :=
  (λ n : Z, Some (Qc_of_Z n)) <$> [1; 1; 1; 1; 2; 3; 4; 5; 6]%Z.

End Toy.

Module ToyRefit.
Import BucketingProcess ToyProcess.
(** The process [process LIMIT_BAL_specials] after a [fit] in which the
    group ["=400000.0"] went to pre-bucket [-3]. *)
Definition fitted_once
    : t (Estimator := string) (V := Qc) (BucketMapping := list (Z * string))
        (Table := unit) (Summary := unit) :=
  {| prebucketing_pipeline := [mkStep _ "DecisionTreeBucketer" LIMIT_BAL_specials];
     bucketing_pipeline :=
       [mkStep _ "OptimalBucketer" {[ "LIMIT_BAL" := [("=400000.0", [(-3)%Z])] ]}];
     process_specials := LIMIT_BAL_specials;
     _prebucketing_specials := LIMIT_BAL_specials;
     _bucketing_specials := {[ "LIMIT_BAL" := [("=400000.0", [(-3)%Z])] ]};
     prebucketing_mapping_ := [("LIMIT_BAL", LIMIT_BAL_labels)];
     bucketing_mapping_ := [("LIMIT_BAL", [])];
     prebucket_tables_ := [];
     bucket_tables_ := [];
     summary_ := Some tt |}.
End ToyRefit.

(** Frames with several columns and bucketers of several variables. *)
Module ToyColumns.
Import Bucketers.

Definition three_columns : DataFrame Qc :=
  [("AGE", [Some (Qc_of_Z 30); None; Some (Qc_of_Z 50)]);
   ("LIMIT_BAL", Toy.column_1_to 3);
   ("EDUCATION", [Some (Qc_of_Z 2); Some (Qc_of_Z 1); Some (Qc_of_Z 2)])].

(** [AsIsNumericalBucketer(variables=["LIMIT_BAL", "AGE", "LIMIT_BAL"])] *)
Definition asis_twice : AsIsNumericalBucketer.config :=
  AsIsNumericalBucketer.mkConfig true ["LIMIT_BAL"; "AGE"; "LIMIT_BAL"] ∅ separate.

(** [EqualWidthBucketer(n_bins=2, missing_treatment=...)] *)
Definition equal_width (missing_treatment : missing_treatment) : EqualWidthBucketer.config :=
  EqualWidthBucketer.mkConfig 2 ["LIMIT_BAL"] ∅ missing_treatment.

End ToyColumns.

(** Vocabulary for the categorical bucketers. *)
Module CategoriesSpec.

(** The distinct elements of a list in the order of their first
    appearance. *)
Fixpoint in_order_of_appearance {A} `{EqDecision A} (l : list A) : list A :=
  match l with
  | [] => []
  | x :: l' => x :: filter (λ y, y ≠ x) (in_order_of_appearance l')
  end.

(** The numbering [0, 1, 2, ...] of a list of categories. *)
Definition numbered {A} (l : list A) : list (A * Z) :=
  zip l (Z.of_nat <$> seq 0 (length l)).

End CategoriesSpec.

Module ToyCategories.
Import Bucketers.

(** [OptimalBucketer(variables_type="categorical")] *)
Definition optimal_categorical : OptimalBucketer.config :=
  OptimalBucketer.mkConfig ["EDUCATION"] ∅ categorical 10 separate (Q2Qc (1 # 20)) None 25.

(** A column of categories in which [3] comes first and [1] is a special
    value. *)
Definition EDUCATION : list (option Qc) :=
  (λ n : Z, Some (Qc_of_Z n)) <$> [3; 1; 2; 3; 2]%Z.

Definition EDUCATION_specials : gmap string (list (string * list Qc)) :=
  {[ "EDUCATION" := [("=1", [Qc_of_Z 1])] ]}.

Definition frame (cells : list (option Qc)) : DataFrame Qc := [("EDUCATION", cells)].

Definition asis_categorical : AsIsCategoricalBucketer.config (Val := Qc) :=
  AsIsCategoricalBucketer.mkConfig ["EDUCATION"] EDUCATION_specials separate.

Definition asis_numerical : AsIsNumericalBucketer.config :=
  AsIsNumericalBucketer.mkConfig true ["EDUCATION"] EDUCATION_specials separate.



Definition by_decreasing_share (a b : Qc * Qc) : Prop := (b.2 ≤ a.2)%Qc.

Global Instance by_decreasing_share_dec : RelDecision by_decreasing_share.
Proof. intros a b. unfold by_decreasing_share. apply _. Defined.

(** The shares of the categories of a column, the largest first. *)
Definition value_counts_normalized (x : list Qc) : list (Qc * Qc) :=
  merge_sort by_decreasing_share
    ((λ v, (v, (Qc_of_nat (length (filter (λ u, u = v) x)) / Qc_of_nat (length x))%Qc))
       <$> CategoriesSpec.in_order_of_appearance x).

(** A target whose mean grows with the category. *)
Definition categories_by_target_mean (x : list Qc) (y : option (list bool)) : list Qc :=
  np_unique x.


End ToyCategories.

(** A mapping that a user gives to [UserInputBucketer]. *)
Module ToyUserInput.
Import Bucketers.

Definition AGE_mapping : BucketMapping Qc :=
  mkBucketMapping "AGE" numerical (Boundaries [Some (Qc_of_Z 30); Some (Qc_of_Z 50)])
    (Some true) [] None.

Definition EDUCATION_mapping : BucketMapping Qc :=
  mkBucketMapping "EDUCATION" categorical (Categories [(Qc_of_Z 1, 0); (Qc_of_Z 2, 1)])
    None [] None.

Definition features_bucket_mapping : list (string * BucketMapping Qc) :=
  [("AGE", AGE_mapping); ("EDUCATION", EDUCATION_mapping)].

End ToyUserInput.

(** A clustering whose clusters overlap: [{5, 10}] and [{1, 2, 6}] on the
    column [5, 1, 10, 2, 6]. *)
Module ToyOverlap.
Import Bucketers.

Definition AgglomerativeClustering_labels (n_clusters : nat) (x : list Qc)
    : M (event Qc) (list Z) :=
  mret [0; 1; 0; 1; 1]%Z.

Definition agglomerative : AgglomerativeClusteringBucketer.config :=
  AgglomerativeClusteringBucketer.mkConfig 2 ["LIMIT_BAL"] ∅ separate.

End ToyOverlap.

(** Equality of two rationals in lowest terms, by computation. *)
Ltac Qc_eq := apply Qc_is_canon; vm_compute; reflexivity.

(** * Facts *)

(** ** Strings *)

Module PyStrFacts.
Import PyStr.

Lemma app_cons x (a b : string) : String x a +:+ b = String x (a +:+ b).
Proof. reflexivity. Qed.

Lemma app_nil_l (a : string) : "" +:+ a = a.
Proof. reflexivity. Qed.

Lemma app_assoc (a b c : string) : (a +:+ b) +:+ c = a +:+ b +:+ c.
Proof. induction a as [|x a IH]; [done|]. rewrite !app_cons. by f_equal. Qed.

Lemma app_nil_r (a : string) : a +:+ "" = a.
Proof. induction a as [|x a IH]; [done|]. rewrite app_cons. by f_equal. Qed.

Lemma contains_refl s : contains s s.
Proof. exists "", "". by rewrite app_nil_l, app_nil_r. Qed.

Lemma contains_app_r needle a b : contains needle b → contains needle (a +:+ b).
Proof.
  intros (pre & post & ->). exists (a +:+ pre), post. by rewrite app_assoc.
Qed.

Lemma contains_app_l needle a b : contains needle a → contains needle (a +:+ b).
Proof.
  intros (pre & post & ->). exists pre, (post +:+ b).
  by rewrite !app_assoc.
Qed.

Lemma contains_here needle b : contains needle (needle +:+ b).
Proof. apply contains_app_l, contains_refl. Qed.

Lemma contains_join sep (l : list string) c : c ∈ l → contains c (join sep l).
Proof.
  unfold join. induction l as [|x l IH]; [by intros ?%elem_of_nil|].
  intros [->|Hin]%elem_of_cons; simpl.
  - destruct l; [apply contains_refl | apply contains_here].
  - destruct l as [|y l]; [by apply elem_of_nil in Hin|].
    by apply contains_app_r, contains_app_r, IH.
Qed.

Lemma prefixb_app p s : prefixb p (p +:+ s) = true.
Proof.
  induction p as [|a p IH]; [done|].
  rewrite app_cons. simpl. rewrite IH. by rewrite bool_decide_eq_true_2.
Qed.

Lemma containsb_complete needle hay : contains needle hay → containsb needle hay = true.
Proof.
  intros (pre & post & ->).
  induction pre as [|a pre IH].
  - rewrite app_nil_l. destruct needle as [|c needle]; [by destruct post|].
    rewrite app_cons. simpl. rewrite prefixb_app.
    by rewrite bool_decide_eq_true_2.
  - rewrite app_cons. simpl. rewrite IH. apply orb_true_r.
Qed.

Lemma not_contains needle hay : containsb needle hay = false → ¬ contains needle hay.
Proof. intros Hb Hc. apply containsb_complete in Hc. congruence. Qed.

End PyStrFacts.

(** ** The monad *)

Lemma bind_ret_l {E A B} (a : A) (k : A → M E B) : mret a ≫= k = k a.
Proof. unfold mbind, M_bind, bind, mret, M_ret, ret. by destruct (k a). Qed.

Lemma bind_nil_ok {E A B} (a : A) (k : A → M E B) : (([], Ok a) : M E A) ≫= k = k a.
Proof. apply bind_ret_l. Qed.

Lemma bind_raise {E A B} e (k : A → M E B) : raise e ≫= k = raise e.
Proof. done. Qed.

Lemma bind_ok {E A B} (m : M E A) (k : A → M E B) w a :
  m = (w, Ok a) → m ≫= k = (w ++ events (k a), result (k a)).
Proof. intros ->. unfold mbind, M_bind, bind, events, result. by destruct (k a). Qed.

Lemma bind_ok_eq {E A B} (m : M E A) (k : A → M E B) w a w' r :
  m = (w, Ok a) → k a = (w', r) → m ≫= k = (w ++ w', r).
Proof. intros -> Hk. unfold mbind, M_bind, bind. by rewrite Hk. Qed.

Lemma bind_raised {E A B} (m : M E A) (k : A → M E B) w e :
  m = (w, Raise e) → m ≫= k = (w, Raise e).
Proof. by intros ->. Qed.

Lemma result_bind_ok {E A B} (m : M E A) (k : A → M E B) w a :
  m = (w, Ok a) → result (m ≫= k) = result (k a).
Proof. intros Hm. by rewrite (bind_ok _ _ _ _ Hm). Qed.

Lemma events_bind_ok {E A B} (m : M E A) (k : A → M E B) w a :
  m = (w, Ok a) → events (m ≫= k) = w ++ events (k a).
Proof. intros Hm. by rewrite (bind_ok _ _ _ _ Hm). Qed.

Lemma M_eta {E A} (m : M E A) : m = (events m, result m).
Proof. by destruct m. Qed.

(** ** Dicts *)

Module PyDictFacts.
Import PyDict.

Section facts.
Context {K V : Type} `{EqDecision K}.
Implicit Types (d : list (K * V)) (k : K) (v : V).

Lemma get_set_eq d k v : get k (set k v d) = Some v.
Proof.
  induction d as [|[k' v'] d IH]; simpl.
  - by rewrite decide_True.
  - destruct (decide (k' = k)) as [->|Hne]; simpl.
    + by rewrite decide_True.
    + by rewrite decide_False.
Qed.

Lemma get_set_ne d k k' v : k ≠ k' → get k' (set k v d) = get k' d.
Proof.
  intros Hne. induction d as [|[k0 v0] d IH]; simpl.
  - by rewrite decide_False.
  - destruct (decide (k0 = k)) as [->|Hne0]; simpl.
    + by rewrite !decide_False.
    + destruct (decide (k0 = k')); [done | apply IH].
Qed.

Lemma get_Some_elem_of d k v : get k d = Some v → (k, v) ∈ d.
Proof.
  induction d as [|[k0 v0] d IH]; simpl; [done|].
  destruct (decide (k0 = k)) as [->|Hne].
  - intros [= ->]. apply elem_of_cons. by left.
  - intros Hg. apply elem_of_cons. right. by apply IH.
Qed.

Lemma get_None d k : get k d = None ↔ k ∉ keys d.
Proof.
  unfold keys. induction d as [|[k0 v0] d IH]; simpl.
  - split; [intros _; apply not_elem_of_nil | done].
  - rewrite not_elem_of_cons. destruct (decide (k0 = k)) as [->|Hne].
    + split; [done | by intros [? _]].
    + rewrite IH. split; [by intros ?; split | by intros [_ ?]].
Qed.

Lemma elem_of_get d k v : NoDup (keys d) → (k, v) ∈ d → get k d = Some v.
Proof.
  unfold keys. induction d as [|[k0 v0] d IH]; simpl.
  - by intros _ ?%elem_of_nil.
  - intros [Hk0 Hnd]%NoDup_cons [Heq|Hin]%elem_of_cons.
    + injection Heq as -> ->. by rewrite decide_True.
    + destruct (decide (k0 = k)) as [->|Hne]; [|by apply IH].
      exfalso. apply Hk0. apply list_elem_of_fmap. by exists (k, v).
Qed.

End facts.
End PyDictFacts.

(** ** Lists *)

Lemma filter_nil_intro {A} (P : A → Prop) `{∀ x, Decision (P x)} (l : list A) :
  (∀ x, x ∈ l → ¬ P x) → filter P l = [].
Proof.
  induction l as [|x l IH]; intros Hl; [done|].
  rewrite filter_cons_False by (apply Hl, elem_of_cons; by left).
  apply IH. intros y Hy. apply Hl, elem_of_cons. by right.
Qed.

Lemma filter_nil_elim {A} (P : A → Prop) `{∀ x, Decision (P x)} (l : list A) x :
  filter P l = [] → x ∈ l → ¬ P x.
Proof. intros Hf Hin HP. by eapply filter_nil_not_elem_of. Qed.

Lemma filter_all {A} (P : A → Prop) `{∀ x, Decision (P x)} (l : list A) :
  (∀ x, x ∈ l → P x) → filter P l = l.
Proof.
  induction l as [|x l IH]; intros Hl; [done|].
  rewrite filter_cons_True by (apply Hl, elem_of_cons; by left).
  f_equal. apply IH. intros y Hy. apply Hl, elem_of_cons. by right.
Qed.

(** ** BucketingProcess: remapping the specials *)

Module BucketingProcessFacts.
Import PyDictFacts BucketingProcess BucketingProcessSpec.

Lemma scan_other label label' bucket_labels acc :
  label ≠ label' → PyDict.get label' (scan label bucket_labels acc) = PyDict.get label' acc.
Proof.
  intros Hne. revert acc.
  induction bucket_labels as [|item bl IH]; intros acc; [done|].
  simpl. rewrite IH. case_decide; [by apply get_set_ne | done].
Qed.

Lemma scan_same label bucket_labels acc :
  PyDict.get label (scan label bucket_labels acc) =
    match last (matching_buckets bucket_labels label) with
    | Some bucket => Some [bucket]
    | None => PyDict.get label acc
    end.
Proof.
  unfold matching_buckets. revert acc.
  induction bucket_labels as [|item bl IH]; intros acc; [done|].
  simpl. rewrite IH. rewrite filter_cons. case_decide as Hitem; [|done].
  rewrite fmap_cons, last_cons.
  destruct (last _); [done | apply get_set_eq].
Qed.

Lemma find_remapped_get {V} bucket_labels (var_specials : list (string * V)) label :
  PyDict.get label (_find_remapped_specials (Some bucket_labels) (Some var_specials)) =
    if decide (label ∈ PyDict.keys var_specials)
    then (λ bucket, [bucket]) <$> last (matching_buckets bucket_labels label)
    else None.
Proof.
  unfold _find_remapped_specials. fold scan.
  change (foldl _ [] (PyDict.keys var_specials))
    with (foldl (λ acc l, scan l bucket_labels acc) [] (PyDict.keys var_specials)).
  assert (∀ ks acc,
    PyDict.get label (foldl (λ acc l, scan l bucket_labels acc) acc ks) =
      if decide (label ∈ ks)
      then match last (matching_buckets bucket_labels label) with
           | Some bucket => Some [bucket]
           | None => PyDict.get label acc
           end
      else PyDict.get label acc) as Hgen.
  { induction ks as [|k ks IH]; intros acc.
    - simpl. destruct (decide (label ∈ [])) as [Hin|]; [by apply elem_of_nil in Hin | done].
    - simpl foldl. rewrite IH.
      assert (PyDict.get label (scan k bucket_labels acc) =
              if decide (k = label)
              then match last (matching_buckets bucket_labels label) with
                   | Some bucket => Some [bucket]
                   | None => PyDict.get label acc
                   end
              else PyDict.get label acc) as Hk.
      { destruct (decide (k = label)) as [->|Hne];
          [apply scan_same | by apply scan_other]. }
      rewrite Hk. clear Hk.
      destruct (decide (label ∈ ks)) as [Hin|Hnin];
        destruct (decide (label ∈ k :: ks)) as [Hin'|Hnin'];
        destruct (decide (k = label)) as [->|Hne];
        try done; try (destruct (last _); done).
      + exfalso. apply Hnin'. apply elem_of_cons. by right.
      + exfalso. apply Hnin'. apply elem_of_cons. by right.
      + apply elem_of_cons in Hin' as [?|?]; congruence.
      + exfalso. apply Hnin'. apply elem_of_cons. by left. }
  rewrite Hgen. case_decide; [|done]. by destruct (last _).
Qed.

(** No group of the feature is matched: nothing is remapped. *)
Lemma find_remapped_nil {V} bucket_labels (var_specials : list (string * V)) :
  (∀ label, label ∈ PyDict.keys var_specials → matching_buckets bucket_labels label = []) →
  _find_remapped_specials (Some bucket_labels) (Some var_specials) = [].
Proof.
  intros Hnone. unfold _find_remapped_specials.
  assert (∀ ks, (∀ l, l ∈ ks → matching_buckets bucket_labels l = []) →
    foldl (λ acc l, scan l bucket_labels acc) [] ks = []) as Hgen.
  { induction ks as [|k ks IH]; intros Hks; [done|]. simpl.
    assert (scan k bucket_labels [] = []) as ->.
    { specialize (Hks k ltac:(apply elem_of_cons; by left)).
      unfold scan, matching_buckets in *.
      apply fmap_nil_inv in Hks.
      clear -Hks. induction bucket_labels as [|item bl IHb]; [done|].
      rewrite filter_cons in Hks. simpl. case_decide; [done|]. by apply IHb. }
    apply IH. intros l Hl. apply Hks, elem_of_cons. by right. }
  by apply Hgen.
Qed.

Lemma matching_buckets_unique bucket_labels label :
  NoDup bucket_labels.*1 →
  (∀ b b', (b, special_label label) ∈ bucket_labels →
           (b', special_label label) ∈ bucket_labels → b = b') →
  matching_buckets bucket_labels label = [] ∨
  ∃ bucket, matching_buckets bucket_labels label = [bucket].
Proof.
  unfold matching_buckets.
  induction bucket_labels as [|[b l] bl IH]; [by left|].
  rewrite !fmap_cons. intros [Hb Hnd1]%NoDup_cons Huniq.
  rewrite filter_cons. simpl in *. case_decide as Heq.
  - right. exists b. subst l.
    assert (filter (λ item : Z * string, item.2 = special_label label) bl = []) as ->; [|done].
    apply filter_nil_intro. intros [b' l'] Hin Hl'. simpl in Hl'. subst l'.
    assert (b = b') as <-.
    { apply Huniq; apply elem_of_cons; [by left | by right]. }
    apply Hb. apply list_elem_of_fmap. by exists (b, special_label label).
  - apply IH; [done|]. intros b1 b2 H1 H2.
    apply Huniq; apply elem_of_cons; by right.
Qed.

Lemma elem_of_matching_buckets bucket_labels label bucket :
  bucket ∈ matching_buckets bucket_labels label ↔
  (bucket, special_label label) ∈ bucket_labels.
Proof.
  unfold matching_buckets. rewrite list_elem_of_fmap. split.
  - intros ([b l] & -> & [Hl Hin]%list_elem_of_filter). simpl in *. by subst l.
  - intros Hin. exists (bucket, special_label label). split; [done|].
    by apply list_elem_of_filter.
Qed.

Lemma matching_buckets_nil bucket_labels label :
  special_label label ∉ bucket_labels.*2 → matching_buckets bucket_labels label = [].
Proof.
  intros Hnot. unfold matching_buckets.
  rewrite filter_nil_intro; [done|].
  intros [b l] Hin Hl. simpl in Hl. subst l.
  apply Hnot. apply list_elem_of_fmap. by exists (b, special_label label).
Qed.

Section remap.
Context {V BucketMapping : Type}.
Variable labels : BucketMapping → option (list (Z * string)).
Implicit Types (items : list (string * list (string * list V)))
  (fbm : list (string * BucketMapping)) (store : gmap string (list (string * list Z))).

(** The loop raises nothing and warns about nothing. *)
Lemma remap_specials_remapped items fbm store :
  (∀ var, var ∈ PyDict.keys items → is_Some (PyDict.get var fbm)) →
  remap_specials labels items fbm store = ([], Ok (remapped labels items fbm store)).
Proof.
  revert store. induction items as [|[var vs] items IH]; intros store Hall; [done|].
  simpl. destruct (Hall var) as [bm Hbm]; [apply elem_of_cons; by left|].
  unfold get. rewrite Hbm. rewrite bind_ret_l.
  rewrite IH; [done|]. intros v Hv. apply Hall, elem_of_cons. by right.
Qed.

Lemma remapped_other items fbm store var :
  var ∉ PyDict.keys items → remapped labels items fbm store !! var = store !! var.
Proof.
  revert store. induction items as [|[var' vs] items IH]; intros store Hnot; [done|].
  apply not_elem_of_cons in Hnot as [Hne Hnot]. simpl in Hne.
  unfold remapped in *. simpl. rewrite IH by done.
  destruct (PyDict.get var' fbm); [|done].
  case_decide; [by rewrite lookup_insert_ne | done].
Qed.

Lemma remapped_lookup items fbm store var var_specials bm :
  NoDup (PyDict.keys items) → (var, var_specials) ∈ items →
  PyDict.get var fbm = Some bm →
  remapped labels items fbm store !! var =
    let new_specials := _find_remapped_specials (labels bm) (Some var_specials) in
    if decide (length new_specials ≠ 0%nat) then Some new_specials else store !! var.
Proof.
  revert store. induction items as [|[var' vs] items IH]; intros store Hnd Hin Hbm.
  { by apply elem_of_nil in Hin. }
  apply NoDup_cons in Hnd as [Hvar' Hnd].
  apply elem_of_cons in Hin as [Heq|Hin].
  - injection Heq as <- <-.
    change (remapped labels ((var, var_specials) :: items) fbm store)
      with (remapped labels items fbm
              (match PyDict.get var fbm with
               | Some bm =>
                   let new_specials := _find_remapped_specials (labels bm) (Some var_specials) in
                   if decide (length new_specials ≠ 0%nat)
                   then <[var := new_specials]> store else store
               | None => store
               end)).
    rewrite remapped_other by done. rewrite Hbm. simpl.
    case_decide; [by rewrite lookup_insert_eq | done].
  - change (remapped labels ((var', vs) :: items) fbm store)
      with (remapped labels items fbm
              (match PyDict.get var' fbm with
               | Some bm =>
                   let new_specials := _find_remapped_specials (labels bm) (Some vs) in
                   if decide (length new_specials ≠ 0%nat)
                   then <[var' := new_specials]> store else store
               | None => store
               end)).
    rewrite IH by done. simpl.
    assert (var' ≠ var) as Hne.
    { intros ->. apply Hvar'. apply list_elem_of_fmap. by exists (var, var_specials). }
    case_decide; [done|].
    destruct (PyDict.get var' fbm); [|done].
    case_decide; [by rewrite lookup_insert_ne | done].
Qed.

End remap.

Lemma assign_specials_all {Estimator} store
    (steps : list (Step (Estimator := Estimator) remapped_specials)) :
  Forall (λ step, specials _ step = store) (assign_specials store steps).
Proof.
  unfold assign_specials. apply Forall_fmap, Forall_forall. by intros step _.
Qed.

(** The two checks on the columns. *)
Lemma check_columns_not_prebucketed pre_cols buck_cols :
  (∃ col, col ∈ buck_cols ∧ col ∉ pre_cols) →
  check_columns pre_cols buck_cols =
    raise (NotPreBucketedError
      (not_prebucketed_msg (filter (λ col, col ∉ pre_cols) buck_cols))).
Proof.
  intros (col & Hin & Hnot). unfold check_columns.
  rewrite decide_True; [done|].
  assert (col ∈ filter (λ col, col ∉ pre_cols) buck_cols) as Hf
    by by apply list_elem_of_filter.
  destruct (filter _ buck_cols); [by apply elem_of_nil in Hf | done].
Qed.

Lemma check_columns_not_bucketed pre_cols buck_cols :
  (∀ col, col ∈ buck_cols → col ∈ pre_cols) →
  (∃ col, col ∈ pre_cols ∧ col ∉ buck_cols) →
  check_columns pre_cols buck_cols =
    raise (NotBucketedError
      (not_bucketed_msg (filter (λ col, col ∉ buck_cols) pre_cols))).
Proof.
  intros Hsub (col & Hin & Hnot). unfold check_columns.
  rewrite filter_nil_intro by (intros c Hc Hc'; by apply Hc', Hsub).
  rewrite decide_False by (simpl; lia).
  rewrite decide_True; [done|].
  assert (col ∈ filter (λ col, col ∉ buck_cols) pre_cols) as Hf
    by by apply list_elem_of_filter.
  destruct (filter _ pre_cols); [by apply elem_of_nil in Hf | done].
Qed.

Lemma check_columns_ok pre_cols buck_cols :
  (∀ col, col ∈ buck_cols ↔ col ∈ pre_cols) →
  check_columns pre_cols buck_cols = mret tt.
Proof.
  intros Hiff. unfold check_columns.
  rewrite filter_nil_intro by (intros c Hc Hc'; by apply Hc', Hiff).
  rewrite decide_False by (simpl; lia).
  rewrite filter_nil_intro by (intros c Hc Hc'; by apply Hc', Hiff).
  by rewrite decide_False by (simpl; lia).
Qed.

Lemma not_prebucketed_msg_lists cols col :
  col ∈ cols → PyStr.contains col (not_prebucketed_msg cols).
Proof.
  intros Hin. unfold not_prebucketed_msg.
  apply PyStrFacts.contains_app_r, PyStrFacts.contains_app_l.
  by apply PyStrFacts.contains_join.
Qed.

Lemma not_bucketed_msg_lists cols col :
  col ∈ cols → PyStr.contains col (not_bucketed_msg cols).
Proof.
  intros Hin. unfold not_bucketed_msg.
  apply PyStrFacts.contains_app_r, PyStrFacts.contains_app_l.
  by apply PyStrFacts.contains_join.
Qed.

End BucketingProcessFacts.

(** ** BucketingProcess: the claims *)

Section BucketingProcess_claims.
Import BucketingProcess BucketingProcessSpec BucketingProcessFacts.

Context {DataFrame Target Estimator V BucketMapping Table Summary : Type}.
Variable labels : BucketMapping → option (list (Z * string)).
Variable X_columns : DataFrame → list string.
Variable build_bucket_table : DataFrame → Target → string → BucketMapping → Table.
Variable _generate_summary : DataFrame → Target → Summary.
Variable pipeline_fit_transform :
  list (Step (Estimator := Estimator) (raw_specials V)) → DataFrame → Target
  → M warning (DataFrame * list (string * BucketMapping)).
Variable pipeline_fit :
  list (Step (Estimator := Estimator) remapped_specials) → DataFrame → Target
  → M warning (list (string * BucketMapping)).

Local Abbreviation process := (t (Estimator := Estimator) (V := V) (BucketMapping := BucketMapping)
                       (Table := Table) (Summary := Summary)).
Local Abbreviation fit := (fit labels X_columns build_bucket_table _generate_summary
                   pipeline_fit_transform pipeline_fit).
Local Abbreviation finish_fit := (finish_fit X_columns build_bucket_table _generate_summary).

(** [fit], once the prebucketing stage has returned and every feature with
    declared specials has a prebucketing mapping. *)
Lemma fit_after_prebucketing (self : process) X y w1 Xp pre :
  pipeline_fit_transform (prebucketing_pipeline self) X y = (w1, Ok (Xp, pre)) →
  (∀ var, var ∈ PyDict.keys (_prebucketing_specials self) → is_Some (PyDict.get var pre)) →
  let store := remapped labels (_prebucketing_specials self) pre (_bucketing_specials self) in
  let steps := assign_specials store (bucketing_pipeline self) in
  let rest := buck_fbm ← pipeline_fit steps Xp y;
              finish_fit self X Xp y pre store steps buck_fbm in
  fit self X y = (w1 ++ events rest, result rest).
Proof.
  intros H1 Hall store steps rest. unfold BucketingProcess.fit.
  rewrite (bind_ok _ _ _ _ H1). cbv beta iota.
  rewrite (remap_specials_remapped labels _ _ _ Hall), bind_nil_ok.
  done.
Qed.

Lemma result_finish_fit_raise (self : process) X Xp y pre store steps buck e :
  result (check_columns (columns pre) (columns buck)) = Raise e →
  result (finish_fit self X Xp y pre store steps buck) = Raise e.
Proof.
  unfold BucketingProcess.finish_fit.
  destruct (check_columns (columns pre) (columns buck)) as [w [[]|e']]; simpl; [done|].
  by intros [= ->].
Qed.

Lemma result_finish_fit_ok (self : process) X Xp y pre store steps buck :
  result (check_columns (columns pre) (columns buck)) = Ok tt →
  ∃ self', result (finish_fit self X Xp y pre store steps buck) = Ok self'.
Proof.
  unfold BucketingProcess.finish_fit.
  destruct (check_columns (columns pre) (columns buck)) as [w [[]|e']]; simpl; [|done].
  intros _. unfold mbind, M_bind, bind, mret, M_ret, ret, result. simpl. eauto.
Qed.

(** C1 (as amended).  Once both stages are fitted, [fit] compares the
    columns of the two mappings.  A column that is bucketed but not
    pre-bucketed makes it raise [NotPreBucketedError]; when there is no such
    column, a column that is pre-bucketed but not bucketed makes it raise
    [NotBucketedError]; the message lists every offending column; the two
    errors are different exceptions; with the same columns on both sides the
    call returns. *)
Theorem fit_column_coverage (self : process) X y w1 Xp pre w2 store w3 buck :
  pipeline_fit_transform (prebucketing_pipeline self) X y = (w1, Ok (Xp, pre)) →
  remap_specials labels (_prebucketing_specials self) pre (_bucketing_specials self)
    = (w2, Ok store) →
  pipeline_fit (assign_specials store (bucketing_pipeline self)) Xp y = (w3, Ok buck) →
  ((∃ col, col ∈ columns buck ∧ col ∉ columns pre) →
     ∃ msg, result (fit self X y) = Raise (NotPreBucketedError msg) ∧
            ∀ col, col ∈ columns buck → col ∉ columns pre → PyStr.contains col msg) ∧
  ((∀ col, col ∈ columns buck → col ∈ columns pre) →
   (∃ col, col ∈ columns pre ∧ col ∉ columns buck) →
     ∃ msg, result (fit self X y) = Raise (NotBucketedError msg) ∧
            ∀ col, col ∈ columns pre → col ∉ columns buck → PyStr.contains col msg) ∧
  ((∀ col, col ∈ columns buck ↔ col ∈ columns pre) →
     ∃ self', result (fit self X y) = Ok self') ∧
  (∀ msg msg', NotPreBucketedError msg ≠ NotBucketedError msg').
Proof.
  intros H1 H2 H3.
  assert (result (fit self X y) =
          result (finish_fit self X Xp y pre store
                    (assign_specials store (bucketing_pipeline self)) buck)) as Hfit.
  { unfold BucketingProcess.fit. rewrite (bind_ok _ _ _ _ H1). cbv beta iota.
    unfold result at 1. cbn [snd].
    rewrite (result_bind_ok _ _ _ _ H2). by rewrite (result_bind_ok _ _ _ _ H3). }
  rewrite Hfit. clear Hfit.
  repeat split.
  - intros Hex. eexists. split.
    + apply result_finish_fit_raise.
      by rewrite (check_columns_not_prebucketed _ _ Hex).
    + intros col Hin Hnot. apply not_prebucketed_msg_lists.
      by apply list_elem_of_filter.
  - intros Hsub Hex. eexists. split.
    + apply result_finish_fit_raise.
      by rewrite (check_columns_not_bucketed _ _ Hsub Hex).
    + intros col Hin Hnot. apply not_bucketed_msg_lists.
      by apply list_elem_of_filter.
  - intros Hiff. apply result_finish_fit_ok. by rewrite (check_columns_ok _ _ Hiff).
  - done.
Qed.

(** C4.  For a feature with declared specials, [fit] remaps every group
    from the labels of the prebucketing mapping with
    [_find_remapped_specials], a function of those labels and of the declared
    groups only: the group [label] gets as values the pre-bucket whose label
    is ["Special: " + label].  The remapped specials are on every step of the
    bucketing pipeline when that pipeline is fitted. *)
Theorem fit_remaps_specials (self : process) X y w1 Xp pre :
  NoDup (PyDict.keys (_prebucketing_specials self)) →
  pipeline_fit_transform (prebucketing_pipeline self) X y = (w1, Ok (Xp, pre)) →
  (∀ var, var ∈ PyDict.keys (_prebucketing_specials self) → is_Some (PyDict.get var pre)) →
  ∃ store steps,
    remap_specials labels (_prebucketing_specials self) pre (_bucketing_specials self)
      = ([], Ok store) ∧
    (∀ var var_specials bm bucket_labels label,
       (var, var_specials) ∈ _prebucketing_specials self →
       PyDict.get var pre = Some bm →
       labels bm = Some bucket_labels →
       NoDup bucket_labels.*1 →
       (∀ b b', (b, special_label label) ∈ bucket_labels →
                (b', special_label label) ∈ bucket_labels → b = b') →
       label ∈ PyDict.keys var_specials →
       special_label label ∈ bucket_labels.*2 →
       store !! var = Some (_find_remapped_specials (labels bm) (Some var_specials)) ∧
       store !! var ≫= PyDict.get label = Some (matching_buckets bucket_labels label) ∧
       (∀ bucket, bucket ∈ matching_buckets bucket_labels label ↔
                  (bucket, special_label label) ∈ bucket_labels)) ∧
    steps = assign_specials store (bucketing_pipeline self) ∧
    length steps = length (bucketing_pipeline self) ∧
    Forall (λ step, specials _ step = store) steps ∧
    fit self X y =
      (let rest := buck_fbm ← pipeline_fit steps Xp y;
                   finish_fit self X Xp y pre store steps buck_fbm in
       (w1 ++ events rest, result rest)).
Proof.
  intros Hnd H1 Hall.
  exists (remapped labels (_prebucketing_specials self) pre (_bucketing_specials self)).
  eexists. split; [by apply remap_specials_remapped|].
  split; [|split; [reflexivity|]].
  - intros var vs bm bl label Hin Hbm Hl Hndb Huniq Hlabel Hocc.
    assert (∃ bucket, matching_buckets bl label = [bucket]) as [bucket Hm].
    { destruct (matching_buckets_unique bl label Hndb Huniq) as [Hnil|?]; [|done].
      exfalso. apply list_elem_of_fmap in Hocc as ([b l] & Heq & Hb). simpl in Heq.
      subst l. apply elem_of_matching_buckets in Hb. rewrite Hnil in Hb.
      by apply elem_of_nil in Hb. }
    assert (PyDict.get label (_find_remapped_specials (labels bm) (Some vs))
            = Some (matching_buckets bl label)) as Hget.
    { rewrite Hl, find_remapped_get, decide_True by done. by rewrite Hm. }
    assert (remapped labels (_prebucketing_specials self) pre (_bucketing_specials self) !! var
            = Some (_find_remapped_specials (labels bm) (Some vs))) as Hvar.
    { rewrite (remapped_lookup labels _ _ _ _ _ _ Hnd Hin Hbm). simpl.
      rewrite decide_True; [done|].
      destruct (_find_remapped_specials (labels bm) (Some vs)); [done | simpl; lia]. }
    split; [done|]. split; [by rewrite Hvar|].
    intros b. apply elem_of_matching_buckets.
  - split; [unfold assign_specials; by rewrite length_fmap|].
    split; [apply assign_specials_all|].
    by apply fit_after_prebucketing.
Qed.


End BucketingProcess_claims.

(** *** The claims on a concrete process *)

(** C1 as first stated fails: the prebucketing stage covers ["AGE"] only
    and the bucketing stage ["LIMIT_BAL"] only, so ["AGE"] is pre-bucketed
    but not bucketed, and yet [fit] raises [NotPreBucketedError], for
    ["LIMIT_BAL"], and not [NotBucketedError]. *)
Lemma fit_column_coverage_counterexample :
  ("AGE" ∈ BucketingProcess.columns [("AGE", ToyProcess.LIMIT_BAL_labels)] ∧
   "AGE" ∉ BucketingProcess.columns [("LIMIT_BAL", ToyProcess.LIMIT_BAL_labels)]) ∧
  (∃ msg,
     result (ToyProcess.fit [("AGE", ToyProcess.LIMIT_BAL_labels)]
               [("LIMIT_BAL", ToyProcess.LIMIT_BAL_labels)] (ToyProcess.process []) tt tt)
     = Raise (NotPreBucketedError msg)) ∧
  ¬ (∃ msg,
     result (ToyProcess.fit [("AGE", ToyProcess.LIMIT_BAL_labels)]
               [("LIMIT_BAL", ToyProcess.LIMIT_BAL_labels)] (ToyProcess.process []) tt tt)
     = Raise (NotBucketedError msg)).
Proof.
  split; [split|split].
  - apply elem_of_cons. by left.
  - intros [?|?%elem_of_nil]%elem_of_cons; done.
  - eexists. vm_compute. reflexivity.
  - intros [msg Hmsg]. vm_compute in Hmsg. discriminate Hmsg.
Qed.

Lemma fit_column_coverage_witness :
  (ToyProcess.pipeline_fit_transform
     [("LIMIT_BAL", ToyProcess.LIMIT_BAL_labels); ("AGE", [])]
     (BucketingProcess.prebucketing_pipeline (ToyProcess.process ToyProcess.LIMIT_BAL_specials))
     tt tt
   = ([], Ok (tt, [("LIMIT_BAL", ToyProcess.LIMIT_BAL_labels); ("AGE", [])])) ∧
   BucketingProcess.remap_specials ToyProcess.labels
     (BucketingProcess._prebucketing_specials (ToyProcess.process ToyProcess.LIMIT_BAL_specials))
     [("LIMIT_BAL", ToyProcess.LIMIT_BAL_labels); ("AGE", [])]
     (BucketingProcess._bucketing_specials (ToyProcess.process ToyProcess.LIMIT_BAL_specials))
   = ([], Ok {[ "LIMIT_BAL" := [("=400000.0", [(-3)%Z])] ]}) ∧
   ToyProcess.pipeline_fit [("LIMIT_BAL", [])]
     (BucketingProcess.assign_specials {[ "LIMIT_BAL" := [("=400000.0", [(-3)%Z])] ]}
        (BucketingProcess.bucketing_pipeline (ToyProcess.process ToyProcess.LIMIT_BAL_specials)))
     tt tt
   = ([], Ok [("LIMIT_BAL", [])])) ∧
  ∃ msg,
    result (ToyProcess.fit [("LIMIT_BAL", ToyProcess.LIMIT_BAL_labels); ("AGE", [])]
              [("LIMIT_BAL", [])] (ToyProcess.process ToyProcess.LIMIT_BAL_specials) tt tt)
    = Raise (NotBucketedError msg) ∧ PyStr.contains "AGE" msg.
Proof.
  assert (BucketingProcess.remap_specials ToyProcess.labels
     (BucketingProcess._prebucketing_specials (ToyProcess.process ToyProcess.LIMIT_BAL_specials))
     [("LIMIT_BAL", ToyProcess.LIMIT_BAL_labels); ("AGE", [])]
     (BucketingProcess._bucketing_specials (ToyProcess.process ToyProcess.LIMIT_BAL_specials))
   = ([], Ok {[ "LIMIT_BAL" := [("=400000.0", [(-3)%Z])] ]})) as H2.
  { vm_compute. reflexivity. }
  split; [split; [reflexivity | split; [exact H2 | reflexivity]] |].
  destruct (fit_column_coverage ToyProcess.labels ToyProcess.X_columns
              ToyProcess.build_bucket_table ToyProcess._generate_summary
              (ToyProcess.pipeline_fit_transform
                 [("LIMIT_BAL", ToyProcess.LIMIT_BAL_labels); ("AGE", [])])
              (ToyProcess.pipeline_fit [("LIMIT_BAL", [])])
              (ToyProcess.process ToyProcess.LIMIT_BAL_specials) tt tt
              [] tt [("LIMIT_BAL", ToyProcess.LIMIT_BAL_labels); ("AGE", [])]
              [] {[ "LIMIT_BAL" := [("=400000.0", [(-3)%Z])] ]}
              [] [("LIMIT_BAL", [])] eq_refl H2 eq_refl)
    as (_ & Hnb & _).
  destruct Hnb as (msg & Hmsg & Hlists).
  - intros col [->|?%elem_of_nil]%elem_of_cons; [|done]. apply elem_of_cons. by left.
  - exists "AGE". split.
    + apply elem_of_cons. right. apply elem_of_cons. by left.
    + intros [?|?%elem_of_nil]%elem_of_cons; done.
  - exists msg. split; [exact Hmsg|]. apply Hlists.
    + apply elem_of_cons. right. apply elem_of_cons. by left.
    + intros [?|?%elem_of_nil]%elem_of_cons; done.
Defined.

Lemma fit_remaps_specials_witness :
  (NoDup (PyDict.keys (BucketingProcess._prebucketing_specials
                         (ToyProcess.process ToyProcess.LIMIT_BAL_specials))) ∧
   ToyProcess.pipeline_fit_transform [("LIMIT_BAL", ToyProcess.LIMIT_BAL_labels)]
     (BucketingProcess.prebucketing_pipeline (ToyProcess.process ToyProcess.LIMIT_BAL_specials))
     tt tt
   = ([], Ok (tt, [("LIMIT_BAL", ToyProcess.LIMIT_BAL_labels)])) ∧
   (∀ var, var ∈ PyDict.keys (BucketingProcess._prebucketing_specials
                                (ToyProcess.process ToyProcess.LIMIT_BAL_specials)) →
           is_Some (PyDict.get var [("LIMIT_BAL", ToyProcess.LIMIT_BAL_labels)]))) ∧
  ∃ store steps,
    store !! "LIMIT_BAL" ≫= PyDict.get "=400000.0" = Some [(-3)%Z] ∧
    Forall (λ step, BucketingProcess.specials _ step = store) steps ∧
    length steps = 1%nat ∧
    ToyProcess.fit [("LIMIT_BAL", ToyProcess.LIMIT_BAL_labels)] [("LIMIT_BAL", [])]
      (ToyProcess.process ToyProcess.LIMIT_BAL_specials) tt tt
    = (let rest :=
         buck_fbm ← ToyProcess.pipeline_fit [("LIMIT_BAL", [])] steps tt tt;
         BucketingProcess.finish_fit ToyProcess.X_columns ToyProcess.build_bucket_table
           ToyProcess._generate_summary (ToyProcess.process ToyProcess.LIMIT_BAL_specials)
           tt tt tt [("LIMIT_BAL", ToyProcess.LIMIT_BAL_labels)] store steps buck_fbm in
       ([] ++ events rest, result rest)).
Proof.
  assert (NoDup (PyDict.keys (BucketingProcess._prebucketing_specials
                                (ToyProcess.process ToyProcess.LIMIT_BAL_specials)))) as Hnd.
  { apply NoDup_singleton. }
  assert (∀ var, var ∈ PyDict.keys (BucketingProcess._prebucketing_specials
                                      (ToyProcess.process ToyProcess.LIMIT_BAL_specials)) →
                 is_Some (PyDict.get var [("LIMIT_BAL", ToyProcess.LIMIT_BAL_labels)])) as Hall.
  { intros var [->|?%elem_of_nil]%elem_of_cons; [by eexists | done]. }
  split; [split; [exact Hnd | split; [reflexivity | exact Hall]] |].
  destruct (fit_remaps_specials ToyProcess.labels ToyProcess.X_columns
              ToyProcess.build_bucket_table ToyProcess._generate_summary
              (ToyProcess.pipeline_fit_transform [("LIMIT_BAL", ToyProcess.LIMIT_BAL_labels)])
              (ToyProcess.pipeline_fit [("LIMIT_BAL", [])])
              (ToyProcess.process ToyProcess.LIMIT_BAL_specials) tt tt
              [] tt [("LIMIT_BAL", ToyProcess.LIMIT_BAL_labels)] Hnd eq_refl Hall)
    as (store & steps & _ & Hgroup & _ & Hlen & Hsteps & Hfit).
  exists store, steps. split; [|split; [exact Hsteps | split; [exact Hlen | exact Hfit]]].
  destruct (Hgroup "LIMIT_BAL" [("=400000.0", [Qc_of_Z 400000])] ToyProcess.LIMIT_BAL_labels
              ToyProcess.LIMIT_BAL_labels "=400000.0") as (_ & Hget & _).
  - apply elem_of_cons. by left.
  - reflexivity.
  - reflexivity.
  - apply (bool_decide_unpack _). by vm_compute.
  - intros b b' Hb Hb'. vm_compute in Hb, Hb'.
    repeat (apply elem_of_cons in Hb as [Hb|Hb]; [try discriminate Hb|]);
      [|by apply elem_of_nil in Hb].
    repeat (apply elem_of_cons in Hb' as [Hb'|Hb']; [try discriminate Hb'|]);
      [|by apply elem_of_nil in Hb'].
    congruence.
  - apply elem_of_cons. by left.
  - apply (bool_decide_unpack _). by vm_compute.
  - exact Hget.
Defined.



(** ** Bucketers: the part of [fit] that all bucketers share *)

Module BucketersFacts.
Import Bucketers.

Section shared.
Context {Val Y : Type} `{EqDecision Val}.
Variable Table : Type.
Variable rows : Table → list row.
Variable build_bucket_table :
  DataFrame Val → option (list Y) → string → BucketMapping Val → Table.
Variable sort_values_Count_descending : list row → list row.

Local Abbreviation fit_feature :=
  (fit_feature (Val := Val) (Y := Y) Table rows build_bucket_table sort_values_Count_descending).
Local Abbreviation fit_features :=
  (fit_features (Val := Val) (Y := Y) Table rows build_bucket_table
     sort_values_Count_descending).
Local Abbreviation most_frequent_bucket :=
  (most_frequent_bucket (Val := Val) sort_values_Count_descending).

(** An exception while the map of a feature is computed ends [fit_feature],
    and with it [fit]: the loop stops at the first feature that raises. *)
Lemma fit_feature_raise (self : Bucketer Val Y) feature X y w e :
  compute_map self feature X y = (w, Raise e) →
  fit_feature self feature X y = (w, Raise e).
Proof. intros Hc. unfold Bucketers.fit_feature. by rewrite (bind_raised _ _ _ _ Hc). Qed.

Lemma fit_features_raise (self : Bucketer Val Y) features feature X y e mappings tables :
  feature ∈ features →
  result (fit_feature self feature X y) = Raise e →
  ∃ e', result (fit_features self features X y mappings tables) = Raise e'.
Proof.
  revert mappings tables. induction features as [|f features IH]; intros mappings tables.
  { by intros ?%elem_of_nil. }
  intros Hin Hraise. simpl.
  destruct (fit_feature self f X y) as [w [[bm table]|e0]] eqn:Hf.
  - rewrite (bind_ok _ _ _ _ eq_refl). cbv beta iota. unfold result at 1. cbn [snd].
    apply IH; [|done].
    apply elem_of_cons in Hin as [->|Hin]; [|done].
    rewrite Hf in Hraise. discriminate Hraise.
  - exists e0. by rewrite (bind_raised _ _ _ _ eq_refl).
Qed.

(** What the sort of pandas promises: the rows of the table, by decreasing
    [Count]. *)
Hypothesis sort_values_Permutation : ∀ table, sort_values_Count_descending table ≡ₚ table.
Hypothesis sort_values_Sorted :
  ∀ table, Sorted (λ r1 r2, (Count r2 ≤ Count r1)%Z) (sort_values_Count_descending table).

Lemma sort_values_StronglySorted table :
  StronglySorted (λ r1 r2, (Count r2 ≤ Count r1)%Z) (sort_values_Count_descending table).
Proof.
  apply Sorted_StronglySorted; [|apply sort_values_Sorted].
  intros r1 r2 r3 ??. lia.
Qed.

(** The row that ["most_frequent"] picks: it is not the row labelled
    ["Missing"], and no other such row has a higher count. *)
Lemma most_frequent_bucket_spec table :
  (length (filter (λ r, label r = "Missing") table) ≤ 1)%nat →
  (∃ r, r ∈ table ∧ label r ≠ "Missing") →
  ∃ r top,
    sort_values_Count_descending table !! 0%nat = Some top ∧
    (if decide (label top ≠ "Missing") then r = top
     else sort_values_Count_descending table !! 1%nat = Some r) ∧
    r ∈ table ∧ label r ≠ "Missing" ∧
    (∀ r', r' ∈ table → label r' ≠ "Missing" → (Count r' ≤ Count r)%Z) ∧
    most_frequent_bucket table = ([], Ok (bucket_id r)).
Proof.
  intros Hone (r0 & Hr0 & Hl0).
  pose proof (sort_values_Permutation table) as Hperm.
  pose proof (sort_values_StronglySorted table) as Hsorted.
  unfold Bucketers.most_frequent_bucket.
  assert (length (filter (λ r, label r = "Missing") (sort_values_Count_descending table))
          ≤ 1)%nat as Hone' by by rewrite Hperm.
  assert (∀ r, r ∈ table ↔ r ∈ sort_values_Count_descending table) as Hmem.
  { intros r. by rewrite Hperm. }
  destruct (sort_values_Count_descending table) as [|top rest] eqn:Hs.
  { apply Hmem in Hr0. by apply elem_of_nil in Hr0. }
  apply StronglySorted_inv in Hsorted as [Hrest Htop].
  destruct (decide (label top ≠ "Missing")) as [Htl|Htl].
  - exists top, top. simpl. rewrite decide_True by done.
    split; [done|]. split; [done|].
    split; [apply Hmem, elem_of_cons; by left|]. split; [done|].
    split; [|by case_decide].
    intros r' Hr' _. apply Hmem, elem_of_cons in Hr' as [->|Hr']; [lia|].
    by eapply Forall_forall in Htop.
  - apply dec_stable in Htl.
    rewrite filter_cons_True in Hone' by done. simpl in Hone'.
    assert (filter (λ r, label r = "Missing") rest = []) as Hnone.
    { destruct (filter _ rest); [done | simpl in Hone'; lia]. }
    destruct rest as [|second rest'].
    { apply Hmem, elem_of_cons in Hr0 as [->|Hr0]; [done | by apply elem_of_nil in Hr0]. }
    assert (label second ≠ "Missing") as Hsl.
    { eapply (filter_nil_elim _ _ second Hnone). apply elem_of_cons. by left. }
    exists second, top. simpl. rewrite decide_False by (intros Hn; by apply Hn).
    split; [done|]. split; [done|].
    split; [apply Hmem, elem_of_cons; right; apply elem_of_cons; by left|].
    split; [done|]. split; [|by case_decide].
    intros r' Hr' Hl'. apply Hmem, elem_of_cons in Hr' as [->|Hr']; [done|].
    apply elem_of_cons in Hr' as [->|Hr']; [lia|].
    apply StronglySorted_inv in Hrest as [_ Hsecond].
    by eapply Forall_forall in Hsecond.
Qed.

(** C3.  Under ["most_frequent"], [fit] builds the bucket table once, with
    no bucket for the missing values, takes as missing bucket the bucket of
    the row with the highest count that is not labelled ["Missing"] (the
    first row of the sorted table, or the second one when the first is
    labelled ["Missing"]), builds the [BucketMapping] again with that bucket
    and builds the bucket table once more. *)
Theorem fit_feature_most_frequent (self : Bucketer Val Y) feature X y w special splits :
  bucketer_missing_treatment self = most_frequent →
  compute_map self feature X y = (w, Ok (special, splits)) →
  let first_mapping :=
    mkBucketMapping feature (bucketer_type self) splits (bucketer_right self) special None in
  let table := rows (build_bucket_table X y feature first_mapping) in
  (length (filter (λ r, label r = "Missing") table) ≤ 1)%nat →
  (∃ r, r ∈ table ∧ label r ≠ "Missing") →
  ∃ r top,
    sort_values_Count_descending table !! 0%nat = Some top ∧
    (if decide (label top ≠ "Missing") then r = top
     else sort_values_Count_descending table !! 1%nat = Some r) ∧
    r ∈ table ∧ label r ≠ "Missing" ∧
    (∀ r', r' ∈ table → label r' ≠ "Missing" → (Count r' ≤ Count r)%Z) ∧
    let second_mapping :=
      mkBucketMapping feature (bucketer_type self) splits (bucketer_right self) special
        (Some (bucket_id r)) in
    fit_feature self feature X y =
      (w ++ [Built_bucket_table feature first_mapping;
             Built_bucket_table feature second_mapping],
       Ok (second_mapping, build_bucket_table X y feature second_mapping)).
Proof.
  intros Hmt Hc first_mapping table Hone Hex.
  destruct (most_frequent_bucket_spec table Hone Hex)
    as (r & top & Htop & Hpick & Hin & Hlabel & Hmax & Hmf).
  exists r, top. do 5 (split; [done|]).
  unfold Bucketers.fit_feature.
  apply (bind_ok_eq _ _ w (special, splits)); [exact Hc|]. cbv beta iota.
  rewrite Hmt. simpl initial_missing_bucket. fold first_mapping.
  apply (bind_ok_eq _ _ [Built_bucket_table feature first_mapping]
           (build_bucket_table X y feature first_mapping)
           [Built_bucket_table feature _]); [reflexivity|].
  fold table. apply (bind_ok_eq _ _ [] (bucket_id r)); [exact Hmf|].
  reflexivity.
Qed.

(** Under any other treatment of the missing values the table is built
    once. *)
Lemma fit_feature_other (self : Bucketer Val Y) feature X y w special splits :
  bucketer_missing_treatment self ≠ most_frequent →
  compute_map self feature X y = (w, Ok (special, splits)) →
  let mapping :=
    mkBucketMapping feature (bucketer_type self) splits (bucketer_right self) special
      (initial_missing_bucket (bucketer_missing_treatment self) feature) in
  fit_feature self feature X y =
    (w ++ [Built_bucket_table feature mapping],
     Ok (mapping, build_bucket_table X y feature mapping)).
Proof.
  intros Hmt Hc mapping.
  unfold Bucketers.fit_feature.
  apply (bind_ok_eq _ _ w (special, splits)); [exact Hc|]. cbv beta iota.
  fold mapping.
  apply (bind_ok_eq _ _ [Built_bucket_table feature mapping]
           (build_bucket_table X y feature mapping) []); [reflexivity|].
  by destruct (bucketer_missing_treatment self).
Qed.

End shared.

End BucketersFacts.

(** ** Columns: filters and distinct values *)

Module ColumnFacts.
Import Bucketers BucketersSpec.

Lemma select_fmap {A} (f : A → bool) (l : list A) :
  select (f <$> l) l = filter (λ x, f x = true) l.
Proof.
  induction l as [|x l IH]; [done|].
  rewrite fmap_cons. cbn [select]. rewrite IH, filter_cons.
  destruct (f x); by case_decide.
Qed.

Lemma length_sort (l : list Qc) : length (sort l) = length l.
Proof. unfold sort. by rewrite merge_sort_Permutation. Qed.

Lemma length_np_unique (l : list Qc) : length (np_unique l) = distinct l.
Proof. unfold np_unique, distinct. apply length_sort. Qed.

Section filters.
Context {Val Y : Type} `{EqDecision Val}.
Implicit Types (cells : list (option Val)) (y : option (list Y))
  (special : list (string * list Val)).

Lemma filter_specials_cells cells y special :
  (_filter_specials_for_fit cells y special).1 =
    filter (λ cell, is_special special cell = false) cells.
Proof.
  unfold _filter_specials_for_fit. simpl. rewrite select_fmap.
  apply list_filter_iff. intros cell. by destruct (is_special special cell).
Qed.

Lemma filter_na_cells cells y :
  (_filter_na_for_fit cells y).1 = filter is_Some cells.
Proof.
  unfold _filter_na_for_fit. simpl. rewrite select_fmap.
  apply list_filter_iff. intros cell. by rewrite bool_decide_eq_true.
Qed.

Lemma values_cons_Some (v : Val) cells : values (Some v :: cells) = v :: values cells.
Proof. reflexivity. Qed.

Lemma values_cons_None cells : values (None :: cells) = values (Val := Val) cells.
Proof. reflexivity. Qed.

Lemma values_filter_na cells y : values (_filter_na_for_fit cells y).1 = values cells.
Proof.
  rewrite filter_na_cells.
  induction cells as [|[v|] cells IH]; [done| |].
  - rewrite filter_cons_True by by eexists. by rewrite !values_cons_Some, IH.
  - rewrite filter_cons_False by by intros [? ?]. by rewrite values_cons_None.
Qed.

(** The rows that reach the fit hold the normal values of the column. *)
Lemma values_normal cells y special :
  values (_filter_specials_for_fit cells y special).1 = normal_values special cells.
Proof.
  rewrite filter_specials_cells. unfold normal_values. fold (values cells).
  induction cells as [|[v|] cells IH]; [done| |].
  - rewrite values_cons_Some.
    destruct (decide (v ∈ concat (PyDict.values special))) as [Hin|Hnot].
    + rewrite filter_cons_False
        by (unfold is_special; by rewrite bool_decide_eq_true_2).
      rewrite filter_cons_False by (by intros ?). done.
    + rewrite filter_cons_True
        by (unfold is_special; by rewrite bool_decide_eq_false_2).
      rewrite filter_cons_True by done. by rewrite values_cons_Some, IH.
  - rewrite filter_cons_True by done. by rewrite !values_cons_None.
Qed.

Lemma normal_values_nil_special cells : normal_values [] cells = values cells.
Proof.
  unfold normal_values, values. apply filter_all. intros v _. apply not_elem_of_nil.
Qed.

(** The cells of a feature that [split_specials] leaves for the fit. *)
Lemma split_specials_values (specials : gmap string (list (string * list Val))) feature
    cells y :
  (split_specials specials feature cells y).1 = specials_of specials feature ∧
  values (split_specials specials feature cells y).2.1
    = normal_values (specials_of specials feature) cells.
Proof.
  unfold split_specials, specials_of.
  destruct (specials !! feature) as [special|]; cbn [fst snd default].
  - split; [done | apply values_normal].
  - split; [done | by rewrite normal_values_nil_special].
Qed.

Lemma getitem_Some (X : DataFrame Val) feature cells :
  PyDict.get feature X = Some cells → getitem X feature = mret cells.
Proof. intros Hget. unfold getitem. by rewrite Hget. Qed.

End filters.

End ColumnFacts.

(** ** The preconditions of OptimalBucketer, AsIsNumericalBucketer and
    DecisionTreeBucketer *)

Module PreconditionFacts.
Import Bucketers BucketersSpec ColumnFacts.

Lemma elem_of_values {Val} (cells : list (option Val)) v : v ∈ values cells ↔ Some v ∈ cells.
Proof.
  unfold values. rewrite list_elem_of_omap. split.
  - intros (x & Hx & Hid). simpl in Hid. by subst x.
  - intros Hin. by exists (Some v).
Qed.

(** [Series.unique()] counts the missing value as one value more. *)
Lemma length_unique {Val} `{EqDecision Val} (cells : list (option Val)) :
  length (unique cells) =
    (distinct (values cells) + if decide (None ∈ cells) then 1 else 0)%nat.
Proof.
  unfold unique, distinct.
  induction cells as [|[v|] cells IH]; [done| |].
  - rewrite values_cons_Some. cbn [remove_dups].
    assert (None ∈ Some v :: cells ↔ None ∈ cells) as Hnone.
    { rewrite elem_of_cons. split; [by intros [?|?] | by right]. }
    rewrite (decide_ext _ _ _ _ Hnone).
    destruct (decide_rel elem_of (Some v) cells) as [Hin|Hnot];
      destruct (decide_rel elem_of v (values cells)) as [Hin'|Hnot'].
    + by rewrite IH.
    + exfalso. by apply Hnot', elem_of_values.
    + exfalso. by apply Hnot, elem_of_values.
    + cbn [length]. by rewrite IH.
  - rewrite values_cons_None. cbn [remove_dups].
    rewrite (decide_True (P := None ∈ None :: cells)) by (apply elem_of_cons; by left).
    destruct (decide_rel elem_of None cells) as [Hin|Hnot].
    + rewrite IH. by rewrite decide_True.
    + cbn [length]. rewrite IH. rewrite decide_False by done. lia.
Qed.

Section OptimalBucketer.
Import OptimalBucketer.
Context {Y : Type}.
Variable OptimalBinning_splits :
  config → string → list Qc → list Qc → option (list Y) → M (event Qc) (list Qc).
Variable OptimalBinning_groups :
  config → string → list Qc → option (list Y) → M (event Qc) (list (list Qc)).

Local Abbreviation compute_map := (compute_map OptimalBinning_splits OptimalBinning_groups).

(** A numerical feature with more than 100 distinct normal values is
    refused, and with at most 100 the solver is run on the normal values. *)
Lemma OptimalBucketer_numerical (self : config) feature X y cells :
  variables_type self = numerical →
  PyDict.get feature X = Some cells →
  let special := specials_of (specials self) feature in
  let normal := normal_values special cells in
  ((100 < distinct normal)%nat →
     compute_map self feature X y =
       raise (NotPreBucketedError (not_prebucketed_msg feature (distinct normal)))) ∧
  ((distinct normal ≤ 100)%nat →
     ∃ y_flt,
       compute_map self feature X y =
         (splits ← OptimalBinning_splits self feature (np_unique normal) normal y_flt;
          mret (special, Boundaries (Some <$> splits)))).
Proof.
  intros Htype Hget special normal. unfold OptimalBucketer.compute_map.
  rewrite (getitem_Some _ _ _ Hget), bind_ret_l, Htype.
  destruct (split_specials_values (specials self) feature cells y) as [Hsp Hvals].
  destruct (split_specials (specials self) feature cells y) as [special' [X_flt y_flt]].
  cbn [fst snd] in Hsp, Hvals. subst special'.
  pose proof (values_filter_na X_flt y_flt) as Hna.
  destruct (_filter_na_for_fit X_flt y_flt) as [X_flt' y_flt'].
  cbn [fst] in Hna. rewrite Hna, Hvals. fold special normal.
  rewrite length_np_unique. split.
  - intros Hmany. by rewrite decide_True.
  - intros Hfew. exists y_flt'. by rewrite decide_False by lia.
Qed.

Lemma OptimalBucketer_msg_names feature n :
  PyStr.contains feature (not_prebucketed_msg feature n) ∧
  PyStr.contains "100" (not_prebucketed_msg feature n).
Proof.
  unfold not_prebucketed_msg. split.
  - do 3 apply PyStrFacts.contains_app_r. apply PyStrFacts.contains_here.
  - do 7 apply PyStrFacts.contains_app_r. apply PyStrFacts.contains_app_l.
    by exists "to max ", " unique values (for performance reasons).".
Qed.

End OptimalBucketer.

Section AsIsNumericalBucketer.
Import AsIsNumericalBucketer.
Context {Y : Type}.
Variable list_sort : list (option Qc) → list (option Qc).
Hypothesis length_list_sort : ∀ l, length (list_sort l) = length l.

Local Abbreviation compute_map := (compute_map (Y := Y) list_sort).

(** The column is refused when the cells left after the specials hold more
    than 100 distinct values, the missing value counted as one of them. *)
Lemma AsIsNumericalBucketer_cells (self : config) feature X y cells :
  PyDict.get feature X = Some cells →
  let special := specials_of (specials self) feature in
  let X_flt := (split_specials (specials self) feature cells y).2.1 in
  ((100 < length (unique X_flt))%nat →
     compute_map self feature X y = raise (NotPreBucketedError (not_prebucketed_msg feature))) ∧
  ((length (unique X_flt) ≤ 100)%nat →
     compute_map self feature X y = mret (special, Boundaries (list_sort (unique X_flt)))).
Proof.
  intros Hget special X_flt. unfold AsIsNumericalBucketer.compute_map.
  rewrite (getitem_Some _ _ _ Hget), bind_ret_l.
  destruct (split_specials_values (specials self) feature cells y) as [Hsp _].
  subst X_flt.
  destruct (split_specials (specials self) feature cells y) as [special' [X_flt y_flt]].
  cbn [fst snd] in *. subst special'. fold special.
  rewrite length_list_sort. split.
  - intros Hmany. by rewrite decide_True.
  - intros Hfew. by rewrite decide_False by lia.
Qed.

Lemma AsIsNumericalBucketer_msg_names feature :
  PyStr.contains feature (not_prebucketed_msg feature) ∧
  PyStr.contains "100" (not_prebucketed_msg feature).
Proof.
  unfold not_prebucketed_msg. split.
  - apply PyStrFacts.contains_app_r, PyStrFacts.contains_here.
  - do 2 apply PyStrFacts.contains_app_r. apply PyStrFacts.contains_app_l.
    by exists "' has more than ", " unique values ".
Qed.

End AsIsNumericalBucketer.

Section DecisionTreeBucketer.
Import DecisionTreeBucketer.
Context {Y : Type}.
Variable DecisionTreeClassifier_thresholds :
  Z → Qc → Z → list Qc → option (list Y) → M (event Qc) (list Qc).

Local Abbreviation compute_map := (compute_map DecisionTreeClassifier_thresholds).

Lemma DecisionTreeBucketer_budget (self : config) feature X y special :
  specials self !! feature = Some special →
  (max_n_bins self - Z.of_nat (length special) ≤ 1)%Z →
  compute_map self feature X y =
    raise (ValueError (max_n_bins_msg (length special) (max_n_bins self))).
Proof.
  intros Hsp Hbudget. unfold DecisionTreeBucketer.compute_map.
  rewrite Hsp. by rewrite decide_True.
Qed.

Lemma DecisionTreeBucketer_msg_names n_special_bins max_n_bins0 :
  PyStr.contains (pretty (n_special_bins + 2)%nat) (max_n_bins_msg n_special_bins max_n_bins0) ∧
  PyStr.contains (pretty max_n_bins0) (max_n_bins_msg n_special_bins max_n_bins0).
Proof.
  unfold max_n_bins_msg. split.
  - do 2 apply PyStrFacts.contains_app_r. apply PyStrFacts.contains_here.
  - do 4 apply PyStrFacts.contains_app_r. apply PyStrFacts.contains_here.
Qed.

End DecisionTreeBucketer.

End PreconditionFacts.

(** *** The claims about the preconditions *)

Section precondition_claims.
Import Bucketers BucketersSpec ColumnFacts PreconditionFacts BucketersFacts.
Context {Y : Type}.
Variable Table : Type.
Variable rows : Table → list row.
Variable build_bucket_table :
  DataFrame Qc → option (list Y) → string → BucketMapping Qc → Table.
Variable sort_values_Count_descending : list row → list row.
Variable OptimalBinning_splits :
  OptimalBucketer.config → string → list Qc → list Qc → option (list Y)
  → M (event Qc) (list Qc).
Variable OptimalBinning_groups :
  OptimalBucketer.config → string → list Qc → option (list Y)
  → M (event Qc) (list (list Qc)).
Variable list_sort : list (option Qc) → list (option Qc).
Variable DecisionTreeClassifier_thresholds :
  Z → Qc → Z → list Qc → option (list Y) → M (event Qc) (list Qc).

Local Abbreviation fit :=
  (Bucketers.fit (Val := Qc) (Y := Y) Table rows build_bucket_table
     sort_values_Count_descending).
Local Abbreviation Optimal :=
  (OptimalBucketer.bucketer OptimalBinning_splits OptimalBinning_groups).
Local Abbreviation AsIsNumerical := (AsIsNumericalBucketer.bucketer (Y := Y) list_sort).
Local Abbreviation DecisionTree :=
  (DecisionTreeBucketer.bucketer DecisionTreeClassifier_thresholds).

Lemma split_specials_None (specials : gmap string (list (string * list Qc))) feature
    (cells : list (option Qc)) (y : option (list Y)) :
  None ∈ cells → None ∈ (split_specials specials feature cells y).2.1.
Proof.
  intros Hin. unfold split_specials.
  destruct (specials !! feature) as [special|]; cbn [fst snd]; [|done].
  rewrite filter_specials_cells. by apply list_elem_of_filter.
Qed.

(** An exception in the map of one of the variables ends [fit]. *)
Lemma fit_aborts (self : Bucketer Qc Y) feature X y e :
  feature ∈ _check_variables X (variables self) →
  compute_map self feature X y = raise e →
  ∃ e', result (fit self X y) = Raise e'.
Proof.
  intros Hin Hraise. unfold Bucketers.fit.
  eapply fit_features_raise; [exact Hin|].
  by rewrite (fit_feature_raise _ _ _ _ _ _ _ _ _ _ Hraise).
Qed.

(** C2 (the code departs from the claim).  [AsIsNumericalBucketer] takes
    the distinct values of the column without removing the missing values,
    which [OptimalBucketer] removes first: a column with exactly 100
    distinct normal values and a missing value is refused as not
    pre-bucketed. *)
Theorem AsIsNumericalBucketer_counts_missing_value
    (self : AsIsNumericalBucketer.config) feature X (y : option (list Y)) cells :
  (∀ l, length (list_sort l) = length l) →
  PyDict.get feature X = Some cells →
  distinct (normal_values (specials_of (AsIsNumericalBucketer.specials self) feature) cells)
    = 100%nat →
  None ∈ cells →
  AsIsNumericalBucketer.compute_map list_sort self feature X y =
    raise (NotPreBucketedError (AsIsNumericalBucketer.not_prebucketed_msg feature)).
Proof.
  intros Hsort Hget Hdistinct Hnone.
  apply (AsIsNumericalBucketer_cells list_sort Hsort self feature X y cells Hget).
  rewrite length_unique.
  destruct (split_specials_values (AsIsNumericalBucketer.specials self) feature cells y)
    as [_ ->].
  rewrite Hdistinct. rewrite decide_True by by apply split_specials_None. lia.
Qed.

(** On such a column [OptimalBucketer] goes on to the solver. *)
Lemma OptimalBucketer_ignores_missing_value
    (self : OptimalBucketer.config) feature X (y : option (list Y)) cells :
  OptimalBucketer.variables_type self = numerical →
  PyDict.get feature X = Some cells →
  distinct (normal_values (specials_of (OptimalBucketer.specials self) feature) cells)
    = 100%nat →
  ∃ y_flt,
    OptimalBucketer.compute_map OptimalBinning_splits OptimalBinning_groups self feature X y =
      (splits ← OptimalBinning_splits self feature
                  (np_unique (normal_values
                     (specials_of (OptimalBucketer.specials self) feature) cells))
                  (normal_values (specials_of (OptimalBucketer.specials self) feature) cells)
                  y_flt;
       mret (specials_of (OptimalBucketer.specials self) feature,
             Boundaries (Some <$> splits))).
Proof.
  intros Htype Hget Hdistinct.
  apply (OptimalBucketer_numerical OptimalBinning_splits OptimalBinning_groups
           self feature X y cells Htype Hget).
  lia.
Qed.

(** C7 (as amended).  The three precondition errors end [fit].  The message
    of [OptimalBucketer] and of [AsIsNumericalBucketer] names the feature and
    the threshold of 100 values; the message of [DecisionTreeBucketer] names
    the threshold, the number of special bins plus 2, and the [max_n_bins] at
    hand. *)
Theorem precondition_errors_abort_with_message X (y : option (list Y)) feature cells :
  PyDict.get feature X = Some cells →
  (∀ self : OptimalBucketer.config,
     OptimalBucketer.variables_type self = numerical →
     feature ∈ _check_variables X (OptimalBucketer.variables self) →
     (100 < distinct (normal_values
                        (specials_of (OptimalBucketer.specials self) feature) cells))%nat →
     ∃ msg,
       compute_map (Optimal self) feature X y = raise (NotPreBucketedError msg) ∧
       PyStr.contains feature msg ∧ PyStr.contains "100" msg ∧
       ∃ e, result (fit (Optimal self) X y) = Raise e) ∧
  (∀ self : AsIsNumericalBucketer.config,
     (∀ l, length (list_sort l) = length l) →
     feature ∈ _check_variables X (AsIsNumericalBucketer.variables self) →
     (100 < length (unique
                      (split_specials (AsIsNumericalBucketer.specials self) feature cells y).2.1))%nat →
     ∃ msg,
       compute_map (AsIsNumerical self) feature X y = raise (NotPreBucketedError msg) ∧
       PyStr.contains feature msg ∧ PyStr.contains "100" msg ∧
       ∃ e, result (fit (AsIsNumerical self) X y) = Raise e) ∧
  (∀ (self : DecisionTreeBucketer.config) special,
     DecisionTreeBucketer.specials self !! feature = Some special →
     feature ∈ _check_variables X (DecisionTreeBucketer.variables self) →
     (DecisionTreeBucketer.max_n_bins self - Z.of_nat (length special) ≤ 1)%Z →
     ∃ msg,
       compute_map (DecisionTree self) feature X y = raise (ValueError msg) ∧
       PyStr.contains (pretty (length special + 2)%nat) msg ∧
       PyStr.contains (pretty (DecisionTreeBucketer.max_n_bins self)) msg ∧
       ∃ e, result (fit (DecisionTree self) X y) = Raise e).
Proof.
  intros Hget. split; [|split].
  - intros self Htype Hin Hmany.
    destruct (OptimalBucketer_numerical OptimalBinning_splits OptimalBinning_groups
                self feature X y cells Htype Hget) as [Hraise _].
    specialize (Hraise Hmany). eexists. split; [exact Hraise|].
    split; [apply OptimalBucketer_msg_names|]. split; [apply OptimalBucketer_msg_names|].
    by eapply (fit_aborts (Optimal self)).
  - intros self Hsort Hin Hmany.
    destruct (AsIsNumericalBucketer_cells list_sort Hsort self feature X y cells Hget)
      as [Hraise _].
    specialize (Hraise Hmany). eexists. split; [exact Hraise|].
    split; [apply AsIsNumericalBucketer_msg_names|].
    split; [apply AsIsNumericalBucketer_msg_names|].
    by eapply (fit_aborts (AsIsNumerical self)).
  - intros self special Hsp Hin Hbudget.
    pose proof (DecisionTreeBucketer_budget DecisionTreeClassifier_thresholds
                  self feature X y special Hsp Hbudget) as Hraise.
    eexists. split; [exact Hraise|].
    split; [apply DecisionTreeBucketer_msg_names|].
    split; [apply DecisionTreeBucketer_msg_names|].
    by eapply (fit_aborts (DecisionTree self)).
Qed.

End precondition_claims.

(** A column with the 100 values [1, ..., 100] and one missing value. *)
Lemma AsIsNumericalBucketer_counts_missing_value_witness :
  ((∀ l, length (Toy.list_sort l) = length l) ∧
   PyDict.get "LIMIT_BAL" (Toy.frame (Toy.column_1_to 100 ++ [None]))
   = Some (Toy.column_1_to 100 ++ [None]) ∧
   BucketersSpec.distinct
     (BucketersSpec.normal_values
        (BucketersSpec.specials_of
           (Bucketers.AsIsNumericalBucketer.specials Toy.asis_numerical) "LIMIT_BAL")
        (Toy.column_1_to 100 ++ [None])) = 100%nat ∧
   None ∈ Toy.column_1_to 100 ++ [None]) ∧
  Bucketers.AsIsNumericalBucketer.compute_map (Y := bool) Toy.list_sort Toy.asis_numerical
    "LIMIT_BAL" (Toy.frame (Toy.column_1_to 100 ++ [None])) None
  = raise (NotPreBucketedError
      "The column 'LIMIT_BAL' has more than 100 unique values and cannot be used with the AsIsBucketer.Apply a different bucketer first.").
Proof.
  assert (∀ l, length (Toy.list_sort l) = length l) as Hsort.
  { intros l. unfold Toy.list_sort. by rewrite merge_sort_Permutation. }
  assert (None ∈ Toy.column_1_to 100 ++ [None]) as Hnone.
  { apply elem_of_app. right. apply elem_of_cons. by left. }
  assert (BucketersSpec.distinct
     (BucketersSpec.normal_values
        (BucketersSpec.specials_of
           (Bucketers.AsIsNumericalBucketer.specials Toy.asis_numerical) "LIMIT_BAL")
        (Toy.column_1_to 100 ++ [None])) = 100%nat) as Hdistinct.
  { vm_compute. reflexivity. }
  split; [split; [exact Hsort | split; [reflexivity | split; [exact Hdistinct | exact Hnone]]] |].
  exact (AsIsNumericalBucketer_counts_missing_value Toy.list_sort Toy.asis_numerical
           "LIMIT_BAL" (Toy.frame (Toy.column_1_to 100 ++ [None])) None
           (Toy.column_1_to 100 ++ [None]) Hsort eq_refl Hdistinct Hnone).
Defined.

(** C7 as first stated fails: with one special group and [max_n_bins = 2]
    the tree bucketer of ["LIMIT_BAL"] raises a [ValueError] whose message
    does not name the feature. *)
Lemma precondition_errors_abort_with_message_counterexample :
  Bucketers.DecisionTreeBucketer.compute_map Toy.DecisionTreeClassifier_thresholds
    Toy.tree_without_budget "LIMIT_BAL" (Toy.frame (Toy.column_1_to 5)) None
  = raise (ValueError
      "max_n_bins must be at least = the number of special bins + 2: set a value max_n_bins>= 3 (currently max_n_bins=2)") ∧
  ¬ PyStr.contains "LIMIT_BAL"
      "max_n_bins must be at least = the number of special bins + 2: set a value max_n_bins>= 3 (currently max_n_bins=2)".
Proof.
  split; [vm_compute; reflexivity|].
  apply PyStrFacts.not_contains. vm_compute. reflexivity.
Qed.

Lemma precondition_errors_abort_with_message_witness :
  PyDict.get "LIMIT_BAL" (Toy.frame (Toy.column_1_to 101)) = Some (Toy.column_1_to 101) ∧
  (∃ msg,
     Bucketers.OptimalBucketer.compute_map Toy.OptimalBinning_splits Toy.OptimalBinning_groups
       Toy.optimal "LIMIT_BAL" (Toy.frame (Toy.column_1_to 101)) None
     = raise (NotPreBucketedError msg) ∧
     PyStr.contains "LIMIT_BAL" msg ∧ PyStr.contains "100" msg) ∧
  (∃ msg,
     Bucketers.AsIsNumericalBucketer.compute_map (Y := bool) Toy.list_sort Toy.asis_numerical
       "LIMIT_BAL" (Toy.frame (Toy.column_1_to 101)) None
     = raise (NotPreBucketedError msg) ∧
     PyStr.contains "LIMIT_BAL" msg ∧ PyStr.contains "100" msg) ∧
  (∃ msg,
     Bucketers.DecisionTreeBucketer.compute_map Toy.DecisionTreeClassifier_thresholds
       Toy.tree_without_budget "LIMIT_BAL" (Toy.frame (Toy.column_1_to 101)) None
     = raise (ValueError msg) ∧
     PyStr.contains "3" msg ∧ PyStr.contains "2" msg ∧
     ∃ e, result (Bucketers.fit (list Bucketers.row) Toy.rows Toy.build_bucket_table
                    Toy.sort_values_Count_descending
                    (Bucketers.DecisionTreeBucketer.bucketer
                       Toy.DecisionTreeClassifier_thresholds Toy.tree_without_budget)
                    (Toy.frame (Toy.column_1_to 101)) None) = Raise e).
Proof.
  split; [reflexivity|].
  destruct (precondition_errors_abort_with_message (list Bucketers.row) Toy.rows
              Toy.build_bucket_table Toy.sort_values_Count_descending
              Toy.OptimalBinning_splits Toy.OptimalBinning_groups Toy.list_sort
              Toy.DecisionTreeClassifier_thresholds
              (Toy.frame (Toy.column_1_to 101)) None "LIMIT_BAL" (Toy.column_1_to 101)
              eq_refl) as (Hoptimal & Hasis & Htree).
  split; [|split].
  - destruct (Hoptimal Toy.optimal eq_refl) as (msg & Hraise & Hf & Ht & _).
    + apply elem_of_cons. by left.
    + vm_compute. lia.
    + by exists msg.
  - destruct (Hasis Toy.asis_numerical) as (msg & Hraise & Hf & Ht & _).
    + intros l. unfold Toy.list_sort. by rewrite merge_sort_Permutation.
    + apply elem_of_cons. by left.
    + vm_compute. lia.
    + by exists msg.
  - destruct (Htree Toy.tree_without_budget [("=400000.0", [Qc_of_Z 400000])] eq_refl)
      as (msg & Hraise & Hthreshold & Hcurrent & Habort).
    + apply elem_of_cons. by left.
    + vm_compute. discriminate.
    + by exists msg.
Defined.

(** ** EqualWidthBucketer *)

Section EqualWidthBucketer_claims.
Import Bucketers BucketersFacts.
Context {Y : Type}.
Variable Table : Type.
Variable rows : Table → list row.
Variable build_bucket_table :
  DataFrame Qc → option (list Y) → string → BucketMapping Qc → Table.
Variable sort_values_Count_descending : list row → list row.

Local Abbreviation fit_feature :=
  (Bucketers.fit_feature (Val := Qc) (Y := Y) Table rows build_bucket_table
     sort_values_Count_descending).

(** The histogram has one edge more than bins, so [n_bins - 1] edges are
    left once the two outer ones are dropped. *)
Lemma length_linspace start stop num : length (linspace start stop num) = S num.
Proof. unfold linspace. by rewrite length_fmap, length_seq. Qed.

Lemma length_slice_1_m1 {A} (l : list A) : length (slice_1_m1 l) = (length l - 2)%nat.
Proof. unfold slice_1_m1. rewrite length_take, length_drop. lia. Qed.

Lemma EqualWidthBucketer_n_boundaries (a : list Qc) (bins : nat) edges w :
  histogram_bin_edges (E := event Qc) a bins = (w, Ok edges) →
  length (slice_1_m1 edges) = (bins - 1)%nat.
Proof.
  unfold histogram_bin_edges. case_decide; [done|].
  destruct (histogram_outer_edges a) as [first_edge last_edge].
  intros [= _ <-]. rewrite length_slice_1_m1, length_linspace. lia.
Qed.

(** The map of a feature: the inner edges of the histogram of its normal
    values. *)
Lemma EqualWidthBucketer_compute_map (self : EqualWidthBucketer.config) feature X
    (y : option (list Y)) cells :
  PyDict.get feature X = Some cells →
  let special := BucketersSpec.specials_of (EqualWidthBucketer.specials self) feature in
  EqualWidthBucketer.compute_map self feature X y =
    (boundaries ← histogram_bin_edges (BucketersSpec.normal_values special cells)
                    (EqualWidthBucketer.n_bins self);
     mret (special, Boundaries (Some <$> slice_1_m1 boundaries))).
Proof.
  intros Hget special. unfold EqualWidthBucketer.compute_map.
  rewrite (ColumnFacts.getitem_Some _ _ _ Hget), bind_ret_l.
  destruct (ColumnFacts.split_specials_values (EqualWidthBucketer.specials self)
              feature cells y) as [Hsp Hval].
  destruct (split_specials (EqualWidthBucketer.specials self) feature cells y)
    as [special' [X_flt y_flt]].
  cbn [fst snd] in Hsp, Hval. subst special'. fold special in Hval.
  pose proof (ColumnFacts.values_filter_na X_flt y_flt) as Hna.
  destruct (_filter_na_for_fit X_flt y_flt) as [X_flt' y_flt'].
  cbn [fst] in Hna. by rewrite Hna, Hval.
Qed.

(** C5.  On the column [10, 20, 30, 40, NaN] with [n_bins = 2] and no
    specials, the histogram of the four values that are present has the edges
    [10, 25, 40]; without the two outer edges the boundary [25] is left, and
    the transform gives the buckets [0, 0, 1, 1, -1]. *)
Theorem EqualWidthBucketer_two_bins (y : option (list Y)) :
  let cells := [Some (Qc_of_Z 10); Some (Qc_of_Z 20); Some (Qc_of_Z 30); Some (Qc_of_Z 40);
                None] in
  let X := [("x", cells)] in
  let self := EqualWidthBucketer.bucketer (Y := Y)
                (EqualWidthBucketer.mkConfig 2 ["x"] ∅ separate) in
  let bucket_mapping :=
    mkBucketMapping "x" numerical (Boundaries [Some (Qc_of_Z 25)]) (Some true) [] None in
  values (_filter_na_for_fit cells y).1
    = [Qc_of_Z 10; Qc_of_Z 20; Qc_of_Z 30; Qc_of_Z 40] ∧
  histogram_bin_edges (E := event Qc) (values (_filter_na_for_fit cells y).1) 2
    = mret [Qc_of_Z 10; Qc_of_Z 25; Qc_of_Z 40] ∧
  slice_1_m1 [Qc_of_Z 10; Qc_of_Z 25; Qc_of_Z 40] = [Qc_of_Z 25] ∧
  fit_feature self "x" X y =
    ([Built_bucket_table "x" bucket_mapping],
     Ok (bucket_mapping, build_bucket_table X y "x" bucket_mapping)) ∧
  BucketMapping_transform bucket_mapping cells = [0; 0; 1; 1; -1]%Z.
Proof.
  intros cells X self bucket_mapping.
  assert (histogram_bin_edges (E := event Qc)
            [Qc_of_Z 10; Qc_of_Z 20; Qc_of_Z 30; Qc_of_Z 40] 2
          = mret [Qc_of_Z 10; Qc_of_Z 25; Qc_of_Z 40]) as Hedges.
  { unfold histogram_bin_edges, histogram_outer_edges.
    rewrite decide_False by done.
    assert (minimum [Qc_of_Z 10; Qc_of_Z 20; Qc_of_Z 30; Qc_of_Z 40] = Qc_of_Z 10) as ->
      by (vm_compute; reflexivity).
    assert (maximum [Qc_of_Z 10; Qc_of_Z 20; Qc_of_Z 30; Qc_of_Z 40] = Qc_of_Z 40) as ->
      by (vm_compute; reflexivity).
    rewrite decide_False by (intros Heq; by apply Z2Qc_inj in Heq).
    unfold linspace. cbn [seq fmap list_fmap]. unfold mret, M_ret, ret.
    repeat f_equal; Qc_eq. }
  split; [reflexivity|]. split; [exact Hedges|]. split; [reflexivity|].
  split; [|vm_compute; reflexivity].
  apply (fit_feature_other Table rows build_bucket_table sort_values_Count_descending
           self "x" X y [] [] (Boundaries [Some (Qc_of_Z 25)])); [done|].
  change (compute_map self "x" X y)
    with (EqualWidthBucketer.compute_map (EqualWidthBucketer.mkConfig 2 ["x"] ∅ separate)
            "x" X y).
  unfold EqualWidthBucketer.compute_map.
  change (getitem X "x") with (mret (M := M (event Qc)) cells). rewrite bind_ret_l.
  change (split_specials
            (EqualWidthBucketer.specials (EqualWidthBucketer.mkConfig 2 ["x"] ∅ separate))
            "x" cells y) with (@nil (string * list Qc), (cells, y)).
  cbv beta iota.
  destruct (_filter_na_for_fit cells y) as [X_flt y_flt] eqn:Hna.
  assert (values X_flt = [Qc_of_Z 10; Qc_of_Z 20; Qc_of_Z 30; Qc_of_Z 40]) as ->.
  { change X_flt with (X_flt, y_flt).1. by rewrite <- Hna. }
  change (EqualWidthBucketer.n_bins (EqualWidthBucketer.mkConfig 2 ["x"] ∅ separate))
    with 2%nat.
  rewrite Hedges, bind_ret_l. reflexivity.
Qed.

End EqualWidthBucketer_claims.

(** ** DecisionTreeBucketer *)

Section DecisionTreeBucketer_claims.
Import Bucketers BucketersSpec ColumnFacts DecisionTreeBucketer.
Local Open Scope Qc_scope.
Context {Y : Type}.
Variable DecisionTreeClassifier_thresholds :
  Z → Qc → Z → list Qc → option (list Y) → M (event Qc) (list Qc).

Local Abbreviation compute_map := (compute_map DecisionTreeClassifier_thresholds).
Local Abbreviation fit_tree := (fit_tree DecisionTreeClassifier_thresholds).

Lemma Qc_of_nat_pos n : (0 < n)%nat → 0 < Qc_of_nat n.
Proof.
  intros Hn. unfold Qc_of_nat. rewrite <- Z2Qc_inj_0.
  apply (proj1 (Z2Qc_inj_lt 0 (Z.of_nat n))). lia.
Qed.

Lemma Qc_of_nat_0 : Qc_of_nat 0 = 0.
Proof. apply Z2Qc_inj_0. Qed.

Lemma Qcdiv_pos a b : 0 < a → 0 < b → 0 < a / b.
Proof. intros Ha Hb. unfold Qcdiv. apply Qcmult_pos_pos; [done | by apply Qcinv_pos]. Qed.

Lemma Qcdiv_0_l b : 0 / b = 0.
Proof. unfold Qcdiv. apply Qcmult_0_l. Qed.

(** Capping at one half. *)
Lemma cap_half m : (if decide (1 / 2 < m) then 1 / 2 else m) = Qc_min m (1 / 2).
Proof.
  unfold Qc_min. destruct (decide (1 / 2 < m)) as [Hlt|Hnlt].
  - rewrite decide_False; [done|]. by apply Qclt_not_le.
  - rewrite decide_True; [done|]. by apply Qcnot_lt_le.
Qed.

Lemma length_filter_na {Val} (cells : list (option Val)) (y : option (list Y)) :
  length (_filter_na_for_fit cells y).1 = length (values cells).
Proof.
  rewrite filter_na_cells.
  induction cells as [|[v|] cells IH]; [done| |].
  - rewrite filter_cons_True by by eexists. rewrite values_cons_Some. simpl. by rewrite IH.
  - rewrite filter_cons_False by by intros [? ?]. by rewrite values_cons_None.
Qed.

(** The tree of a feature, from the rows left after the specials. *)
Lemma fit_tree_spec (self : config) X n_special_bins X_flt y_flt :
  n_rows X ≠ 0%nat →
  let remaining := length (values X_flt) in
  let frac_left := Qc_of_nat remaining / Qc_of_nat (n_rows X) in
  let max_leaf_nodes := (max_n_bins self - Z.of_nat n_special_bins)%Z in
  let min_samples_leaf := Qc_min (min_bin_size self / frac_left) (1 / 2) in
  ((0 < remaining)%nat →
     ∃ y_flt',
       fit_tree self X n_special_bins X_flt y_flt =
         (emit (Fitted_DecisionTreeClassifier max_leaf_nodes min_samples_leaf);;
          thresholds ← DecisionTreeClassifier_thresholds max_leaf_nodes min_samples_leaf
                         (random_state self) (values X_flt) y_flt';
          mret (np_unique thresholds))) ∧
  (remaining = 0%nat → fit_tree self X n_special_bins X_flt y_flt = mret []).
Proof.
  intros Hrows remaining frac_left max_leaf_nodes min_samples_leaf.
  unfold DecisionTreeBucketer.fit_tree.
  pose proof (length_filter_na X_flt y_flt) as Hlen.
  pose proof (values_filter_na X_flt y_flt) as Hval.
  destruct (_filter_na_for_fit X_flt y_flt) as [X_flt' y_flt'].
  cbn [fst] in Hlen, Hval. rewrite Hlen, Hval.
  rewrite decide_False by done. fold remaining. fold frac_left.
  split.
  - intros Hpos. exists y_flt'.
    rewrite decide_True
      by (apply Qcdiv_pos; apply Qc_of_nat_pos; [done | lia]).
    rewrite cap_half. reflexivity.
  - intros Hzero. subst frac_left. rewrite Hzero, Qc_of_nat_0, Qcdiv_0_l.
    rewrite decide_False; [done|]. apply (irreflexivity Qclt).
Qed.

(** C6.  The tree of a feature gets [max_n_bins] minus the number of
    special groups of the feature as its maximum number of leaves, and as
    its minimum share of a leaf [min_bin_size] divided by the share of the
    rows that are left once the special and the missing values are removed,
    capped at one half.  When no row is left, as when every row holds a
    special value, no tree is fitted and there are no boundaries. *)
Theorem DecisionTreeBucketer_tree_constraints (self : config) feature X (y : option (list Y))
    cells :
  PyDict.get feature X = Some cells →
  n_rows X = length cells →
  cells ≠ [] →
  let special := specials_of (specials self) feature in
  let n_special_bins := length special in
  (is_Some (specials self !! feature) → (1 < max_n_bins self - Z.of_nat n_special_bins)%Z) →
  let remaining := length (normal_values special cells) in
  let frac_left := Qc_of_nat remaining / Qc_of_nat (length cells) in
  let max_leaf_nodes := (max_n_bins self - Z.of_nat n_special_bins)%Z in
  let min_samples_leaf := Qc_min (min_bin_size self / frac_left) (1 / 2) in
  ((0 < remaining)%nat →
     ∃ y_flt,
       compute_map self feature X y =
         (emit (Fitted_DecisionTreeClassifier max_leaf_nodes min_samples_leaf);;
          thresholds ← DecisionTreeClassifier_thresholds max_leaf_nodes min_samples_leaf
                         (random_state self) (normal_values special cells) y_flt;
          mret (special, Boundaries (Some <$> np_unique thresholds)))) ∧
  (remaining = 0%nat → compute_map self feature X y = mret (special, Boundaries [])) ∧
  (Forall (λ cell, is_special special cell = true) cells → remaining = 0%nat).
Proof.
  intros Hget Hrows Hne special n_special_bins Hbudget remaining frac_left max_leaf_nodes
    min_samples_leaf.
  assert (n_rows X ≠ 0%nat) as Hrows' by (rewrite Hrows; by destruct cells).
  assert (∀ X_flt y_flt, values X_flt = normal_values special cells →
    ((0 < remaining)%nat →
       ∃ y_flt',
         (splits ← fit_tree self X n_special_bins X_flt y_flt;
          mret (special, Boundaries (Some <$> splits))) =
         (emit (Fitted_DecisionTreeClassifier max_leaf_nodes min_samples_leaf);;
          thresholds ← DecisionTreeClassifier_thresholds max_leaf_nodes min_samples_leaf
                         (random_state self) (normal_values special cells) y_flt';
          mret (special, Boundaries (Some <$> np_unique thresholds)))) ∧
    (remaining = 0%nat →
       (splits ← fit_tree self X n_special_bins X_flt y_flt;
        mret (special, Boundaries (Some <$> splits))) = mret (special, Boundaries [])))
    as Htree.
  { intros X_flt y_flt Hval.
    pose proof (fit_tree_spec self X n_special_bins X_flt y_flt Hrows') as Hspec.
    cbv zeta in Hspec. rewrite Hval, Hrows in Hspec. destruct Hspec as [Hfit Hskip].
    split.
    - intros Hpos. destruct (Hfit Hpos) as [y_flt' ->]. exists y_flt'.
      subst max_leaf_nodes min_samples_leaf frac_left remaining.
      destruct (DecisionTreeClassifier_thresholds _ _ _ _ _)
        as [w [thresholds|e]];
        unfold emit, mbind, M_bind, bind, mret, M_ret, ret; simpl;
        by rewrite ?app_nil_r.
    - intros Hzero. rewrite (Hskip Hzero). by rewrite bind_ret_l. }
  assert (compute_map self feature X y =
          (splits ← fit_tree self X n_special_bins
                      (split_specials (specials self) feature cells y).2.1
                      (split_specials (specials self) feature cells y).2.2;
           mret (special, Boundaries (Some <$> splits)))) as ->.
  { unfold DecisionTreeBucketer.compute_map, split_specials.
    subst n_special_bins special. unfold specials_of in *.
    destruct (specials self !! feature) as [special|] eqn:Hsp; cbn [default] in *.
    - specialize (Hbudget ltac:(by eexists)). simpl in Hbudget.
      rewrite decide_False by lia.
      rewrite (getitem_Some _ _ _ Hget), bind_ret_l.
      by destruct (_filter_specials_for_fit cells y special).
    - by rewrite (getitem_Some _ _ _ Hget), bind_ret_l. }
  destruct (split_specials_values (specials self) feature cells y) as [_ Hval].
  destruct (Htree _ (split_specials (specials self) feature cells y).2.2 Hval)
    as [Hfit Hskip].
  split; [exact Hfit|]. split; [exact Hskip|].
  intros Hall. subst remaining. unfold normal_values.
  rewrite filter_nil_intro; [done|].
  intros v Hv Hnot. apply PreconditionFacts.elem_of_values in Hv.
  eapply Forall_forall in Hall; [|exact Hv].
  unfold is_special in Hall. by apply bool_decide_eq_true in Hall.
Qed.

End DecisionTreeBucketer_claims.

(** A column with two normal values, one special value and one missing
    value; and a column of special values only. *)
Lemma DecisionTreeBucketer_tree_constraints_witness :
  (PyDict.get "LIMIT_BAL"
     (Toy.frame [Some (Qc_of_Z 1); Some (Qc_of_Z 2); Some (Qc_of_Z 400000); None])
   = Some [Some (Qc_of_Z 1); Some (Qc_of_Z 2); Some (Qc_of_Z 400000); None] ∧
   Bucketers.n_rows
     (Toy.frame [Some (Qc_of_Z 1); Some (Qc_of_Z 2); Some (Qc_of_Z 400000); None])
   = length [Some (Qc_of_Z 1); Some (Qc_of_Z 2); Some (Qc_of_Z 400000); None] ∧
   [Some (Qc_of_Z 1); Some (Qc_of_Z 2); Some (Qc_of_Z 400000); None] ≠ [] ∧
   (is_Some (Bucketers.DecisionTreeBucketer.specials Toy.tree !! "LIMIT_BAL") →
    (1 < Bucketers.DecisionTreeBucketer.max_n_bins Toy.tree
         - Z.of_nat (length (BucketersSpec.specials_of
                               (Bucketers.DecisionTreeBucketer.specials Toy.tree)
                               "LIMIT_BAL")))%Z)) ∧
  (∃ y_flt,
     Bucketers.DecisionTreeBucketer.compute_map Toy.DecisionTreeClassifier_thresholds Toy.tree
       "LIMIT_BAL"
       (Toy.frame [Some (Qc_of_Z 1); Some (Qc_of_Z 2); Some (Qc_of_Z 400000); None]) None
     = (emit (Bucketers.Fitted_DecisionTreeClassifier (10 - Z.of_nat 1)
                (Bucketers.Qc_min
                   (Q2Qc (1 # 20) / (Bucketers.Qc_of_nat 2 / Bucketers.Qc_of_nat 4))
                   (1 / 2))%Qc);;
        thresholds ← Toy.DecisionTreeClassifier_thresholds (10 - Z.of_nat 1)
                       (Bucketers.Qc_min
                          (Q2Qc (1 # 20) / (Bucketers.Qc_of_nat 2 / Bucketers.Qc_of_nat 4))
                          (1 / 2))%Qc
                       42 [Qc_of_Z 1; Qc_of_Z 2] y_flt;
        mret ([("=400000.0", [Qc_of_Z 400000])],
              Bucketers.Boundaries (Some <$> Bucketers.np_unique thresholds)))) ∧
  Bucketers.DecisionTreeBucketer.compute_map Toy.DecisionTreeClassifier_thresholds Toy.tree
    "LIMIT_BAL" (Toy.frame [Some (Qc_of_Z 400000); Some (Qc_of_Z 400000)]) None
  = mret ([("=400000.0", [Qc_of_Z 400000])], Bucketers.Boundaries []).
Proof.
  assert (is_Some (Bucketers.DecisionTreeBucketer.specials Toy.tree !! "LIMIT_BAL") →
    (1 < Bucketers.DecisionTreeBucketer.max_n_bins Toy.tree
         - Z.of_nat (length (BucketersSpec.specials_of
                               (Bucketers.DecisionTreeBucketer.specials Toy.tree)
                               "LIMIT_BAL")))%Z) as Hbudget.
  { intros _. vm_compute. reflexivity. }
  split; [split; [reflexivity | split; [reflexivity | split; [done | exact Hbudget]]] |].
  split.
  - destruct (DecisionTreeBucketer_tree_constraints Toy.DecisionTreeClassifier_thresholds
                Toy.tree "LIMIT_BAL"
                (Toy.frame [Some (Qc_of_Z 1); Some (Qc_of_Z 2); Some (Qc_of_Z 400000); None])
                None [Some (Qc_of_Z 1); Some (Qc_of_Z 2); Some (Qc_of_Z 400000); None]
                eq_refl eq_refl ltac:(done) Hbudget) as (Hfit & _ & _).
    apply Hfit. vm_compute. lia.
  - destruct (DecisionTreeBucketer_tree_constraints Toy.DecisionTreeClassifier_thresholds
                Toy.tree "LIMIT_BAL"
                (Toy.frame [Some (Qc_of_Z 400000); Some (Qc_of_Z 400000)])
                None [Some (Qc_of_Z 400000); Some (Qc_of_Z 400000)]
                eq_refl eq_refl ltac:(done) Hbudget) as (_ & Hskip & Hall).
    apply Hskip, Hall. repeat constructor.
Defined.

(** ** EqualFrequencyBucketer *)

Section EqualFrequencyBucketer_claims.
Import Bucketers BucketersSpec ColumnFacts BucketersFacts EqualFrequencyBucketer.
Context {Y : Type}.
Variable Table : Type.
Variable rows : Table → list row.
Variable build_bucket_table :
  DataFrame Qc → option (list Y) → string → BucketMapping Qc → Table.
Variable sort_values_Count_descending : list row → list row.
Variable quantile : list Qc → Qc → Qc.

Local Abbreviation fit_feature :=
  (Bucketers.fit_feature (Val := Qc) (Y := Y) Table rows build_bucket_table
     sort_values_Count_descending).
Local Abbreviation qcut := (qcut quantile).
Local Abbreviation compute_map := (compute_map (Y := Y) quantile).

(** [pd.qcut] on edges that coincide. *)
Lemma qcut_duplicates (x : list (option Qc)) q :
  let bins := quantile (values x) <$> linspace 0 1 q in
  (length (remove_dups bins) < length bins)%nat → length bins ≠ 2%nat →
  qcut x q duplicates_raise
    = ([Called_qcut q duplicates_raise], Raise (ValueError "Bin edges must be unique")) ∧
  qcut x q duplicates_drop = ([Called_qcut q duplicates_drop], Ok (remove_dups bins)).
Proof.
  intros bins Hdup Hlen. unfold EqualFrequencyBucketer.qcut. fold bins.
  rewrite !decide_True by done. done.
Qed.

Lemma qcut_distinct (x : list (option Qc)) q mode :
  let bins := quantile (values x) <$> linspace 0 1 q in
  ¬ ((length (remove_dups bins) < length bins)%nat ∧ length bins ≠ 2%nat) →
  qcut x q mode = ([Called_qcut q mode], Ok bins).
Proof.
  intros bins Hdup. unfold EqualFrequencyBucketer.qcut. fold bins.
  rewrite decide_False by done. done.
Qed.

(** C8.  When the quantile edges of a feature coincide, so that
    [pd.qcut(..., duplicates="raise")] raises its [ValueError], [fit] calls
    [pd.qcut] again with [duplicates="drop"], warns with an
    [ApproximationWarning] and goes on with the distinct edges: they give
    fewer than [n_bins - 1] boundaries, and the [BucketMapping] and its bucket
    table are built from them. *)
Theorem EqualFrequencyBucketer_approximates (self : config) feature X (y : option (list Y))
    cells :
  PyDict.get feature X = Some cells →
  let special := specials_of (specials self) feature in
  let bins := quantile (normal_values special cells) <$> linspace 0 1 (n_bins self) in
  (length (remove_dups bins) < length bins)%nat →
  length bins ≠ 2%nat →
  let boundaries := slice_1_m1 (remove_dups bins) in
  let log := [Called_qcut (n_bins self) duplicates_raise;
              Called_qcut (n_bins self) duplicates_drop;
              Warned approximation_warning] in
  let first_mapping :=
    mkBucketMapping feature numerical (Boundaries (Some <$> boundaries)) (Some true) special
      (initial_missing_bucket (missing_treatment self) feature) in
  compute_map self feature X y = (log, Ok (special, Boundaries (Some <$> boundaries))) ∧
  (length boundaries < n_bins self - 1)%nat ∧
  (∃ rest r,
     fit_feature (bucketer quantile self) feature X y
     = (log ++ Built_bucket_table feature first_mapping :: rest, r)) ∧
  (missing_treatment self ≠ most_frequent →
     fit_feature (bucketer quantile self) feature X y
     = (log ++ [Built_bucket_table feature first_mapping],
        Ok (first_mapping, build_bucket_table X y feature first_mapping))).
Proof.
  intros Hget special bins Hdup Hlen boundaries log first_mapping.
  assert (compute_map self feature X y
          = (log, Ok (special, Boundaries (Some <$> boundaries)))) as Hmap.
  { unfold EqualFrequencyBucketer.compute_map.
    rewrite (getitem_Some _ _ _ Hget), bind_ret_l.
    destruct (split_specials_values (specials self) feature cells y) as [Hsp Hval].
    destruct (split_specials (specials self) feature cells y) as [special' [X_flt y_flt]].
    cbn [fst snd] in Hsp, Hval. subst special'. fold special in Hval.
    pose proof (qcut_duplicates X_flt (n_bins self)) as Hq. cbv zeta in Hq.
    rewrite Hval in Hq. destruct (Hq Hdup Hlen) as [-> ->].
    reflexivity. }
  split; [exact Hmap|]. split.
  - subst boundaries. rewrite length_slice_1_m1.
    assert (length bins = S (n_bins self)) as Hbins
      by (subst bins; by rewrite length_fmap, length_linspace).
    rewrite Hbins in Hdup, Hlen.
    destruct (n_bins self) as [|[|n]] eqn:Hn; [|done|lia].
    exfalso. subst bins. try rewrite Hn in Hdup.
    unfold linspace in Hdup. cbn [seq fmap list_fmap] in Hdup.
    assert (∀ x : Qc, remove_dups [x] = [x]) as Hone.
    { intros x. cbn. destruct (decide_rel elem_of x []) as [Hin|]; [|done].
      by apply elem_of_nil in Hin. }
    rewrite Hone in Hdup. simpl in Hdup. lia.
  - split.
    + unfold Bucketers.fit_feature.
      change (Bucketers.compute_map (bucketer quantile self) feature X y)
        with (compute_map self feature X y).
      rewrite (bind_ok _ _ _ _ Hmap). cbv beta iota.
      change (bucketer_missing_treatment (bucketer quantile self))
        with (missing_treatment self).
      change (bucketer_type (bucketer quantile self)) with numerical.
      change (bucketer_right (bucketer quantile self)) with (Some true).
      fold first_mapping.
      set (k := λ table : Table, _).
      rewrite (bind_ok _ _ [Built_bucket_table feature first_mapping]
                 (build_bucket_table X y feature first_mapping) eq_refl).
      unfold events at 1, result at 1. cbn [fst snd].
      eexists _, _. reflexivity.
    + intros Hmt.
      apply (fit_feature_other Table rows build_bucket_table sort_values_Count_descending
               (bucketer quantile self) feature X y log special
               (Boundaries (Some <$> boundaries)) Hmt Hmap).
Qed.

End EqualFrequencyBucketer_claims.

(** Five quantile edges [1, 1, 2, 4, 6], of which four are distinct. *)
Lemma EqualFrequencyBucketer_approximates_witness :
  (PyDict.get "LIMIT_BAL" (Toy.frame Toy.many_ones) = Some Toy.many_ones ∧
   (length (remove_dups
              (Toy.quantile
                 (BucketersSpec.normal_values
                    (BucketersSpec.specials_of
                       (Bucketers.EqualFrequencyBucketer.specials Toy.equal_frequency)
                       "LIMIT_BAL") Toy.many_ones)
               <$> Bucketers.linspace 0 1
                     (Bucketers.EqualFrequencyBucketer.n_bins Toy.equal_frequency)))
    < length (Toy.quantile
                (BucketersSpec.normal_values
                   (BucketersSpec.specials_of
                      (Bucketers.EqualFrequencyBucketer.specials Toy.equal_frequency)
                      "LIMIT_BAL") Toy.many_ones)
              <$> Bucketers.linspace 0 1
                    (Bucketers.EqualFrequencyBucketer.n_bins Toy.equal_frequency)))%nat ∧
   length (Toy.quantile
             (BucketersSpec.normal_values
                (BucketersSpec.specials_of
                   (Bucketers.EqualFrequencyBucketer.specials Toy.equal_frequency)
                   "LIMIT_BAL") Toy.many_ones)
           <$> Bucketers.linspace 0 1
                 (Bucketers.EqualFrequencyBucketer.n_bins Toy.equal_frequency)) ≠ 2%nat) ∧
  Bucketers.EqualFrequencyBucketer.compute_map (Y := bool) Toy.quantile Toy.equal_frequency
    "LIMIT_BAL" (Toy.frame Toy.many_ones) None
  = ([Bucketers.Called_qcut 4 Bucketers.duplicates_raise;
      Bucketers.Called_qcut 4 Bucketers.duplicates_drop;
      Bucketers.Warned Bucketers.EqualFrequencyBucketer.approximation_warning],
     Ok ([], Bucketers.Boundaries [Some (Qc_of_Z 2); Some (Qc_of_Z 4)])) ∧
  ∃ table,
    Bucketers.fit_feature (list Bucketers.row) Toy.rows Toy.build_bucket_table
      Toy.sort_values_Count_descending
      (Bucketers.EqualFrequencyBucketer.bucketer Toy.quantile Toy.equal_frequency)
      "LIMIT_BAL" (Toy.frame Toy.many_ones) None
    = ([Bucketers.Called_qcut 4 Bucketers.duplicates_raise;
        Bucketers.Called_qcut 4 Bucketers.duplicates_drop;
        Bucketers.Warned Bucketers.EqualFrequencyBucketer.approximation_warning;
        Bucketers.Built_bucket_table "LIMIT_BAL"
          (Bucketers.mkBucketMapping "LIMIT_BAL" Bucketers.numerical
             (Bucketers.Boundaries [Some (Qc_of_Z 2); Some (Qc_of_Z 4)]) (Some true) [] None)],
       Ok (Bucketers.mkBucketMapping "LIMIT_BAL" Bucketers.numerical
             (Bucketers.Boundaries [Some (Qc_of_Z 2); Some (Qc_of_Z 4)]) (Some true) [] None,
           table)).
Proof.
  assert (length (remove_dups
              (Toy.quantile
                 (BucketersSpec.normal_values
                    (BucketersSpec.specials_of
                       (Bucketers.EqualFrequencyBucketer.specials Toy.equal_frequency)
                       "LIMIT_BAL") Toy.many_ones)
               <$> Bucketers.linspace 0 1
                     (Bucketers.EqualFrequencyBucketer.n_bins Toy.equal_frequency)))
    < length (Toy.quantile
                (BucketersSpec.normal_values
                   (BucketersSpec.specials_of
                      (Bucketers.EqualFrequencyBucketer.specials Toy.equal_frequency)
                      "LIMIT_BAL") Toy.many_ones)
              <$> Bucketers.linspace 0 1
                    (Bucketers.EqualFrequencyBucketer.n_bins Toy.equal_frequency)))%nat
    as Hdup.
  { vm_compute. lia. }
  assert (length (Toy.quantile
             (BucketersSpec.normal_values
                (BucketersSpec.specials_of
                   (Bucketers.EqualFrequencyBucketer.specials Toy.equal_frequency)
                   "LIMIT_BAL") Toy.many_ones)
           <$> Bucketers.linspace 0 1
                 (Bucketers.EqualFrequencyBucketer.n_bins Toy.equal_frequency)) ≠ 2%nat)
    as Hlen.
  { vm_compute. discriminate. }
  split; [split; [reflexivity | split; [exact Hdup | exact Hlen]] |].
  destruct (EqualFrequencyBucketer_approximates (list Bucketers.row) Toy.rows
              Toy.build_bucket_table Toy.sort_values_Count_descending Toy.quantile
              Toy.equal_frequency "LIMIT_BAL" (Toy.frame Toy.many_ones) None Toy.many_ones
              eq_refl Hdup Hlen) as (Hmap & _ & _ & Hfit).
  assert (Bucketers.slice_1_m1
            (remove_dups
               (Toy.quantile
                  (BucketersSpec.normal_values
                     (BucketersSpec.specials_of
                        (Bucketers.EqualFrequencyBucketer.specials Toy.equal_frequency)
                        "LIMIT_BAL") Toy.many_ones)
                <$> Bucketers.linspace 0 1
                      (Bucketers.EqualFrequencyBucketer.n_bins Toy.equal_frequency)))
          = [Qc_of_Z 2; Qc_of_Z 4]) as Hb.
  { vm_compute. reflexivity. }
  rewrite Hb in Hmap, Hfit.
  split; [exact Hmap|].
  eexists. apply Hfit. discriminate.
Defined.

(** *** ["most_frequent"] on a concrete column *)

Lemma Toy_sort_values_Permutation table : Toy.sort_values_Count_descending table ≡ₚ table.
Proof. apply merge_sort_Permutation. Qed.

Lemma Toy_sort_values_Sorted table :
  Sorted (λ r1 r2, (Bucketers.Count r2 ≤ Bucketers.Count r1)%Z)
    (Toy.sort_values_Count_descending table).
Proof.
  assert (Total Toy.Count_ge) as Htotal.
  { intros r1 r2. unfold Toy.Count_ge. lia. }
  apply (Sorted_merge_sort Toy.Count_ge).
Qed.

Lemma Toy_mostly_missing_map :
  Bucketers.compute_map
    (Bucketers.EqualWidthBucketer.bucketer (Y := bool) Toy.equal_width_most_frequent)
    "LIMIT_BAL" (Toy.frame Toy.mostly_missing) None
  = ([], Ok ([], Bucketers.Boundaries [Some (Qc_of_Z 15)])).
Proof.
  change (Bucketers.compute_map _ "LIMIT_BAL" (Toy.frame Toy.mostly_missing) None)
    with (Bucketers.EqualWidthBucketer.compute_map (Y := bool) Toy.equal_width_most_frequent
            "LIMIT_BAL" (Toy.frame Toy.mostly_missing) None).
  rewrite (EqualWidthBucketer_compute_map Toy.equal_width_most_frequent "LIMIT_BAL"
             (Toy.frame Toy.mostly_missing) None Toy.mostly_missing eq_refl).
  assert (Bucketers.histogram_bin_edges (E := Bucketers.event Qc)
            [Qc_of_Z 10; Qc_of_Z 20] 2
          = mret [Qc_of_Z 10; Qc_of_Z 15; Qc_of_Z 20]) as Hedges.
  { unfold Bucketers.histogram_bin_edges, Bucketers.histogram_outer_edges.
    rewrite decide_False by done.
    assert (Bucketers.minimum [Qc_of_Z 10; Qc_of_Z 20] = Qc_of_Z 10) as ->
      by (vm_compute; reflexivity).
    assert (Bucketers.maximum [Qc_of_Z 10; Qc_of_Z 20] = Qc_of_Z 20) as ->
      by (vm_compute; reflexivity).
    rewrite decide_False by (intros Heq; by apply Z2Qc_inj in Heq).
    unfold Bucketers.linspace. cbn [seq fmap list_fmap]. unfold mret, M_ret, ret.
    repeat f_equal; Qc_eq. }
  change (BucketersSpec.normal_values _ Toy.mostly_missing)
    with [Qc_of_Z 10; Qc_of_Z 20].
  change (Bucketers.EqualWidthBucketer.n_bins Toy.equal_width_most_frequent) with 2%nat.
  rewrite Hedges, bind_ret_l. reflexivity.
Qed.

(** The table has the rows [Missing: 3], [0: 1] and [1: 1]; sorted, its
    first row is the one labelled ["Missing"] and its second row that of
    bucket [1], which gets the missing values. *)
Lemma fit_feature_most_frequent_witness :
  ((∀ table, Toy.sort_values_Count_descending table ≡ₚ table) ∧
   (∀ table, Sorted (λ r1 r2, (Bucketers.Count r2 ≤ Bucketers.Count r1)%Z)
               (Toy.sort_values_Count_descending table)) ∧
   Bucketers.bucketer_missing_treatment
     (Bucketers.EqualWidthBucketer.bucketer (Y := bool) Toy.equal_width_most_frequent)
   = Bucketers.most_frequent ∧
   Bucketers.compute_map
     (Bucketers.EqualWidthBucketer.bucketer (Y := bool) Toy.equal_width_most_frequent)
     "LIMIT_BAL" (Toy.frame Toy.mostly_missing) None
   = ([], Ok ([], Bucketers.Boundaries [Some (Qc_of_Z 15)])) ∧
   (length (filter (λ r, Bucketers.label r = "Missing")
              (Toy.rows (Toy.build_bucket_table (Toy.frame Toy.mostly_missing) None "LIMIT_BAL"
                 (Bucketers.mkBucketMapping "LIMIT_BAL" Bucketers.numerical
                    (Bucketers.Boundaries [Some (Qc_of_Z 15)]) (Some true) [] None)))) ≤ 1)%nat ∧
   (∃ r, r ∈ Toy.rows (Toy.build_bucket_table (Toy.frame Toy.mostly_missing) None "LIMIT_BAL"
                 (Bucketers.mkBucketMapping "LIMIT_BAL" Bucketers.numerical
                    (Bucketers.Boundaries [Some (Qc_of_Z 15)]) (Some true) [] None)) ∧
         Bucketers.label r ≠ "Missing")) ∧
  Bucketers.fit_feature (list Bucketers.row) Toy.rows Toy.build_bucket_table
    Toy.sort_values_Count_descending
    (Bucketers.EqualWidthBucketer.bucketer Toy.equal_width_most_frequent)
    "LIMIT_BAL" (Toy.frame Toy.mostly_missing) None
  = ([Bucketers.Built_bucket_table "LIMIT_BAL"
        (Bucketers.mkBucketMapping "LIMIT_BAL" Bucketers.numerical
           (Bucketers.Boundaries [Some (Qc_of_Z 15)]) (Some true) [] None);
      Bucketers.Built_bucket_table "LIMIT_BAL"
        (Bucketers.mkBucketMapping "LIMIT_BAL" Bucketers.numerical
           (Bucketers.Boundaries [Some (Qc_of_Z 15)]) (Some true) [] (Some 1%Z))],
     Ok (Bucketers.mkBucketMapping "LIMIT_BAL" Bucketers.numerical
           (Bucketers.Boundaries [Some (Qc_of_Z 15)]) (Some true) [] (Some 1%Z),
         Toy.build_bucket_table (Toy.frame Toy.mostly_missing) None "LIMIT_BAL"
           (Bucketers.mkBucketMapping "LIMIT_BAL" Bucketers.numerical
              (Bucketers.Boundaries [Some (Qc_of_Z 15)]) (Some true) [] (Some 1%Z)))).
Proof.
  assert ((length (filter (λ r, Bucketers.label r = "Missing")
              (Toy.rows (Toy.build_bucket_table (Toy.frame Toy.mostly_missing) None "LIMIT_BAL"
                 (Bucketers.mkBucketMapping "LIMIT_BAL" Bucketers.numerical
                    (Bucketers.Boundaries [Some (Qc_of_Z 15)]) (Some true) [] None)))) ≤ 1)%nat)
    as Hone.
  { vm_compute. lia. }
  assert (∃ r, r ∈ Toy.rows (Toy.build_bucket_table (Toy.frame Toy.mostly_missing) None
                 "LIMIT_BAL"
                 (Bucketers.mkBucketMapping "LIMIT_BAL" Bucketers.numerical
                    (Bucketers.Boundaries [Some (Qc_of_Z 15)]) (Some true) [] None)) ∧
         Bucketers.label r ≠ "Missing") as Hex.
  { exists (Bucketers.mkRow 0 "0" 1). split; [|discriminate].
    vm_compute. apply elem_of_cons. right. apply elem_of_cons. by left. }
  split.
  { split; [exact Toy_sort_values_Permutation|]. split; [exact Toy_sort_values_Sorted|].
    split; [reflexivity|]. split; [exact Toy_mostly_missing_map|].
    split; [exact Hone | exact Hex]. }
  destruct (BucketersFacts.fit_feature_most_frequent (list Bucketers.row) Toy.rows Toy.build_bucket_table
              Toy.sort_values_Count_descending Toy_sort_values_Permutation
              Toy_sort_values_Sorted
              (Bucketers.EqualWidthBucketer.bucketer Toy.equal_width_most_frequent)
              "LIMIT_BAL" (Toy.frame Toy.mostly_missing) None [] []
              (Bucketers.Boundaries [Some (Qc_of_Z 15)]) eq_refl Toy_mostly_missing_map
              Hone Hex) as (r & top & Htop & Hpick & _ & _ & _ & Hfit).
  vm_compute in Htop. injection Htop as <-.
  vm_compute in Hpick. injection Hpick as <-.
  exact Hfit.
Defined.

(** ** AgglomerativeClusteringBucketer *)

Module ClusterFacts.
Import Bucketers BucketersSpec AgglomerativeClusteringBucketer.
Local Open Scope Qc_scope.

Lemma Qc_min_le_l a b : Qc_min a b ≤ a.
Proof.
  unfold Qc_min. case_decide as Hle; [apply Qcle_refl|].
  apply Qclt_le_weak. by apply Qcnot_le_lt.
Qed.

Lemma Qc_min_le_r a b : Qc_min a b ≤ b.
Proof. unfold Qc_min. case_decide; [done | apply Qcle_refl]. Qed.

Lemma Qc_min_cases a b : Qc_min a b = a ∨ Qc_min a b = b.
Proof. unfold Qc_min. case_decide; auto. Qed.

Lemma Qc_max_ge_l a b : a ≤ Qc_max a b.
Proof. unfold Qc_max. case_decide; [done | apply Qcle_refl]. Qed.

Lemma Qc_max_ge_r a b : b ≤ Qc_max a b.
Proof.
  unfold Qc_max. case_decide as Hle; [apply Qcle_refl|].
  apply Qclt_le_weak. by apply Qcnot_le_lt.
Qed.

Lemma Qc_max_cases a b : Qc_max a b = a ∨ Qc_max a b = b.
Proof. unfold Qc_max. case_decide; auto. Qed.

(** The minimum of a list is one of its elements and is below all of
    them; likewise the maximum. *)
Lemma foldr_min_elem x l : foldr Qc_min x l ∈ x :: l.
Proof.
  induction l as [|y l IH]; simpl; [apply elem_of_cons; by left|].
  destruct (Qc_min_cases y (foldr Qc_min x l)) as [->| ->].
  - apply elem_of_cons. right. apply elem_of_cons. by left.
  - apply elem_of_cons in IH as [->|IH]; [apply elem_of_cons; by left|].
    do 2 (apply elem_of_cons; right). done.
Qed.

Lemma foldr_min_le x l z : z ∈ x :: l → foldr Qc_min x l ≤ z.
Proof.
  induction l as [|y l IH]; simpl.
  - intros [->|?%elem_of_nil]%elem_of_cons; [apply Qcle_refl | done].
  - intros [->|[->|Hz]%elem_of_cons]%elem_of_cons.
    + eapply Qcle_trans; [apply Qc_min_le_r|]. apply IH, elem_of_cons. by left.
    + apply Qc_min_le_l.
    + eapply Qcle_trans; [apply Qc_min_le_r|]. apply IH, elem_of_cons. by right.
Qed.

Lemma foldr_max_elem x l : foldr Qc_max x l ∈ x :: l.
Proof.
  induction l as [|y l IH]; simpl; [apply elem_of_cons; by left|].
  destruct (Qc_max_cases y (foldr Qc_max x l)) as [->| ->].
  - apply elem_of_cons. right. apply elem_of_cons. by left.
  - apply elem_of_cons in IH as [->|IH]; [apply elem_of_cons; by left|].
    do 2 (apply elem_of_cons; right). done.
Qed.

Lemma foldr_max_ge x l z : z ∈ x :: l → z ≤ foldr Qc_max x l.
Proof.
  induction l as [|y l IH]; simpl.
  - intros [->|?%elem_of_nil]%elem_of_cons; [apply Qcle_refl | done].
  - intros [->|[->|Hz]%elem_of_cons]%elem_of_cons.
    + eapply Qcle_trans; [|apply Qc_max_ge_r]. apply IH, elem_of_cons. by left.
    + apply Qc_max_ge_l.
    + eapply Qcle_trans; [|apply Qc_max_ge_r]. apply IH, elem_of_cons. by right.
Qed.

Lemma minimum_elem l : l ≠ [] → minimum l ∈ l.
Proof. destruct l as [|x l]; [done|]. intros _. apply foldr_min_elem. Qed.

Lemma minimum_le l z : z ∈ l → minimum l ≤ z.
Proof. destruct l as [|x l]; [by intros ?%elem_of_nil|]. apply foldr_min_le. Qed.

Lemma maximum_elem l : l ≠ [] → maximum l ∈ l.
Proof. destruct l as [|x l]; [done|]. intros _. apply foldr_max_elem. Qed.

Lemma maximum_ge l z : z ∈ l → z ≤ maximum l.
Proof. destruct l as [|x l]; [by intros ?%elem_of_nil|]. apply foldr_max_ge. Qed.

(** They do not depend on the order of the list. *)
Lemma minimum_Permutation l l' : l ≡ₚ l' → minimum l = minimum l'.
Proof.
  intros Hp. destruct l as [|x l].
  { apply Permutation_nil_l in Hp. by subst l'. }
  assert (l' ≠ []) as Hne.
  { intros ->. by apply Permutation_nil_r in Hp. }
  apply Qcle_antisym.
  - apply minimum_le. rewrite Hp. by apply minimum_elem.
  - apply minimum_le. rewrite <- Hp. by apply minimum_elem.
Qed.

Lemma maximum_Permutation l l' : l ≡ₚ l' → maximum l = maximum l'.
Proof.
  intros Hp. destruct l as [|x l].
  { apply Permutation_nil_l in Hp. by subst l'. }
  assert (l' ≠ []) as Hne.
  { intros ->. by apply Permutation_nil_r in Hp. }
  apply Qcle_antisym.
  - apply maximum_ge. rewrite <- Hp. by apply maximum_elem.
  - apply maximum_ge. rewrite Hp. by apply maximum_elem.
Qed.

(** Sorting a permutation of a sorted list gives the sorted list. *)
Lemma sort_Permutation_sorted l l' :
  l ≡ₚ l' → StronglySorted Qcle l' → sort l = l'.
Proof.
  intros Hp Hs. apply (StronglySorted_unique Qcle); [|done|].
  - apply StronglySorted_merge_sort; apply _.
  - unfold sort. by rewrite merge_sort_Permutation.
Qed.

(** The boundaries from the sorted minima and maxima, one step at a time. *)
Lemma boundaries_of_cons a b mins x maxs :
  boundaries_of (a :: b :: mins) (x :: maxs) = mean2 b x :: boundaries_of (b :: mins) maxs.
Proof.
  unfold boundaries_of. cbn [length]. rewrite !Nat.sub_succ, !Nat.sub_0_r.
  cbn [seq fmap list_fmap]. f_equal.
  rewrite <- fmap_S_seq, <- list_fmap_compose. done.
Qed.

Lemma boundaries_of_midpoints (clusters : list (list Qc)) :
  boundaries_of (minimum <$> clusters) (maximum <$> clusters) = midpoints clusters.
Proof.
  induction clusters as [|c1 [|c2 rest] IH]; [done | done |].
  rewrite !fmap_cons in *. rewrite boundaries_of_cons.
  change (midpoints (c1 :: c2 :: rest))
    with (mean2 (minimum c2) (maximum c1) :: midpoints (c2 :: rest)).
  f_equal. exact IH.
Qed.

End ClusterFacts.

Section AgglomerativeClusteringBucketer_claims.
Import Bucketers BucketersSpec ColumnFacts ClusterFacts AgglomerativeClusteringBucketer.
Local Open Scope Qc_scope.
Context {Y : Type}.
Variable AgglomerativeClustering_labels : nat → list Qc → M (event Qc) (list Z).

Local Abbreviation compute_map := (compute_map (Y := Y) AgglomerativeClustering_labels).

Implicit Types (clusters : list (Z * list Qc)) (df : list (Qc * Z)).

Lemma rows_of_clusters_cons c clusters :
  rows_of_clusters (c :: clusters) = ((λ v : Qc, (v, c.1)) <$> c.2) ++ rows_of_clusters clusters.
Proof. reflexivity. Qed.

Lemma elem_of_rows_of_clusters clusters v k :
  (v, k) ∈ rows_of_clusters clusters ↔ ∃ vs, (k, vs) ∈ clusters ∧ v ∈ vs.
Proof.
  induction clusters as [|[k0 vs0] clusters IH].
  { split; [by intros ?%elem_of_nil | by intros (? & ?%elem_of_nil & _)]. }
  rewrite rows_of_clusters_cons, elem_of_app, IH, list_elem_of_fmap. cbn [fst snd]. split.
  - intros [(v' & [= -> ->] & Hv)|(vs & Hin & Hv)].
    + exists vs0. split; [apply elem_of_cons; by left | done].
    + exists vs. split; [apply elem_of_cons; by right | done].
  - intros (vs & [[= -> ->]|Hin]%elem_of_cons & Hv).
    + left. by exists v.
    + right. by exists vs.
Qed.

(** The rows of one label are the values of its cluster. *)
Lemma rows_of_label clusters k vs :
  NoDup clusters.*1 → (k, vs) ∈ clusters →
  (filter (λ r, r.2 = k) (rows_of_clusters clusters)).*1 = vs.
Proof.
  induction clusters as [|[k0 vs0] clusters IH]; [by intros _ ?%elem_of_nil|].
  rewrite fmap_cons. intros [Hk0 Hnd]%NoDup_cons Hin. cbn [fst] in Hk0.
  rewrite rows_of_clusters_cons, filter_app, fmap_app. cbn [fst snd].
  apply elem_of_cons in Hin as [[= -> ->]|Hin].
  - rewrite filter_all by (intros r (v & -> & _)%list_elem_of_fmap; done).
    rewrite filter_nil_intro.
    + rewrite app_nil_r, <- list_fmap_compose. apply list_fmap_id.
    + intros [v k'] Hr Hk'. cbn [snd] in Hk'. subst k'.
      apply elem_of_rows_of_clusters in Hr as (vs' & Hin' & _).
      apply Hk0. apply list_elem_of_fmap. by exists (k0, vs').
  - assert (k0 ≠ k) as Hne.
    { intros ->. apply Hk0. apply list_elem_of_fmap. by exists (k, vs). }
    rewrite filter_nil_intro by (intros r (v & -> & _)%list_elem_of_fmap; done).
    by apply IH.
Qed.

Lemma labels_of_rows clusters :
  Forall (λ c, c.2 ≠ []) clusters →
  ∀ k, k ∈ (rows_of_clusters clusters).*2 ↔ k ∈ clusters.*1.
Proof.
  intros Hne k. rewrite !list_elem_of_fmap. split.
  - intros ([v k'] & -> & Hr). cbn [snd].
    apply elem_of_rows_of_clusters in Hr as (vs & Hin & _). by exists (k', vs).
  - intros ([k' vs] & -> & Hin). cbn [fst].
    eapply Forall_forall in Hne; [|exact Hin]. cbn [snd] in Hne.
    destruct vs as [|v vs]; [done|]. exists (v, k'). split; [done|].
    apply elem_of_rows_of_clusters. exists (v :: vs). split; [done|].
    apply elem_of_cons. by left.
Qed.

(** The minima and the maxima of the groups are those of the clusters, in
    some order. *)
Lemma groupby_label_fmap (f : list Qc → Qc) df clusters :
  (∀ l l', l ≡ₚ l' → f l = f l') →
  df ≡ₚ rows_of_clusters clusters →
  NoDup clusters.*1 →
  Forall (λ c, c.2 ≠ []) clusters →
  (λ g, f g.2) <$> groupby_label df ≡ₚ f <$> clusters.*2.
Proof.
  intros Hf Hdf Hnd Hne. unfold groupby_label.
  rewrite <- !list_fmap_compose.
  assert (merge_sort Z.le (remove_dups df.*2) ≡ₚ clusters.*1) as Hks.
  { rewrite merge_sort_Permutation. apply NoDup_Permutation; [apply NoDup_remove_dups|done|].
    intros k. rewrite elem_of_remove_dups, Hdf. by apply labels_of_rows. }
  rewrite Hks. rewrite <- list_fmap_compose.
  rewrite (list_fmap_ext _ (f ∘ snd) clusters); [done|].
  intros i [k vs] Hin. cbn [compose fst snd].
  apply Hf. rewrite Hdf.
  rewrite (rows_of_label clusters k vs Hnd); [done|].
  by eapply list_elem_of_lookup_2.
Qed.

(** Separated clusters have increasing minima and increasing maxima. *)
Lemma separated_minimum (vss : list (list Qc)) :
  Forall (λ vs, vs ≠ []) vss → separated vss → StronglySorted Qcle (minimum <$> vss).
Proof.
  unfold separated. induction vss as [|vs vss IH]; [constructor|].
  intros [Hvs Hne]%Forall_cons [Hsorted Hlt]%StronglySorted_inv.
  rewrite fmap_cons. constructor; [by apply IH|].
  apply Forall_fmap, Forall_forall. intros vs' Hin. cbn [compose].
  eapply Forall_forall in Hlt; [|exact Hin].
  apply Hlt; apply minimum_elem; [done|].
  by eapply Forall_forall in Hne.
Qed.

Lemma separated_maximum (vss : list (list Qc)) :
  Forall (λ vs, vs ≠ []) vss → separated vss → StronglySorted Qcle (maximum <$> vss).
Proof.
  unfold separated. induction vss as [|vs vss IH]; [constructor|].
  intros [Hvs Hne]%Forall_cons [Hsorted Hlt]%StronglySorted_inv.
  rewrite fmap_cons. constructor; [by apply IH|].
  apply Forall_fmap, Forall_forall. intros vs' Hin. cbn [compose].
  eapply Forall_forall in Hlt; [|exact Hin].
  apply Hlt; apply maximum_elem; [done|].
  by eapply Forall_forall in Hne.
Qed.

Lemma length_midpoints (vss : list (list Qc)) : length (midpoints vss) = (length vss - 1)%nat.
Proof.
  induction vss as [|c1 [|c2 rest] IH]; [done | done |].
  change (midpoints (c1 :: c2 :: rest))
    with (mean2 (minimum c2) (maximum c1) :: midpoints (c2 :: rest)).
  cbn [length] in *. rewrite IH. lia.
Qed.

Lemma midpoints_lookup (vss : list (list Qc)) i lower upper :
  vss !! i = Some lower → vss !! S i = Some upper →
  midpoints vss !! i = Some (mean2 (minimum upper) (maximum lower)).
Proof.
  revert i. induction vss as [|c1 [|c2 rest] IH]; intros i; [done | by destruct i |].
  change (midpoints (c1 :: c2 :: rest))
    with (mean2 (minimum c2) (maximum c1) :: midpoints (c2 :: rest)).
  destruct i as [|i].
  - by intros [= ->] [= ->].
  - intros Hl Hu. by apply IH.
Qed.

(** The boundaries of clusters that are given by the labels of the values. *)
Lemma find_boundaries_midpoints (x : list Qc) (labels : list Z) clusters :
  length x = length labels →
  zip x labels ≡ₚ rows_of_clusters clusters →
  NoDup clusters.*1 →
  Forall (λ c, c.2 ≠ []) clusters →
  separated clusters.*2 →
  find_boundaries x labels = mret (midpoints clusters.*2).
Proof.
  intros Hlen Hrows Hnd Hne Hsep. unfold find_boundaries, frame.
  rewrite decide_True by done. rewrite bind_ret_l.
  assert (sort_by_x (zip x labels) ≡ₚ rows_of_clusters clusters) as Hdf.
  { unfold sort_by_x. by rewrite merge_sort_Permutation. }
  assert (Forall (λ vs : list Qc, vs ≠ []) clusters.*2) as Hne'.
  { apply Forall_fmap. by eapply Forall_impl. }
  unfold cluster_minimum_values, cluster_maximum_values.
  rewrite (sort_Permutation_sorted _ (minimum <$> clusters.*2)).
  - rewrite (sort_Permutation_sorted _ (maximum <$> clusters.*2)).
    + by rewrite boundaries_of_midpoints.
    + apply (groupby_label_fmap maximum); [apply maximum_Permutation|done..].
    + by apply separated_maximum.
  - apply (groupby_label_fmap minimum); [apply minimum_Permutation|done..].
  - by apply separated_minimum.
Qed.

(** C9.  When the clustering puts the normal values of a feature into
    [n] clusters that do not overlap, the feature gets [n - 1] boundaries:
    the boundary between two clusters that follow each other is the mean of
    the maximum of the lower one and the minimum of the upper one.  The
    labels that the clustering gives to the clusters play no part: any other
    labelling of the same clusters gives the same boundaries. *)
Theorem AgglomerativeClusteringBucketer_midpoints (self : config) feature X
    (y : option (list Y)) cells w labels_ clusters :
  PyDict.get feature X = Some cells →
  let special := specials_of (specials self) feature in
  let x := normal_values special cells in
  AgglomerativeClustering_labels (n_bins self) x = (w, Ok labels_) →
  length x = length labels_ →
  zip x labels_ ≡ₚ rows_of_clusters clusters →
  NoDup clusters.*1 →
  Forall (λ c, c.2 ≠ []) clusters →
  separated clusters.*2 →
  compute_map self feature X y
    = (w, Ok (special, Boundaries (Some <$> midpoints clusters.*2))) ∧
  length (midpoints clusters.*2) = (length clusters - 1)%nat ∧
  (∀ i lower upper,
     clusters.*2 !! i = Some lower → clusters.*2 !! S i = Some upper →
     midpoints clusters.*2 !! i = Some (mean2 (minimum upper) (maximum lower))) ∧
  (∀ relabel : Z → Z, Inj (=) (=) relabel →
     find_boundaries x (relabel <$> labels_) = find_boundaries x labels_).
Proof.
  intros Hget special x Hlabels Hlen Hrows Hnd Hne Hsep.
  pose proof (find_boundaries_midpoints x labels_ clusters Hlen Hrows Hnd Hne Hsep) as Hb.
  split; [|split; [|split]].
  - unfold AgglomerativeClusteringBucketer.compute_map.
    rewrite (getitem_Some _ _ _ Hget), bind_ret_l.
    destruct (split_specials_values (specials self) feature cells y) as [Hsp Hval].
    destruct (split_specials (specials self) feature cells y) as [special' [X_flt y_flt]].
    cbn [fst snd] in Hsp, Hval. subst special'. fold special in Hval.
    pose proof (values_filter_na X_flt y_flt) as Hna.
    destruct (_filter_na_for_fit X_flt y_flt) as [X_flt' y_flt'].
    cbn [fst] in Hna. rewrite Hna, Hval. fold x.
    rewrite (bind_ok _ _ _ _ Hlabels). rewrite Hb, bind_ret_l.
    unfold events, result, mret, M_ret, ret. cbn [fst snd]. by rewrite app_nil_r.
  - by rewrite length_midpoints, length_fmap.
  - apply midpoints_lookup.
  - intros relabel Hinj. rewrite Hb.
    pose proof (find_boundaries_midpoints x (relabel <$> labels_)
                  ((λ c, (relabel c.1, c.2)) <$> clusters)) as Hb'.
    rewrite <- !list_fmap_compose in Hb'.
    rewrite (list_fmap_ext (snd ∘ (λ c : Z * list Qc, (relabel c.1, c.2))) snd clusters)
      in Hb' by done.
    apply Hb'.
    + by rewrite length_fmap.
    + assert (zip x (relabel <$> labels_) = prod_map id relabel <$> zip x labels_) as ->.
      { clear. revert labels_. induction x as [|a x IH]; intros [|k labels]; try done.
        rewrite fmap_cons. cbn [zip zip_with]. rewrite fmap_cons. f_equal. apply IH. }
      assert (rows_of_clusters ((λ c : Z * list Qc, (relabel c.1, c.2)) <$> clusters)
              = prod_map id relabel <$> rows_of_clusters clusters) as ->.
      { clear. induction clusters as [|c clusters IH]; [done|].
        rewrite fmap_cons, !rows_of_clusters_cons, fmap_app, IH. f_equal.
        cbn [fst snd]. rewrite <- list_fmap_compose. done. }
      by rewrite Hrows.
    + rewrite (list_fmap_ext _ (relabel ∘ fst) clusters) by done.
      rewrite list_fmap_compose. by apply NoDup_fmap_2.
    + apply Forall_fmap. by eapply Forall_impl.
    + done.
Qed.

End AgglomerativeClusteringBucketer_claims.

(** The boundaries [3.5] and [8] of the clusters [{1, 2}], [{5, 6}] and
    [{10}]. *)
Lemma AgglomerativeClusteringBucketer_midpoints_witness :
  (PyDict.get "LIMIT_BAL" (Toy.frame Toy.clustered) = Some Toy.clustered ∧
   Toy.AgglomerativeClustering_labels
     (Bucketers.AgglomerativeClusteringBucketer.n_bins Toy.agglomerative)
     (BucketersSpec.normal_values
        (BucketersSpec.specials_of
           (Bucketers.AgglomerativeClusteringBucketer.specials Toy.agglomerative) "LIMIT_BAL")
        Toy.clustered)
   = ([], Ok [0; 2; 1; 2; 0]%Z) ∧
   length (BucketersSpec.normal_values
             (BucketersSpec.specials_of
                (Bucketers.AgglomerativeClusteringBucketer.specials Toy.agglomerative)
                "LIMIT_BAL")
             Toy.clustered)
   = length [0; 2; 1; 2; 0]%Z ∧
   zip (BucketersSpec.normal_values
          (BucketersSpec.specials_of
             (Bucketers.AgglomerativeClusteringBucketer.specials Toy.agglomerative)
             "LIMIT_BAL")
          Toy.clustered) [0; 2; 1; 2; 0]%Z
   ≡ₚ BucketersSpec.rows_of_clusters Toy.clusters ∧
   NoDup Toy.clusters.*1 ∧
   Forall (λ c, c.2 ≠ []) Toy.clusters ∧
   BucketersSpec.separated Toy.clusters.*2) ∧
  Bucketers.AgglomerativeClusteringBucketer.compute_map (Y := bool)
    Toy.AgglomerativeClustering_labels Toy.agglomerative "LIMIT_BAL"
    (Toy.frame Toy.clustered) None
  = ([], Ok ([], Bucketers.Boundaries [Some (Q2Qc (7 # 2)); Some (Qc_of_Z 8)])).
Proof.
  assert (zip (BucketersSpec.normal_values
          (BucketersSpec.specials_of
             (Bucketers.AgglomerativeClusteringBucketer.specials Toy.agglomerative)
             "LIMIT_BAL")
          Toy.clustered) [0; 2; 1; 2; 0]%Z
   ≡ₚ BucketersSpec.rows_of_clusters Toy.clusters) as Hrows.
  { change (zip _ _) with
      [(Qc_of_Z 5, 0%Z); (Qc_of_Z 1, 2%Z); (Qc_of_Z 10, 1%Z); (Qc_of_Z 2, 2%Z);
       (Qc_of_Z 6, 0%Z)].
    change (BucketersSpec.rows_of_clusters Toy.clusters) with
      [(Qc_of_Z 1, 2%Z); (Qc_of_Z 2, 2%Z); (Qc_of_Z 5, 0%Z); (Qc_of_Z 6, 0%Z);
       (Qc_of_Z 10, 1%Z)].
    apply NoDup_Permutation.
    - apply (bool_decide_unpack _). by vm_compute.
    - apply (bool_decide_unpack _). by vm_compute.
    - intros r. rewrite !elem_of_cons, !elem_of_nil. tauto. }
  assert (NoDup Toy.clusters.*1) as Hnd.
  { apply (bool_decide_unpack _). by vm_compute. }
  assert (Forall (λ c : Z * list Qc, c.2 ≠ []) Toy.clusters) as Hne.
  { repeat constructor; discriminate. }
  assert (BucketersSpec.separated Toy.clusters.*2) as Hsep.
  { unfold BucketersSpec.separated.
    repeat (constructor; [|repeat constructor]);
      try (intros a b Ha Hb;
           repeat (apply elem_of_cons in Ha as [->|Ha]; [|try by apply elem_of_nil in Ha]);
           repeat (apply elem_of_cons in Hb as [->|Hb]; [|try by apply elem_of_nil in Hb]);
           by vm_compute).
    constructor. }
  split.
  { split; [reflexivity|]. split; [reflexivity|]. split; [reflexivity|].
    split; [exact Hrows|]. split; [exact Hnd|]. split; [exact Hne | exact Hsep]. }
  destruct (AgglomerativeClusteringBucketer_midpoints (Y := bool)
              Toy.AgglomerativeClustering_labels Toy.agglomerative "LIMIT_BAL"
              (Toy.frame Toy.clustered) None Toy.clustered [] [0; 2; 1; 2; 0]%Z Toy.clusters
              eq_refl eq_refl eq_refl Hrows Hnd Hne Hsep) as (Hmap & _ & _ & _).
  rewrite Hmap.
  change (BucketersSpec.midpoints Toy.clusters.*2)
    with [Bucketers.mean2 (Bucketers.minimum [Qc_of_Z 5; Qc_of_Z 6])
            (Bucketers.maximum [Qc_of_Z 1; Qc_of_Z 2]);
          Bucketers.mean2 (Bucketers.minimum [Qc_of_Z 10])
            (Bucketers.maximum [Qc_of_Z 5; Qc_of_Z 6])].
  cbn [fmap list_fmap]. repeat f_equal; Qc_eq.
Defined.

(** * Further properties *)

(** ** [_find_remapped_specials] as a lookup table *)

Section find_remapped_more.
Import PyDictFacts BucketingProcess BucketingProcessSpec BucketingProcessFacts.

Lemma keys_set {K V} `{EqDecision K} (k : K) (v : V) (d : list (K * V)) :
  PyDict.keys (PyDict.set k v d) =
    if decide (k ∈ PyDict.keys d) then PyDict.keys d else PyDict.keys d ++ [k].
Proof.
  unfold PyDict.keys. induction d as [|[k' v'] d IH].
  - done.
  - cbn [PyDict.set]. destruct (decide (k' = k)) as [->|Hne].
    + rewrite !fmap_cons. cbn [fst]. rewrite decide_True; [done | apply elem_of_cons; by left].
    + rewrite !fmap_cons. cbn [fst]. rewrite IH. destruct (decide (k ∈ d.*1)) as [Hin|Hnin].
      * rewrite decide_True; [done | apply elem_of_cons; by right].
      * rewrite decide_False; [done|].
        intros [?|?]%elem_of_cons; [congruence | done].
Qed.

Lemma keys_scan label bucket_labels acc :
  PyDict.keys (scan label bucket_labels acc) =
    if decide (matching_buckets bucket_labels label ≠ [] ∧ label ∉ PyDict.keys acc)
    then PyDict.keys acc ++ [label]
    else PyDict.keys acc.
Proof.
  unfold matching_buckets. revert acc.
  induction bucket_labels as [|item bl IH]; intros acc.
  - destruct (decide _) as [[Hm _]|_]; [by exfalso; apply Hm | done].
  - cbn [scan foldl].
    match goal with
    | |- context [foldl ?f ?a bl] => change (foldl f a bl) with (scan label bl a)
    end.
    rewrite IH. rewrite filter_cons.
    destruct (decide (item.2 = special_label label)) as [Hitem|Hitem].
    + rewrite keys_set.
      destruct (decide (label ∈ PyDict.keys acc)) as [Hin|Hnin].
      * rewrite !decide_False; [done | by intros [_ ?] | by intros [_ ?]].
      * rewrite decide_False.
        -- rewrite decide_True; [done | by split].
        -- intros [_ Hn]. apply Hn. apply elem_of_app. right. apply elem_of_cons. by left.
    + done.
Qed.

(** X1.  [_find_remapped_specials] as a lookup table, for all inputs: a
    declared group [label] is mapped to a list of one pre-bucket, the last
    one (in the order of [bucket_labels]) whose label is
    ["Special: " + label]; a group that is not declared, or whose label does
    not occur, has no entry; with [None] for either argument the result is
    empty. *)
Theorem find_remapped_specials_last_match {V} (bucket_labels : option (list (Z * string)))
    (var_specials : option (list (string * V))) (label : string) :
  PyDict.get label (_find_remapped_specials bucket_labels var_specials) =
    match bucket_labels, var_specials with
    | Some bucket_labels, Some var_specials =>
        if decide (label ∈ PyDict.keys var_specials)
        then (λ bucket, [bucket]) <$> last (matching_buckets bucket_labels label)
        else None
    | _, _ => None
    end.
Proof.
  destruct bucket_labels as [bucket_labels|], var_specials as [var_specials|]; try done.
  apply find_remapped_get.
Qed.

(** X2.  The remapped groups come in the order in which the groups were
    declared, each once: the keys of the result are the declared groups
    whose label occurs among the labels of the pre-buckets. *)
Theorem find_remapped_specials_keys {V} (bucket_labels : list (Z * string))
    (var_specials : list (string * V)) :
  NoDup (PyDict.keys var_specials) →
  PyDict.keys (_find_remapped_specials (Some bucket_labels) (Some var_specials)) =
    filter (λ label, matching_buckets bucket_labels label ≠ []) (PyDict.keys var_specials).
Proof.
  intros Hnd. unfold _find_remapped_specials.
  change (foldl _ [] (PyDict.keys var_specials))
    with (foldl (λ acc l, scan l bucket_labels acc) [] (PyDict.keys var_specials)).
  assert (∀ ks acc, NoDup ks → (∀ k, k ∈ ks → k ∉ PyDict.keys acc) →
    PyDict.keys (foldl (λ acc l, scan l bucket_labels acc) acc ks) =
      PyDict.keys acc ++ filter (λ label, matching_buckets bucket_labels label ≠ []) ks)
    as Hgen.
  { induction ks as [|k ks IH]; intros acc Hks Hdisj.
    - simpl. by rewrite app_nil_r.
    - apply NoDup_cons in Hks as [Hk Hks]. simpl foldl.
      assert (k ∉ PyDict.keys acc) as Hkacc by (apply Hdisj, elem_of_cons; by left).
      rewrite IH; [|done|].
      + rewrite keys_scan, filter_cons.
        destruct (decide (matching_buckets bucket_labels k ≠ [])) as [Hm|Hm].
        * rewrite decide_True by done. by rewrite <- app_assoc.
        * rewrite decide_False; [done | by intros [? _]].
      + intros k' Hk'. rewrite keys_scan.
        assert (k' ∉ PyDict.keys acc) as Hk'acc by (apply Hdisj, elem_of_cons; by right).
        case_decide; [|done].
        intros [?|Hin]%elem_of_app; [done|].
        apply list_elem_of_singleton in Hin. by subst k'. }
  rewrite Hgen; [done | done | intros k _; apply not_elem_of_nil].
Qed.

End find_remapped_more.

(** The groups ["=400000.0"] and ["=0.0"] of which the second one has no
    pre-bucket. *)
Lemma find_remapped_specials_keys_witness :
  NoDup (PyDict.keys [("=400000.0", [Qc_of_Z 400000]); ("=0.0", [Qc_of_Z 0])]) ∧
  PyDict.keys (BucketingProcess._find_remapped_specials (Some ToyProcess.LIMIT_BAL_labels)
                 (Some [("=400000.0", [Qc_of_Z 400000]); ("=0.0", [Qc_of_Z 0])]))
  = ["=400000.0"].
Proof.
  assert (NoDup (PyDict.keys [("=400000.0", [Qc_of_Z 400000]); ("=0.0", [Qc_of_Z 0])]))
    as Hnd by (apply (bool_decide_unpack _); by vm_compute).
  split; [exact Hnd|].
  rewrite (find_remapped_specials_keys ToyProcess.LIMIT_BAL_labels _ Hnd).
  reflexivity.
Defined.

(** ** BucketingProcess: construction, refit and tables *)

Section BucketingProcess_more.
Import PyDictFacts BucketingProcess BucketingProcessSpec BucketingProcessFacts.

Context {DataFrame Target Estimator V BucketMapping Table Summary : Type}.
Variable labels : BucketMapping → option (list (Z * string)).
Variable X_columns : DataFrame → list string.
Variable build_bucket_table : DataFrame → Target → string → BucketMapping → Table.
Variable _generate_summary : DataFrame → Target → Summary.
Variable repr : Estimator → string.
Variable pipeline_fit_transform :
  list (Step (Estimator := Estimator) (raw_specials V)) → DataFrame → Target
  → M warning (DataFrame * list (string * BucketMapping)).
Variable pipeline_fit :
  list (Step (Estimator := Estimator) remapped_specials) → DataFrame → Target
  → M warning (list (string * BucketMapping)).
Variable rename_bucket_id : Table → Table.
Variable with_bucket_column : Table → BucketMapping → Table.

Local Abbreviation process := (t (Estimator := Estimator) (V := V) (BucketMapping := BucketMapping)
                       (Table := Table) (Summary := Summary)).
Local Abbreviation fit := (fit labels X_columns build_bucket_table _generate_summary
                   pipeline_fit_transform pipeline_fit).
Local Abbreviation finish_fit := (finish_fit X_columns build_bucket_table _generate_summary).
Local Abbreviation tables_of := (tables_of X_columns build_bucket_table).
Local Abbreviation __init__ :=
  (__init__ (BucketMapping := BucketMapping) (Table := Table) (Summary := Summary) repr).
Local Abbreviation init_steps := (init_steps repr).
Local Abbreviation prebucket_table := (prebucket_table rename_bucket_id with_bucket_column).

Lemma init_steps_bare specials0 (steps : list (Step (Estimator := Estimator) (raw_specials V))) :
  Forall (λ step, specials _ step = []) steps →
  init_steps specials0 steps = mret ((λ step, mkStep _ (estimator _ step) specials0) <$> steps).
Proof.
  induction steps as [|step steps IH]; intros Hall; [done|].
  apply Forall_cons in Hall as [Hstep Hall]. simpl.
  rewrite Hstep. rewrite decide_False by (simpl; lia).
  rewrite (IH Hall). by rewrite bind_ret_l.
Qed.

Lemma init_steps_specials specials0 before step
    (after : list (Step (Estimator := Estimator) (raw_specials V))) :
  Forall (λ step, specials _ step = []) before → specials _ step ≠ [] →
  init_steps specials0 (before ++ step :: after) =
    raise (ValueError
      ("Specials should be defined on the BucketingProcess level, remove the specials from "
         +:+ repr (estimator _ step))).
Proof.
  intros Hbefore Hstep.
  induction before as [|s before IH].
  - simpl. rewrite decide_True; [done|]. by destruct (specials _ step).
  - apply Forall_cons in Hbefore as [Hs Hbefore]. simpl.
    rewrite Hs. rewrite decide_False by (simpl; lia).
    by rewrite (IH Hbefore).
Qed.

(** X3.  [BucketingProcess.__init__] takes specials on the process only.
    When no pre-bucketer comes with specials of its own, every pre-bucketer
    gets the specials of the process, the bucketing pipeline is left as it is
    and the specials of the second stage start empty; otherwise the call
    raises a [ValueError] that names the first pre-bucketer with specials. *)
Theorem init_takes_specials_on_the_process_only
    (prebucketing_pipeline0 : list (Step (Estimator := Estimator) (raw_specials V)))
    (bucketing_pipeline0 : list (Step (Estimator := Estimator) remapped_specials))
    (specials0 : raw_specials V) :
  (Forall (λ step, specials _ step = []) prebucketing_pipeline0 →
     ∃ self : process,
       __init__ prebucketing_pipeline0 bucketing_pipeline0 specials0 = ([], Ok self) ∧
       prebucketing_pipeline self
         = (λ step, mkStep _ (estimator _ step) specials0) <$> prebucketing_pipeline0 ∧
       Forall (λ step, specials _ step = specials0) (prebucketing_pipeline self) ∧
       bucketing_pipeline self = bucketing_pipeline0 ∧
       _prebucketing_specials self = specials0 ∧
       _bucketing_specials self = ∅) ∧
  (∀ before step after,
     prebucketing_pipeline0 = before ++ step :: after →
     Forall (λ step, specials _ step = []) before → specials _ step ≠ [] →
     __init__ prebucketing_pipeline0 bucketing_pipeline0 specials0
       = ([], Raise (ValueError
           ("Specials should be defined on the BucketingProcess level, remove the specials from "
              +:+ repr (estimator _ step))))).
Proof.
  split.
  - intros Hall. unfold BucketingProcess.__init__.
    rewrite (init_steps_bare _ _ Hall), bind_ret_l.
    eexists. split; [reflexivity|]. simpl.
    split; [done|]. split; [|done].
    apply Forall_fmap, Forall_forall. by intros step _.
  - intros before step after -> Hbefore Hstep. unfold BucketingProcess.__init__.
    by rewrite (init_steps_specials _ _ _ _ Hbefore Hstep).
Qed.

(** The store of the second stage keeps the entry of a feature of which no
    group is remapped. *)
Lemma remapped_keeps (items : list (string * list (string * list V)))
    (fbm : list (string * BucketMapping)) store var :
  (∀ var_specials bm, (var, var_specials) ∈ items → PyDict.get var fbm = Some bm →
     _find_remapped_specials (labels bm) (Some var_specials) = []) →
  remapped labels items fbm store !! var = store !! var.
Proof.
  revert store. induction items as [|[var' vs] items IH]; intros store Hnone; [done|].
  change (remapped labels ((var', vs) :: items) fbm store)
    with (remapped labels items fbm
            (match PyDict.get var' fbm with
             | Some bm =>
                 let new_specials := _find_remapped_specials (labels bm) (Some vs) in
                 if decide (length new_specials ≠ 0%nat)
                 then <[var' := new_specials]> store else store
             | None => store
             end)).
  rewrite IH by (intros vs' bm Hin; apply Hnone, elem_of_cons; by right).
  destruct (PyDict.get var' fbm) as [bm|] eqn:Hbm; [|done]. simpl.
  case_decide as Hlen; [|done].
  destruct (decide (var' = var)) as [->|Hne]; [|by rewrite lookup_insert_ne].
  exfalso. apply Hlen.
  rewrite (Hnone vs bm); [done | apply elem_of_cons; by left | done].
Qed.

(** X4.  [fit] adds to the specials of the second stage and never removes
    from them: on a process that already holds remapped specials for a
    feature, as after an earlier [fit], a [fit] in which no group of the
    feature gets a pre-bucket leaves the earlier entry in place, and the
    bucketing pipeline is fitted with it. *)
Theorem refit_keeps_earlier_specials (self : process) X y w1 Xp pre var earlier :
  pipeline_fit_transform (prebucketing_pipeline self) X y = (w1, Ok (Xp, pre)) →
  (∀ var, var ∈ PyDict.keys (_prebucketing_specials self) → is_Some (PyDict.get var pre)) →
  _bucketing_specials self !! var = Some earlier →
  (∀ var_specials bm bucket_labels label,
     (var, var_specials) ∈ _prebucketing_specials self →
     PyDict.get var pre = Some bm →
     labels bm = Some bucket_labels →
     label ∈ PyDict.keys var_specials →
     special_label label ∉ bucket_labels.*2) →
  ∃ store,
    remap_specials labels (_prebucketing_specials self) pre (_bucketing_specials self)
      = ([], Ok store) ∧
    store !! var = Some earlier ∧
    Forall (λ step, specials _ step !! var = Some earlier)
      (assign_specials store (bucketing_pipeline self)) ∧
    fit self X y =
      (let steps := assign_specials store (bucketing_pipeline self) in
       let rest := buck_fbm ← pipeline_fit steps Xp y;
                   finish_fit self X Xp y pre store steps buck_fbm in
       (w1 ++ events rest, result rest)).
Proof.
  intros H1 Hall Hearlier Hnone.
  exists (remapped labels (_prebucketing_specials self) pre (_bucketing_specials self)).
  split; [by apply remap_specials_remapped|].
  assert (remapped labels (_prebucketing_specials self) pre (_bucketing_specials self) !! var
          = Some earlier) as Hstore.
  { rewrite remapped_keeps; [done|]. intros vs bm Hin Hbm.
    destruct (labels bm) as [bl|] eqn:Hl; [|done].
    apply find_remapped_nil. intros label Hlabel.
    apply matching_buckets_nil. by eapply Hnone. }
  split; [done|]. split.
  - unfold assign_specials. apply Forall_fmap, Forall_forall. by intros step _.
  - by apply fit_after_prebucketing.
Qed.

(** A [fit] that returns has gone through its three stages and the two
    checks. *)
Lemma fit_ok_inv (self : process) X y w self' :
  fit self X y = (w, Ok self') →
  ∃ w1 Xp pre w2 store w3 buck,
    pipeline_fit_transform (prebucketing_pipeline self) X y = (w1, Ok (Xp, pre)) ∧
    remap_specials labels (_prebucketing_specials self) pre (_bucketing_specials self)
      = (w2, Ok store) ∧
    pipeline_fit (assign_specials store (bucketing_pipeline self)) Xp y = (w3, Ok buck) ∧
    result (check_columns (columns pre) (columns buck)) = Ok tt ∧
    prebucketing_mapping_ self' = pre ∧
    bucketing_mapping_ self' = buck ∧
    prebucket_tables_ self' = tables_of X y pre X ∧
    bucket_tables_ self' = tables_of X y buck Xp.
Proof.
  unfold BucketingProcess.fit. intros Hfit.
  destruct (pipeline_fit_transform (prebucketing_pipeline self) X y)
    as [w1 [[Xp pre]|e]] eqn:H1; [|discriminate Hfit].
  rewrite (bind_ok _ _ _ _ eq_refl) in Hfit. cbv beta iota in Hfit.
  destruct (remap_specials labels (_prebucketing_specials self) pre (_bucketing_specials self))
    as [w2 [store|e]] eqn:H2;
    [|rewrite (bind_raised _ _ _ _ eq_refl) in Hfit; discriminate Hfit].
  rewrite (bind_ok _ _ _ _ eq_refl) in Hfit.
  destruct (pipeline_fit (assign_specials store (bucketing_pipeline self)) Xp y)
    as [w3 [buck|e]] eqn:H3;
    [|rewrite (bind_raised _ _ _ _ eq_refl) in Hfit; discriminate Hfit].
  rewrite (bind_ok _ _ _ _ eq_refl) in Hfit.
  unfold BucketingProcess.finish_fit in Hfit.
  destruct (check_columns (columns pre) (columns buck)) as [w4 [[]|e]] eqn:H4;
    [|rewrite (bind_raised _ _ _ _ eq_refl) in Hfit; discriminate Hfit].
  rewrite (bind_ok _ _ _ _ eq_refl) in Hfit.
  unfold events, result in Hfit. cbn [fst snd mret M_ret ret] in Hfit.
  injection Hfit as _ <-.
  exists w1, Xp, pre, w2, store, w3, buck. split_and!; try done. by rewrite H4.
Qed.

Lemma check_columns_ok_inv pre_cols buck_cols :
  result (check_columns pre_cols buck_cols) = Ok tt →
  ∀ col, col ∈ buck_cols ↔ col ∈ pre_cols.
Proof.
  unfold check_columns. intros Hok col.
  destruct (filter (λ col, col ∉ pre_cols) buck_cols) eqn:Hf1; [|discriminate Hok].
  rewrite decide_False in Hok by (simpl; lia).
  destruct (filter (λ col, col ∉ buck_cols) pre_cols) eqn:Hf2; [|discriminate Hok].
  split; intros Hin.
  - destruct (decide (col ∈ pre_cols)) as [|Hn]; [done|].
    by destruct (filter_nil_elim _ _ col Hf1 Hin).
  - destruct (decide (col ∈ buck_cols)) as [|Hn]; [done|].
    by destruct (filter_nil_elim _ _ col Hf2 Hin).
Qed.

(** The table of a column after the loop [for column in X.columns]. *)
Lemma get_tables_of X y (fbm : list (string * BucketMapping)) X_source column :
  PyDict.get column (tables_of X y fbm X_source) =
    if decide (column ∈ X_columns X)
    then build_bucket_table X_source y column <$> PyDict.get column fbm
    else None.
Proof.
  unfold BucketingProcess.tables_of.
  induction (X_columns X) as [|c cols IH].
  - destruct (decide (column ∈ [])) as [Hin|_]; [by apply elem_of_nil in Hin | done].
  - cbn [omap list_omap].
    destruct (decide (c = column)) as [->|Hne].
    + rewrite (decide_True (P := column ∈ column :: cols)) by (apply elem_of_cons; by left).
      destruct (PyDict.get column fbm) as [bm|] eqn:Hbm.
      * simpl. by rewrite decide_True.
      * rewrite IH. by case_decide.
    + assert ((if decide (column ∈ c :: cols)
               then build_bucket_table X_source y column <$> PyDict.get column fbm else None)
              = (if decide (column ∈ cols)
                 then build_bucket_table X_source y column <$> PyDict.get column fbm else None))
        as ->.
      { destruct (decide (column ∈ cols)) as [Hin|Hnin].
        - rewrite decide_True; [done | apply elem_of_cons; by right].
        - rewrite decide_False; [done|]. intros [?|?]%elem_of_cons; [congruence | done]. }
      rewrite <- IH.
      destruct (PyDict.get c fbm) as [bm|]; [|done].
      simpl. by rewrite decide_False.
Qed.

Lemma is_Some_get {A} (d : list (string * A)) k : is_Some (PyDict.get k d) ↔ k ∈ PyDict.keys d.
Proof.
  destruct (PyDict.get k d) eqn:Hg.
  - split; [|by eexists]. intros _.
    destruct (decide (k ∈ PyDict.keys d)) as [|Hn]; [done|].
    apply get_None in Hn. congruence.
  - split; [by intros [? ?]|]. intros Hin. by apply get_None in Hg.
Qed.

(** X5.  After a [fit] that returns, the two stages cover the same
    columns, and a column has a pre-bucket table exactly when it has a bucket
    table, which is when it is a column of [X] that the stages cover.  The
    pre-bucket table is built on [X] with the mapping of the first stage, the
    bucket table on the output of the first stage with the mapping of the
    second. *)
Theorem fit_tables_of_both_stages (self : process) X y w self' :
  fit self X y = (w, Ok self') →
  ∃ w1 X_prebucketed_,
    pipeline_fit_transform (prebucketing_pipeline self) X y
      = (w1, Ok (X_prebucketed_, prebucketing_mapping_ self')) ∧
    ∀ column,
      (column ∈ columns (bucketing_mapping_ self')
         ↔ column ∈ columns (prebucketing_mapping_ self')) ∧
      (is_Some (PyDict.get column (prebucket_tables_ self'))
         ↔ column ∈ X_columns X ∧ column ∈ columns (prebucketing_mapping_ self')) ∧
      (is_Some (PyDict.get column (bucket_tables_ self'))
         ↔ is_Some (PyDict.get column (prebucket_tables_ self'))) ∧
      PyDict.get column (prebucket_tables_ self')
        = (if decide (column ∈ X_columns X)
           then build_bucket_table X y column
                  <$> PyDict.get column (prebucketing_mapping_ self')
           else None) ∧
      PyDict.get column (bucket_tables_ self')
        = (if decide (column ∈ X_columns X)
           then build_bucket_table X_prebucketed_ y column
                  <$> PyDict.get column (bucketing_mapping_ self')
           else None).
Proof.
  intros Hfit.
  destruct (fit_ok_inv _ _ _ _ _ Hfit)
    as (w1 & Xp & pre & w2 & store & w3 & buck & H1 & _ & _ & Hcheck & -> & -> & -> & ->).
  exists w1, Xp. split; [done|]. intros column.
  pose proof (check_columns_ok_inv _ _ Hcheck column) as Hiff.
  rewrite !get_tables_of.
  split; [done|].
  assert (∀ (fbm : list (string * BucketMapping)) Xs,
    is_Some (if decide (column ∈ X_columns X)
             then build_bucket_table Xs y column <$> PyDict.get column fbm else None)
    ↔ column ∈ X_columns X ∧ column ∈ columns fbm) as Hsome.
  { intros fbm Xs. unfold columns. rewrite <- is_Some_get.
    case_decide; [rewrite fmap_is_Some; tauto|].
    split; [by intros [? ?] | tauto]. }
  split; [apply Hsome|]. split; [|done].
  rewrite !Hsome. tauto.
Qed.

(** X6.  On a process that [fit] has returned, [prebucket_table] answers
    for every column of [X] that was pre-bucketed, with the pre-bucket table
    of [fit] to which the buckets of the second stage are added: the lookup in
    the mapping of the second stage cannot fail, as [fit] has made sure that
    both stages cover the same columns.  For any other column it raises a
    [ValueError] that names the column. *)
Theorem prebucket_table_after_fit (self : process) X y w self' column :
  fit self X y = (w, Ok self') →
  (column ∈ X_columns X ∧ column ∈ columns (prebucketing_mapping_ self') →
     ∃ prebucket_mapping bucket_mapping,
       PyDict.get column (prebucketing_mapping_ self') = Some prebucket_mapping ∧
       PyDict.get column (bucketing_mapping_ self') = Some bucket_mapping ∧
       prebucket_table self' column =
         ([], Ok (with_bucket_column
                    (rename_bucket_id (build_bucket_table X y column prebucket_mapping))
                    bucket_mapping))) ∧
  (¬ (column ∈ X_columns X ∧ column ∈ columns (prebucketing_mapping_ self')) →
     prebucket_table self' column =
       ([], Raise (ValueError
          ("column '" +:+ column +:+ "' was not part of the pre-bucketing process")))).
Proof.
  intros Hfit.
  destruct (fit_ok_inv _ _ _ _ _ Hfit)
    as (w1 & Xp & pre & w2 & store & w3 & buck & H1 & _ & _ & Hcheck & Hpre & Hbuck & Htab & _).
  pose proof (check_columns_ok_inv _ _ Hcheck column) as Hiff.
  unfold BucketingProcess.prebucket_table. rewrite Htab, Hpre, Hbuck, get_tables_of.
  split.
  - intros [HX Hcol]. rewrite decide_True by done.
    pose proof Hcol as Hcol'. apply Hiff in Hcol'.
    unfold columns in Hcol, Hcol'. apply is_Some_get in Hcol as [pre_bm Hpre_bm].
    apply is_Some_get in Hcol' as [bm Hbm].
    exists pre_bm, bm. split; [done|]. split; [done|].
    rewrite Hpre_bm. simpl. unfold get. rewrite Hbm. by rewrite bind_ret_l.
  - intros Hnot. case_decide as HX; [|done].
    destruct (PyDict.get column pre) as [pre_bm|] eqn:Hpre_bm; [|done].
    exfalso. apply Hnot. split; [done|]. unfold columns. apply is_Some_get. by eexists.
Qed.

End BucketingProcess_more.

(** A pipeline of bare pre-bucketers, and one whose second pre-bucketer
    comes with specials of its own. *)
Lemma init_takes_specials_on_the_process_only_witness :
  (∃ self : BucketingProcess.t (Estimator := string) (V := Qc)
              (BucketMapping := list (Z * string)) (Table := unit) (Summary := unit),
     BucketingProcess.__init__ (λ name : string, name)
       [BucketingProcess.mkStep _ "DecisionTreeBucketer()" []]
       [BucketingProcess.mkStep _ "OptimalBucketer()" ∅] ToyProcess.LIMIT_BAL_specials
     = ([], Ok self) ∧
     BucketingProcess.prebucketing_pipeline self
     = [BucketingProcess.mkStep _ "DecisionTreeBucketer()" ToyProcess.LIMIT_BAL_specials] ∧
     BucketingProcess._bucketing_specials self = ∅) ∧
  BucketingProcess.__init__ (BucketMapping := list (Z * string)) (Table := unit)
    (Summary := unit) (λ name : string, name)
    [BucketingProcess.mkStep _ "AsIsCategoricalBucketer()" [];
     BucketingProcess.mkStep _ "DecisionTreeBucketer(specials=...)" ToyProcess.LIMIT_BAL_specials;
     BucketingProcess.mkStep _ "EqualWidthBucketer(specials=...)" ToyProcess.LIMIT_BAL_specials]
    [BucketingProcess.mkStep _ "OptimalBucketer()" ∅] ToyProcess.LIMIT_BAL_specials
  = ([], Raise (ValueError
      "Specials should be defined on the BucketingProcess level, remove the specials from DecisionTreeBucketer(specials=...)")).
Proof.
  split.
  - destruct (init_takes_specials_on_the_process_only (BucketMapping := list (Z * string))
                (Table := unit) (Summary := unit) (λ name : string, name)
                [BucketingProcess.mkStep _ "DecisionTreeBucketer()" []]
                [BucketingProcess.mkStep _ "OptimalBucketer()" ∅] ToyProcess.LIMIT_BAL_specials)
      as [Hbare _].
    destruct Hbare as (self & Hinit & Hpre & _ & _ & _ & Hstore).
    { by repeat constructor. }
    exists self. split; [exact Hinit|]. split; [exact Hpre | exact Hstore].
  - destruct (init_takes_specials_on_the_process_only (BucketMapping := list (Z * string))
                (Table := unit) (Summary := unit) (λ name : string, name)
                [BucketingProcess.mkStep _ "AsIsCategoricalBucketer()" [];
                 BucketingProcess.mkStep _ "DecisionTreeBucketer(specials=...)"
                   ToyProcess.LIMIT_BAL_specials;
                 BucketingProcess.mkStep _ "EqualWidthBucketer(specials=...)"
                   ToyProcess.LIMIT_BAL_specials]
                [BucketingProcess.mkStep _ "OptimalBucketer()" ∅] ToyProcess.LIMIT_BAL_specials)
      as [_ Hraise].
    apply (Hraise [BucketingProcess.mkStep _ "AsIsCategoricalBucketer()" []]
             (BucketingProcess.mkStep _ "DecisionTreeBucketer(specials=...)"
                ToyProcess.LIMIT_BAL_specials)
             [BucketingProcess.mkStep _ "EqualWidthBucketer(specials=...)"
                ToyProcess.LIMIT_BAL_specials]).
    + reflexivity.
    + by repeat constructor.
    + done.
Defined.

(** A first [fit] finds the group ["=400000.0"] in pre-bucket [-3]; in a
    second [fit] of the same process no value of the group turns up, and the
    second stage is fitted with pre-bucket [-3] as a special all the same. *)
Lemma refit_keeps_earlier_specials_witness :
  result (ToyProcess.fit [("LIMIT_BAL", ToyProcess.LIMIT_BAL_labels)] [("LIMIT_BAL", [])]
            (ToyProcess.process ToyProcess.LIMIT_BAL_specials) tt tt)
  = Ok ToyRefit.fitted_once ∧
  BucketingProcess._bucketing_specials ToyRefit.fitted_once !! "LIMIT_BAL"
  = Some [("=400000.0", [(-3)%Z])] ∧
  ∃ store,
    BucketingProcess.remap_specials ToyProcess.labels
      (BucketingProcess._prebucketing_specials ToyRefit.fitted_once)
      [("LIMIT_BAL", ToyProcess.LIMIT_BAL_labels_without_special)]
      (BucketingProcess._bucketing_specials ToyRefit.fitted_once)
    = ([], Ok store) ∧
    store !! "LIMIT_BAL" = Some [("=400000.0", [(-3)%Z])] ∧
    Forall (λ step, BucketingProcess.specials _ step !! "LIMIT_BAL"
                    = Some [("=400000.0", [(-3)%Z])])
      (BucketingProcess.assign_specials store
         (BucketingProcess.bucketing_pipeline ToyRefit.fitted_once)) ∧
    length (BucketingProcess.assign_specials store
              (BucketingProcess.bucketing_pipeline ToyRefit.fitted_once)) = 1%nat.
Proof.
  split; [vm_compute; reflexivity|].
  split; [reflexivity|].
  destruct (refit_keeps_earlier_specials ToyProcess.labels ToyProcess.X_columns
              ToyProcess.build_bucket_table ToyProcess._generate_summary
              (ToyProcess.pipeline_fit_transform
                 [("LIMIT_BAL", ToyProcess.LIMIT_BAL_labels_without_special)])
              (ToyProcess.pipeline_fit [("LIMIT_BAL", [])])
              ToyRefit.fitted_once tt tt [] tt
              [("LIMIT_BAL", ToyProcess.LIMIT_BAL_labels_without_special)]
              "LIMIT_BAL" [("=400000.0", [(-3)%Z])])
    as (store & Hremap & Hstore & Hsteps & _).
  - reflexivity.
  - intros var [->|?%elem_of_nil]%elem_of_cons; [by eexists | done].
  - reflexivity.
  - intros var_specials bm bucket_labels label Hin Hbm Hlabels Hlabel.
    apply elem_of_cons in Hin as [Hin|?%elem_of_nil]; [|done].
    injection Hin as ->. injection Hbm as <-. injection Hlabels as <-.
    apply elem_of_cons in Hlabel as [->|?%elem_of_nil]; [|done].
    vm_compute. intros Hl.
    repeat (apply elem_of_cons in Hl as [Hl|Hl]; [discriminate Hl|]).
    by apply elem_of_nil in Hl.
  - exists store. split; [exact Hremap|]. split; [exact Hstore|]. split; [exact Hsteps|].
    unfold BucketingProcess.assign_specials. by rewrite length_fmap.
Defined.

(** A frame with the columns ["LIMIT_BAL"], ["AGE"] and ["ID"], of which
    both stages cover the first two. *)
Lemma fit_tables_of_both_stages_witness :
  ∃ w self',
    ToyProcess.fit_names [("LIMIT_BAL", []); ("AGE", [])] [("AGE", []); ("LIMIT_BAL", [])]
      (ToyProcess.process_of_names []) ["LIMIT_BAL"; "AGE"; "ID"] tt
    = (w, Ok self') ∧
    PyDict.get "AGE" (BucketingProcess.prebucket_tables_ self')
    = Some "table of AGE on LIMIT_BAL,AGE,ID" ∧
    PyDict.get "AGE" (BucketingProcess.bucket_tables_ self')
    = Some "table of AGE on LIMIT_BAL_prebucketed,AGE_prebucketed,ID_prebucketed" ∧
    PyDict.get "ID" (BucketingProcess.prebucket_tables_ self') = None ∧
    (is_Some (PyDict.get "ID" (BucketingProcess.bucket_tables_ self'))
       ↔ is_Some (PyDict.get "ID" (BucketingProcess.prebucket_tables_ self'))).
Proof.
  eexists. eexists. split; [vm_compute; reflexivity|].
  match goal with
  | |- context [BucketingProcess.prebucket_tables_ ?p] => set (self' := p)
  end.
  assert (ToyProcess.fit_names [("LIMIT_BAL", []); ("AGE", [])]
            [("AGE", []); ("LIMIT_BAL", [])]
            (ToyProcess.process_of_names []) ["LIMIT_BAL"; "AGE"; "ID"] tt
          = ([], Ok self')) as Hfit by (vm_compute; reflexivity).
  destruct (fit_tables_of_both_stages ToyProcess.labels ToyProcess.names
              ToyProcess.describe_table (λ _ _, tt)
              (ToyProcess.prebucket [("LIMIT_BAL", []); ("AGE", [])])
              (ToyProcess.bucket [("AGE", []); ("LIMIT_BAL", [])])
              (ToyProcess.process_of_names []) ["LIMIT_BAL"; "AGE"; "ID"] tt [] self' Hfit)
    as (w1 & Xp & Hpre & Hcolumns).
  injection Hpre as _ <-.
  destruct (Hcolumns "AGE") as (_ & _ & _ & Hpre_table & Hbuck_table).
  destruct (Hcolumns "ID") as (_ & _ & Hiff & Hpre_ID & _).
  split; [exact Hpre_table|]. split; [exact Hbuck_table|].
  split; [exact Hpre_ID | exact Hiff].
Defined.

(** On the same process, [prebucket_table] answers for ["AGE"] and raises
    for ["ID"]. *)
Lemma prebucket_table_after_fit_witness :
  ∃ w self',
    ToyProcess.fit_names [("LIMIT_BAL", []); ("AGE", [])] [("AGE", []); ("LIMIT_BAL", [])]
      (ToyProcess.process_of_names []) ["LIMIT_BAL"; "AGE"; "ID"] tt
    = (w, Ok self') ∧
    BucketingProcess.prebucket_table ToyProcess.rename_bucket_id ToyProcess.with_bucket_column
      self' "AGE"
    = ([], Ok "table of AGE on LIMIT_BAL,AGE,ID, renamed, with buckets") ∧
    BucketingProcess.prebucket_table ToyProcess.rename_bucket_id ToyProcess.with_bucket_column
      self' "ID"
    = ([], Raise (ValueError "column 'ID' was not part of the pre-bucketing process")).
Proof.
  eexists. eexists. split; [vm_compute; reflexivity|].
  match goal with
  | |- context [BucketingProcess.prebucket_table _ _ ?p] => set (self' := p)
  end.
  assert (ToyProcess.fit_names [("LIMIT_BAL", []); ("AGE", [])]
            [("AGE", []); ("LIMIT_BAL", [])]
            (ToyProcess.process_of_names []) ["LIMIT_BAL"; "AGE"; "ID"] tt
          = ([], Ok self')) as Hfit by (vm_compute; reflexivity).
  split.
  - destruct (prebucket_table_after_fit ToyProcess.labels ToyProcess.names
                ToyProcess.describe_table (λ _ _, tt)
                (ToyProcess.prebucket [("LIMIT_BAL", []); ("AGE", [])])
                (ToyProcess.bucket [("AGE", []); ("LIMIT_BAL", [])])
                ToyProcess.rename_bucket_id ToyProcess.with_bucket_column
                (ToyProcess.process_of_names []) ["LIMIT_BAL"; "AGE"; "ID"] tt [] self' "AGE"
                Hfit) as [Hanswer _].
    destruct Hanswer as (pre_bm & bm & Hpre_bm & Hbm & Htable).
    { split; apply (bool_decide_unpack _); by vm_compute. }
    injection Hpre_bm as <-. exact Htable.
  - destruct (prebucket_table_after_fit ToyProcess.labels ToyProcess.names
                ToyProcess.describe_table (λ _ _, tt)
                (ToyProcess.prebucket [("LIMIT_BAL", []); ("AGE", [])])
                (ToyProcess.bucket [("AGE", []); ("LIMIT_BAL", [])])
                ToyProcess.rename_bucket_id ToyProcess.with_bucket_column
                (ToyProcess.process_of_names []) ["LIMIT_BAL"; "AGE"; "ID"] tt [] self' "ID"
                Hfit) as [_ Hraise].
    apply Hraise. intros [_ Hin]. vm_compute in Hin.
    repeat (apply elem_of_cons in Hin as [Hin|Hin]; [discriminate Hin|]).
    by apply elem_of_nil in Hin.
Defined.

(** ** Bucketers: the loop over the variables *)

Section fit_loop_more.
Import PyDictFacts Bucketers BucketersFacts.
Context {Val Y : Type} `{EqDecision Val}.
Variable Table : Type.
Variable rows : Table → list row.
Variable build_bucket_table :
  DataFrame Val → option (list Y) → string → BucketMapping Val → Table.
Variable sort_values_Count_descending : list row → list row.

Local Abbreviation fit_feature :=
  (fit_feature (Val := Val) (Y := Y) Table rows build_bucket_table sort_values_Count_descending).
Local Abbreviation fit_features :=
  (fit_features (Val := Val) (Y := Y) Table rows build_bucket_table
     sort_values_Count_descending).

(** X7.  Under ["separate"] and under a dict of missing buckets, [fit]
    builds the bucket table of a feature exactly once.  The missing bucket of
    the mapping is [None] under ["separate"]; under a dict it is the entry of
    the feature, and [None] again for a feature that the dict does not
    mention. *)
Theorem fit_feature_builds_one_table (self : Bucketer Val Y) feature X y w special splits :
  compute_map self feature X y = (w, Ok (special, splits)) →
  let mapping missing_bucket :=
    mkBucketMapping feature (bucketer_type self) splits (bucketer_right self) special
      missing_bucket in
  (bucketer_missing_treatment self = separate →
     fit_feature self feature X y =
       (w ++ [Built_bucket_table feature (mapping None)],
        Ok (mapping None, build_bucket_table X y feature (mapping None)))) ∧
  (∀ buckets, bucketer_missing_treatment self = per_feature buckets →
     fit_feature self feature X y =
       (w ++ [Built_bucket_table feature (mapping (buckets !! feature))],
        Ok (mapping (buckets !! feature),
            build_bucket_table X y feature (mapping (buckets !! feature)))) ∧
     (feature ∉ dom buckets → mapping (buckets !! feature) = mapping None)).
Proof.
  intros Hc mapping. split.
  - intros Hmt.
    rewrite (fit_feature_other Table rows build_bucket_table sort_values_Count_descending
               self feature X y w special splits) by (by rewrite ?Hmt).
    by rewrite Hmt.
  - intros buckets Hmt. split.
    + rewrite (fit_feature_other Table rows build_bucket_table sort_values_Count_descending
                 self feature X y w special splits) by (by rewrite ?Hmt).
      by rewrite Hmt.
    + intros Hdom. apply not_elem_of_dom in Hdom. by rewrite Hdom.
Qed.

(** What [fit_feature] returns: a mapping named after the feature, of the
    type and with the [right] of the bucketer, and the table of that
    mapping. *)
Lemma fit_feature_ok_inv (self : Bucketer Val Y) feature X y w bm table :
  fit_feature self feature X y = (w, Ok (bm, table)) →
  feature_name bm = feature ∧ type bm = bucketer_type self ∧
  right bm = bucketer_right self ∧ table = build_bucket_table X y feature bm.
Proof.
  unfold Bucketers.fit_feature. intros Hfit.
  destruct (compute_map self feature X y) as [w1 [[special splits]|e]] eqn:Hc;
    [|rewrite (bind_raised _ _ _ _ eq_refl) in Hfit; discriminate Hfit].
  rewrite (bind_ok _ _ _ _ eq_refl) in Hfit. cbv beta iota in Hfit.
  match type of Hfit with
  | context [call_build_bucket_table _ _ _ _ _ ?m ≫= ?k] =>
      rewrite (bind_ok (call_build_bucket_table Table build_bucket_table X y feature m) k
                 [Built_bucket_table feature m] (build_bucket_table X y feature m) eq_refl)
        in Hfit
  end.
  destruct (bucketer_missing_treatment self).
  - unfold events, result in Hfit. cbn in Hfit. injection Hfit as _ <- <-. done.
  - match type of Hfit with
    | context [most_frequent_bucket ?s ?t] =>
        destruct (most_frequent_bucket (Val := Val) s t) as [w2 [missing_bucket|e]] eqn:Hmf
    end.
    + rewrite (bind_ok _ _ _ _ eq_refl) in Hfit.
      match type of Hfit with
      | context [call_build_bucket_table _ _ _ _ _ ?m ≫= ?k] =>
          rewrite (bind_ok (call_build_bucket_table Table build_bucket_table X y feature m) k
                     [Built_bucket_table feature m] (build_bucket_table X y feature m) eq_refl)
            in Hfit
      end.
      unfold events, result in Hfit. cbn in Hfit. injection Hfit as _ <- <-. done.
    + rewrite (bind_raised _ _ _ _ eq_refl) in Hfit.
      unfold events, result in Hfit. cbn in Hfit. discriminate Hfit.
  - unfold events, result in Hfit. cbn in Hfit. injection Hfit as _ <- <-. done.
Qed.

(** The two dicts that the loop fills stay in step. *)
Local Abbreviation tables_in_step self X y fbm tables :=
  (PyDict.keys tables = PyDict.keys fbm ∧ NoDup (PyDict.keys fbm) ∧
   ∀ feature bm, PyDict.get feature fbm = Some bm →
     feature_name bm = feature ∧ type bm = bucketer_type self ∧
     right bm = bucketer_right self ∧
     PyDict.get feature tables = Some (build_bucket_table X y feature bm)).

Lemma NoDup_keys_set {A} (k : string) (v : A) (d : list (string * A)) :
  NoDup (PyDict.keys d) → NoDup (PyDict.keys (PyDict.set k v d)).
Proof.
  intros Hnd. rewrite keys_set. case_decide; [done|].
  apply NoDup_app. split; [done|]. split; [|apply NoDup_singleton].
  intros k' Hk' ->%list_elem_of_singleton. done.
Qed.

Lemma fit_features_in_step (self : Bucketer Val Y) features X (y : option (list Y))
    (fbm0 : list (string * BucketMapping Val)) (tables0 : list (string * Table)) w fbm tables :
  tables_in_step self X y fbm0 tables0 →
  fit_features self features X y fbm0 tables0 = (w, Ok (fbm, tables)) →
  tables_in_step self X y fbm tables ∧
  ∀ feature, feature ∈ PyDict.keys fbm ↔ feature ∈ PyDict.keys fbm0 ∨ feature ∈ features.
Proof.
  revert fbm0 tables0 w. induction features as [|f features IH]; intros fbm0 tables0 w Hinv Hfit.
  - injection Hfit as _ <- <-. split; [done|]. intros feature.
    rewrite elem_of_nil. tauto.
  - simpl in Hfit.
    destruct (fit_feature self f X y) as [w1 [[bm table]|e]] eqn:Hf;
      [|rewrite (bind_raised _ _ _ _ eq_refl) in Hfit; discriminate Hfit].
    rewrite (bind_ok _ _ _ _ eq_refl) in Hfit. cbv beta iota in Hfit.
    destruct (fit_features self features X y (PyDict.set f bm fbm0) (PyDict.set f table tables0))
      as [w2 r] eqn:Hrest.
    unfold events, result in Hfit. cbn [fst snd] in Hfit. injection Hfit as _ ->.
    destruct (fit_feature_ok_inv _ _ _ _ _ _ _ Hf) as (Hname & Htype & Hright & Htable).
    destruct Hinv as (Hkeys & Hnd & Hget).
    assert (tables_in_step self X y (PyDict.set f bm fbm0) (PyDict.set f table tables0))
      as Hinv0.
    { split; [|split].
      - rewrite !keys_set, Hkeys. done.
      - by apply NoDup_keys_set.
      - intros feature bm'. destruct (decide (f = feature)) as [->|Hne].
        + rewrite !get_set_eq. intros [= <-]. by subst table.
        + rewrite !get_set_ne by done. apply Hget. }
    destruct (IH _ _ _ Hinv0 Hrest) as [Hinv' Hmem].
    split; [done|]. intros feature. rewrite Hmem, keys_set, elem_of_cons.
    case_decide as Hin.
    + split; [tauto|]. intros [?|[->|?]]; tauto.
    + rewrite elem_of_app, list_elem_of_singleton. split; [tauto|].
      intros [?|[->|?]]; tauto.
Qed.

(** X8.  When [fit] returns, [features_bucket_mapping_] and
    [bucket_tables_] have the same keys, the variables of the bucketer, each
    once; the mapping stored for a feature carries the name of the feature,
    the type and the [right] of the bucketer, and the table stored for the
    feature is the bucket table of that very mapping, also when the mapping
    was built a second time for ["most_frequent"]. *)
Theorem fit_keeps_mappings_and_tables_in_step (self : Bucketer Val Y) features X y w fbm tables :
  fit_features self features X y [] [] = (w, Ok (fbm, tables)) →
  PyDict.keys tables = PyDict.keys fbm ∧
  NoDup (PyDict.keys fbm) ∧
  (∀ feature, feature ∈ PyDict.keys fbm ↔ feature ∈ features) ∧
  (∀ feature bm, PyDict.get feature fbm = Some bm →
     feature_name bm = feature ∧ type bm = bucketer_type self ∧
     right bm = bucketer_right self ∧
     PyDict.get feature tables = Some (build_bucket_table X y feature bm)).
Proof.
  intros Hfit.
  destruct (fit_features_in_step self features X y [] [] w fbm tables) as [Hinv Hmem];
    [|done|].
  { split; [done|]. split; [apply NoDup_nil_2 | done]. }
  destruct Hinv as (Hkeys & Hnd & Hget).
  split; [done|]. split; [done|]. split; [|done].
  intros feature. rewrite Hmem. cbn. rewrite elem_of_nil. tauto.
Qed.

(** X9.  [fit] ends with the exception of the first feature whose body
    raises: the log holds what the features before it and that feature have
    logged, and nothing of the features after it, for which no map is
    computed and no table is built. *)
Theorem fit_stops_at_first_error (self : Bucketer Val Y) before feature after X y w e
    fbm0 tables0 :
  Forall (λ f, ∃ r, result (fit_feature self f X y) = Ok r) before →
  fit_feature self feature X y = (w, Raise e) →
  fit_features self (before ++ feature :: after) X y fbm0 tables0 =
    (concat ((λ f, events (fit_feature self f X y)) <$> before) ++ w, Raise e).
Proof.
  intros Hbefore Hraise. revert fbm0 tables0.
  induction before as [|f before IH]; intros fbm0 tables0.
  - simpl. by rewrite (bind_raised _ _ _ _ Hraise).
  - apply Forall_cons in Hbefore as [[[bm table] Hf] Hbefore].
    cbn [app Bucketers.fit_features].
    rewrite (bind_ok _ _ (events (fit_feature self f X y)) (bm, table))
      by (rewrite <- Hf; apply M_eta).
    cbv beta iota. rewrite (IH Hbefore). unfold events, result. cbn [fst snd].
    rewrite fmap_cons. cbn [concat]. by rewrite <- app_assoc.
Qed.

End fit_loop_more.

(** The histogram of [10, 20] has the inner edge [15], whatever is done
    with the missing values. *)
Lemma ToyColumns_equal_width_map missing_treatment :
  Bucketers.compute_map
    (Bucketers.EqualWidthBucketer.bucketer (Y := bool) (ToyColumns.equal_width missing_treatment))
    "LIMIT_BAL" (Toy.frame Toy.mostly_missing) None
  = ([], Ok ([], Bucketers.Boundaries [Some (Qc_of_Z 15)])).
Proof.
  change (Bucketers.compute_map _ "LIMIT_BAL" (Toy.frame Toy.mostly_missing) None)
    with (Bucketers.EqualWidthBucketer.compute_map (Y := bool)
            (ToyColumns.equal_width missing_treatment)
            "LIMIT_BAL" (Toy.frame Toy.mostly_missing) None).
  rewrite (EqualWidthBucketer_compute_map (ToyColumns.equal_width missing_treatment) "LIMIT_BAL"
             (Toy.frame Toy.mostly_missing) None Toy.mostly_missing eq_refl).
  assert (Bucketers.histogram_bin_edges (E := Bucketers.event Qc)
            [Qc_of_Z 10; Qc_of_Z 20] 2
          = mret [Qc_of_Z 10; Qc_of_Z 15; Qc_of_Z 20]) as Hedges.
  { unfold Bucketers.histogram_bin_edges, Bucketers.histogram_outer_edges.
    rewrite decide_False by done.
    assert (Bucketers.minimum [Qc_of_Z 10; Qc_of_Z 20] = Qc_of_Z 10) as ->
      by (vm_compute; reflexivity).
    assert (Bucketers.maximum [Qc_of_Z 10; Qc_of_Z 20] = Qc_of_Z 20) as ->
      by (vm_compute; reflexivity).
    rewrite decide_False by (intros Heq; by apply Z2Qc_inj in Heq).
    unfold Bucketers.linspace. cbn [seq fmap list_fmap]. unfold mret, M_ret, ret.
    repeat f_equal; Qc_eq. }
  change (BucketersSpec.normal_values _ Toy.mostly_missing)
    with [Qc_of_Z 10; Qc_of_Z 20].
  change (Bucketers.EqualWidthBucketer.n_bins (ToyColumns.equal_width missing_treatment))
    with 2%nat.
  rewrite Hedges, bind_ret_l. reflexivity.
Qed.

(** A dict that sends the missing values of ["LIMIT_BAL"] to bucket [1],
    and a dict that only mentions ["AGE"]. *)
Lemma fit_feature_builds_one_table_witness :
  Bucketers.compute_map
    (Bucketers.EqualWidthBucketer.bucketer (Y := bool)
       (ToyColumns.equal_width (Bucketers.per_feature {[ "LIMIT_BAL" := 1%Z ]})))
    "LIMIT_BAL" (Toy.frame Toy.mostly_missing) None
  = ([], Ok ([], Bucketers.Boundaries [Some (Qc_of_Z 15)])) ∧
  Bucketers.fit_feature (list Bucketers.row) Toy.rows Toy.build_bucket_table
    Toy.sort_values_Count_descending
    (Bucketers.EqualWidthBucketer.bucketer
       (ToyColumns.equal_width (Bucketers.per_feature {[ "LIMIT_BAL" := 1%Z ]})))
    "LIMIT_BAL" (Toy.frame Toy.mostly_missing) None
  = ([Bucketers.Built_bucket_table "LIMIT_BAL"
        (Bucketers.mkBucketMapping "LIMIT_BAL" Bucketers.numerical
           (Bucketers.Boundaries [Some (Qc_of_Z 15)]) (Some true) [] (Some 1%Z))],
     Ok (Bucketers.mkBucketMapping "LIMIT_BAL" Bucketers.numerical
           (Bucketers.Boundaries [Some (Qc_of_Z 15)]) (Some true) [] (Some 1%Z),
         Toy.build_bucket_table (Toy.frame Toy.mostly_missing) None "LIMIT_BAL"
           (Bucketers.mkBucketMapping "LIMIT_BAL" Bucketers.numerical
              (Bucketers.Boundaries [Some (Qc_of_Z 15)]) (Some true) [] (Some 1%Z)))) ∧
  Bucketers.fit_feature (list Bucketers.row) Toy.rows Toy.build_bucket_table
    Toy.sort_values_Count_descending
    (Bucketers.EqualWidthBucketer.bucketer
       (ToyColumns.equal_width (Bucketers.per_feature {[ "AGE" := 0%Z ]})))
    "LIMIT_BAL" (Toy.frame Toy.mostly_missing) None
  = ([Bucketers.Built_bucket_table "LIMIT_BAL"
        (Bucketers.mkBucketMapping "LIMIT_BAL" Bucketers.numerical
           (Bucketers.Boundaries [Some (Qc_of_Z 15)]) (Some true) [] None)],
     Ok (Bucketers.mkBucketMapping "LIMIT_BAL" Bucketers.numerical
           (Bucketers.Boundaries [Some (Qc_of_Z 15)]) (Some true) [] None,
         Toy.build_bucket_table (Toy.frame Toy.mostly_missing) None "LIMIT_BAL"
           (Bucketers.mkBucketMapping "LIMIT_BAL" Bucketers.numerical
              (Bucketers.Boundaries [Some (Qc_of_Z 15)]) (Some true) [] None))).
Proof.
  split; [apply ToyColumns_equal_width_map|]. split.
  - destruct (fit_feature_builds_one_table (list Bucketers.row) Toy.rows Toy.build_bucket_table
                Toy.sort_values_Count_descending
                (Bucketers.EqualWidthBucketer.bucketer
                   (ToyColumns.equal_width (Bucketers.per_feature {[ "LIMIT_BAL" := 1%Z ]})))
                "LIMIT_BAL" (Toy.frame Toy.mostly_missing) None [] []
                (Bucketers.Boundaries [Some (Qc_of_Z 15)])
                (ToyColumns_equal_width_map _)) as [_ Hdict].
    destruct (Hdict {[ "LIMIT_BAL" := 1%Z ]} eq_refl) as [Hfit _].
    exact Hfit.
  - destruct (fit_feature_builds_one_table (list Bucketers.row) Toy.rows Toy.build_bucket_table
                Toy.sort_values_Count_descending
                (Bucketers.EqualWidthBucketer.bucketer
                   (ToyColumns.equal_width (Bucketers.per_feature {[ "AGE" := 0%Z ]})))
                "LIMIT_BAL" (Toy.frame Toy.mostly_missing) None [] []
                (Bucketers.Boundaries [Some (Qc_of_Z 15)])
                (ToyColumns_equal_width_map _)) as [_ Hdict].
    destruct (Hdict {[ "AGE" := 0%Z ]} eq_refl) as [Hfit _].
    exact Hfit.
Defined.

(** [AsIsNumericalBucketer] with the variables ["LIMIT_BAL"], ["AGE"] and
    ["LIMIT_BAL"] again. *)
Lemma fit_keeps_mappings_and_tables_in_step_witness :
  ∃ w fbm tables,
    Bucketers.fit_features (list Bucketers.row) Toy.rows Toy.build_bucket_table
      Toy.sort_values_Count_descending
      (Bucketers.AsIsNumericalBucketer.bucketer (Y := bool) Toy.list_sort ToyColumns.asis_twice)
      ["LIMIT_BAL"; "AGE"; "LIMIT_BAL"] ToyColumns.three_columns None [] []
    = (w, Ok (fbm, tables)) ∧
    PyDict.keys fbm = ["LIMIT_BAL"; "AGE"] ∧
    PyDict.keys tables = PyDict.keys fbm ∧
    NoDup (PyDict.keys fbm) ∧
    ∃ bm, PyDict.get "AGE" fbm = Some bm ∧
          Bucketers.feature_name bm = "AGE" ∧
          PyDict.get "AGE" tables
          = Some (Toy.build_bucket_table ToyColumns.three_columns None "AGE" bm).
Proof.
  eexists. eexists. eexists. split; [vm_compute; reflexivity|].
  match goal with
  | |- PyDict.keys ?m = _ ∧ PyDict.keys ?t = _ ∧ _ =>
      set (fbm := m); set (tables := t)
  end.
  assert (Bucketers.fit_features (list Bucketers.row) Toy.rows Toy.build_bucket_table
            Toy.sort_values_Count_descending
            (Bucketers.AsIsNumericalBucketer.bucketer (Y := bool) Toy.list_sort
               ToyColumns.asis_twice)
            ["LIMIT_BAL"; "AGE"; "LIMIT_BAL"] ToyColumns.three_columns None [] []
          = (_, Ok (fbm, tables))) as Hfit by (vm_compute; reflexivity).
  destruct (fit_keeps_mappings_and_tables_in_step (list Bucketers.row) Toy.rows
              Toy.build_bucket_table Toy.sort_values_Count_descending
              (Bucketers.AsIsNumericalBucketer.bucketer (Y := bool) Toy.list_sort
                 ToyColumns.asis_twice)
              ["LIMIT_BAL"; "AGE"; "LIMIT_BAL"] ToyColumns.three_columns None _ fbm tables Hfit)
    as (Hkeys & Hnd & _ & Hget).
  split; [reflexivity|]. split; [exact Hkeys|]. split; [exact Hnd|].
  eexists. split; [reflexivity|].
  match goal with
  | |- Bucketers.feature_name ?bm = _ ∧ _ =>
      destruct (Hget "AGE" bm eq_refl) as (Hname & _ & _ & Htable)
  end.
  split; [exact Hname | exact Htable].
Defined.

(** A tree bucketer with [max_n_bins=2], for which the group of
    ["LIMIT_BAL"] leaves one leaf: ["AGE"] is fitted, ["LIMIT_BAL"] raises and
    ["EDUCATION"] is not looked at. *)
Lemma fit_stops_at_first_error_witness :
  (Forall (λ f, ∃ r,
      result (Bucketers.fit_feature (list Bucketers.row) Toy.rows Toy.build_bucket_table
                Toy.sort_values_Count_descending
                (Bucketers.DecisionTreeBucketer.bucketer Toy.DecisionTreeClassifier_thresholds
                   Toy.tree_without_budget)
                f ToyColumns.three_columns None) = Ok r) ["AGE"] ∧
   Bucketers.fit_feature (list Bucketers.row) Toy.rows Toy.build_bucket_table
     Toy.sort_values_Count_descending
     (Bucketers.DecisionTreeBucketer.bucketer Toy.DecisionTreeClassifier_thresholds
        Toy.tree_without_budget)
     "LIMIT_BAL" ToyColumns.three_columns None
   = ([], Raise (ValueError
       "max_n_bins must be at least = the number of special bins + 2: set a value max_n_bins>= 3 (currently max_n_bins=2)"))) ∧
  Bucketers.fit_features (list Bucketers.row) Toy.rows Toy.build_bucket_table
    Toy.sort_values_Count_descending
    (Bucketers.DecisionTreeBucketer.bucketer Toy.DecisionTreeClassifier_thresholds
       Toy.tree_without_budget)
    ["AGE"; "LIMIT_BAL"; "EDUCATION"] ToyColumns.three_columns None [] []
  = (concat ((λ f,
        events (Bucketers.fit_feature (list Bucketers.row) Toy.rows Toy.build_bucket_table
                  Toy.sort_values_Count_descending
                  (Bucketers.DecisionTreeBucketer.bucketer
                     Toy.DecisionTreeClassifier_thresholds Toy.tree_without_budget)
                  f ToyColumns.three_columns None)) <$> ["AGE"]) ++ [],
     Raise (ValueError
       "max_n_bins must be at least = the number of special bins + 2: set a value max_n_bins>= 3 (currently max_n_bins=2)")) ∧
  length (events
            (Bucketers.fit_features (list Bucketers.row) Toy.rows Toy.build_bucket_table
               Toy.sort_values_Count_descending
               (Bucketers.DecisionTreeBucketer.bucketer Toy.DecisionTreeClassifier_thresholds
                  Toy.tree_without_budget)
               ["AGE"; "LIMIT_BAL"; "EDUCATION"] ToyColumns.three_columns None [] [])) = 2%nat.
Proof.
  assert (Forall (λ f, ∃ r,
      result (Bucketers.fit_feature (list Bucketers.row) Toy.rows Toy.build_bucket_table
                Toy.sort_values_Count_descending
                (Bucketers.DecisionTreeBucketer.bucketer Toy.DecisionTreeClassifier_thresholds
                   Toy.tree_without_budget)
                f ToyColumns.three_columns None) = Ok r) ["AGE"]) as Hbefore.
  { apply Forall_cons. split; [|apply Forall_nil_2]. eexists. vm_compute. reflexivity. }
  assert (Bucketers.fit_feature (list Bucketers.row) Toy.rows Toy.build_bucket_table
     Toy.sort_values_Count_descending
     (Bucketers.DecisionTreeBucketer.bucketer Toy.DecisionTreeClassifier_thresholds
        Toy.tree_without_budget)
     "LIMIT_BAL" ToyColumns.three_columns None
   = ([], Raise (ValueError
       "max_n_bins must be at least = the number of special bins + 2: set a value max_n_bins>= 3 (currently max_n_bins=2)")))
    as Hraise by (vm_compute; reflexivity).
  split; [by split|].
  pose proof (fit_stops_at_first_error (list Bucketers.row) Toy.rows Toy.build_bucket_table
                Toy.sort_values_Count_descending
                (Bucketers.DecisionTreeBucketer.bucketer Toy.DecisionTreeClassifier_thresholds
                   Toy.tree_without_budget)
                ["AGE"] "LIMIT_BAL" ["EDUCATION"] ToyColumns.three_columns None [] _ [] []
                Hbefore Hraise) as Hfit.
  cbn [app] in Hfit. split; [exact Hfit|].
  rewrite Hfit. vm_compute. reflexivity.
Defined.

(** ** EqualWidthBucketer: number and place of the boundaries *)

Section EqualWidthBucketer_more.
Import Bucketers BucketersSpec EqualWidthBucketer.
Local Open Scope Qc_scope.
Context {Y : Type}.

(** The inner points of [np.linspace]. *)
Lemma slice_linspace start stop num :
  slice_1_m1 (linspace start stop num) =
    (λ i, start + Qc_of_nat i * ((stop - start) / Qc_of_nat num)) <$> seq 1 (num - 1).
Proof.
  unfold slice_1_m1, linspace. rewrite length_fmap, length_seq.
  rewrite <- fmap_drop, <- fmap_take. f_equal.
  rewrite drop_seq, take_seq. f_equal; lia.
Qed.

Lemma Qc_of_nat_lt i j : (i < j)%nat → Qc_of_nat i < Qc_of_nat j.
Proof.
  intros Hlt. unfold Qc_of_nat.
  apply (proj1 (Z2Qc_inj_lt (Z.of_nat i) (Z.of_nat j))). lia.
Qed.

Lemma Qc_of_nat_ne_0 n : n ≠ 0%nat → Qc_of_nat n ≠ 0.
Proof.
  intros Hn Heq. assert (0 < Qc_of_nat n) as Hpos by (apply Qc_of_nat_pos; lia).
  rewrite Heq in Hpos. by apply (irreflexivity Qclt) in Hpos.
Qed.

Lemma Qcplus_lt_compat_l a x y : x < y → a + x < a + y.
Proof.
  intros Hlt. apply Qclt_minus_iff. apply Qclt_minus_iff in Hlt.
  by replace (a + y + - (a + x)) with (y + - x) by ring.
Qed.

(** Points at equal distances: increasing with their index. *)
Lemma steps_lt start width i j :
  0 < width → (i < j)%nat → start + Qc_of_nat i * width < start + Qc_of_nat j * width.
Proof.
  intros Hwidth Hlt. apply Qcplus_lt_compat_l.
  apply Qcmult_lt_compat_r; [done | by apply Qc_of_nat_lt].
Qed.

(** X10.  On a column of finite numbers and missing values,
    [EqualWidthBucketer] gives a feature exactly [n_bins - 1] boundaries, none
    of them missing: also when every value is missing or special, and when
    all the values are the same.  With [n_bins = 1] there is no boundary at
    all.  The numbers are exact here: a column that holds an infinity, for
    which numpy finds no range and raises, and a range that overflows are
    outside the statement. *)
Theorem EqualWidthBucketer_boundary_count (self : config) feature X (y : option (list Y))
    cells :
  PyDict.get feature X = Some cells →
  n_bins self ≠ 0%nat →
  ∃ boundaries,
    compute_map self feature X y =
      ([], Ok (specials_of (specials self) feature, Boundaries (Some <$> boundaries))) ∧
    length boundaries = (n_bins self - 1)%nat ∧
    (n_bins self = 1%nat → boundaries = []).
Proof.
  intros Hget Hbins.
  rewrite (EqualWidthBucketer_compute_map self feature X y cells Hget).
  unfold histogram_bin_edges. rewrite decide_False by done.
  destruct (histogram_outer_edges _) as [first_edge last_edge].
  rewrite bind_ret_l.
  exists (slice_1_m1 (linspace first_edge last_edge (n_bins self))).
  split; [done|].
  assert (length (slice_1_m1 (linspace first_edge last_edge (n_bins self)))
          = (n_bins self - 1)%nat) as Hlen.
  { rewrite slice_linspace, length_fmap, length_seq. done. }
  split; [done|]. intros Hone. apply nil_length_inv. by rewrite Hlen, Hone.
Qed.

Lemma steps_StronglySorted_le start width first len :
  0 < width →
  StronglySorted Qcle ((λ i, start + Qc_of_nat i * width) <$> seq first len).
Proof.
  intros Hwidth. revert first. induction len as [|len IH]; intros first; [constructor|].
  cbn [seq fmap list_fmap]. constructor; [apply IH|].
  apply Forall_fmap, Forall_forall. intros j Hj. apply elem_of_seq in Hj.
  apply Qclt_le_weak, steps_lt; [done | lia].
Qed.

(** X11.  When the normal values of a feature, finite numbers, are not
    all the same, the [n_bins - 1] boundaries of [EqualWidthBucketer] come in
    non-decreasing order and all lie in the range from the smallest to the
    largest normal value, its ends included.  Only what the rounding of
    [np.linspace] keeps is stated: with exact numbers the boundaries are
    strictly apart and strictly inside the range, with floats a boundary can
    fall on its neighbour or on an end of the range. *)
Theorem EqualWidthBucketer_boundaries_inside_range (self : config) feature X
    (y : option (list Y)) cells :
  PyDict.get feature X = Some cells →
  n_bins self ≠ 0%nat →
  let special := specials_of (specials self) feature in
  let smallest := minimum (normal_values special cells) in
  let largest := maximum (normal_values special cells) in
  smallest < largest →
  ∃ boundaries,
    compute_map self feature X y = ([], Ok (special, Boundaries (Some <$> boundaries))) ∧
    length boundaries = (n_bins self - 1)%nat ∧
    StronglySorted Qcle boundaries ∧
    Forall (λ boundary, smallest ≤ boundary ∧ boundary ≤ largest) boundaries.
Proof.
  intros Hget Hbins special smallest largest Hrange.
  set (width := (largest - smallest) / Qc_of_nat (n_bins self)).
  exists ((λ i, smallest + Qc_of_nat i * width) <$> seq 1 (n_bins self - 1)).
  assert (0 < width) as Hwidth.
  { apply Qcdiv_pos; [|apply Qc_of_nat_pos; lia].
    apply Qclt_minus_iff in Hrange. exact Hrange. }
  split; [|split; [|split]].
  - rewrite (EqualWidthBucketer_compute_map self feature X y cells Hget).
    fold special. unfold histogram_bin_edges. rewrite decide_False by done.
    unfold histogram_outer_edges. fold smallest largest.
    destruct (normal_values special cells) as [|v vs] eqn:Hvs.
    { exfalso. subst smallest largest. by apply (irreflexivity Qclt) in Hrange. }
    rewrite decide_False by (by apply Qclt_not_eq).
    rewrite bind_ret_l. by rewrite slice_linspace.
  - by rewrite length_fmap, length_seq.
  - by apply steps_StronglySorted_le.
  - apply Forall_fmap, Forall_forall. intros i Hi. apply elem_of_seq in Hi. split.
    + apply Qclt_le_weak.
      replace smallest with (smallest + Qc_of_nat 0 * width) at 1
        by (rewrite Qc_of_nat_0; ring).
      apply steps_lt; [done | lia].
    + apply Qclt_le_weak.
      replace largest with (smallest + Qc_of_nat (n_bins self) * width).
      * apply steps_lt; [done | lia].
      * unfold width. rewrite Qcmult_div_r by (by apply Qc_of_nat_ne_0). ring.
Qed.

End EqualWidthBucketer_more.

(** The column [10, 20, NaN, NaN, NaN] with two bins. *)
Lemma EqualWidthBucketer_boundary_count_witness :
  (PyDict.get "LIMIT_BAL" (Toy.frame Toy.mostly_missing) = Some Toy.mostly_missing ∧
   Bucketers.EqualWidthBucketer.n_bins Toy.equal_width_most_frequent ≠ 0%nat) ∧
  ∃ boundaries,
    Bucketers.EqualWidthBucketer.compute_map (Y := bool) Toy.equal_width_most_frequent
      "LIMIT_BAL" (Toy.frame Toy.mostly_missing) None
    = ([], Ok ([], Bucketers.Boundaries (Some <$> boundaries))) ∧
    length boundaries = 1%nat.
Proof.
  split; [split; [reflexivity | discriminate]|].
  destruct (EqualWidthBucketer_boundary_count (Y := bool) Toy.equal_width_most_frequent
              "LIMIT_BAL" (Toy.frame Toy.mostly_missing) None Toy.mostly_missing eq_refl)
    as (boundaries & Hmap & Hlen & _); [discriminate|].
  exists boundaries. split; [exact Hmap | exact Hlen].
Defined.

(** The same column: one boundary, in the range from [10] to [20]. *)
Lemma EqualWidthBucketer_boundaries_inside_range_witness :
  (PyDict.get "LIMIT_BAL" (Toy.frame Toy.mostly_missing) = Some Toy.mostly_missing ∧
   Bucketers.EqualWidthBucketer.n_bins Toy.equal_width_most_frequent ≠ 0%nat ∧
   (Bucketers.minimum (BucketersSpec.normal_values [] Toy.mostly_missing)
    < Bucketers.maximum (BucketersSpec.normal_values [] Toy.mostly_missing))%Qc) ∧
  ∃ boundaries,
    Bucketers.EqualWidthBucketer.compute_map (Y := bool) Toy.equal_width_most_frequent
      "LIMIT_BAL" (Toy.frame Toy.mostly_missing) None
    = ([], Ok ([], Bucketers.Boundaries (Some <$> boundaries))) ∧
    length boundaries = 1%nat ∧
    Forall (λ boundary, (Qc_of_Z 10 ≤ boundary)%Qc ∧ (boundary ≤ Qc_of_Z 20)%Qc) boundaries.
Proof.
  assert ((Bucketers.minimum (BucketersSpec.normal_values [] Toy.mostly_missing)
           < Bucketers.maximum (BucketersSpec.normal_values [] Toy.mostly_missing))%Qc)
    as Hrange by (apply (bool_decide_unpack _); by vm_compute).
  split; [split; [reflexivity | split; [discriminate | exact Hrange]]|].
  destruct (EqualWidthBucketer_boundaries_inside_range (Y := bool)
              Toy.equal_width_most_frequent "LIMIT_BAL" (Toy.frame Toy.mostly_missing) None
              Toy.mostly_missing eq_refl ltac:(discriminate) Hrange)
    as (boundaries & Hmap & Hcount & _ & Hinside).
  exists boundaries. split; [exact Hmap|]. split; [exact Hcount|].
  assert (Bucketers.minimum (BucketersSpec.normal_values [] Toy.mostly_missing) = Qc_of_Z 10)
    as Hmin by (vm_compute; reflexivity).
  assert (Bucketers.maximum (BucketersSpec.normal_values [] Toy.mostly_missing) = Qc_of_Z 20)
    as Hmax by (vm_compute; reflexivity).
  change (BucketersSpec.specials_of
            (Bucketers.EqualWidthBucketer.specials Toy.equal_width_most_frequent)
            "LIMIT_BAL") with (@nil (string * list Qc)) in Hinside.
  rewrite Hmin, Hmax in Hinside. exact Hinside.
Defined.

(** ** EqualFrequencyBucketer and DecisionTreeBucketer: the boundaries *)

Lemma remove_dups_sublist {A} `{EqDecision A} (l : list A) : remove_dups l `sublist_of` l.
Proof.
  induction l as [|x l IH]; [done|]. cbn [remove_dups].
  destruct (decide_rel elem_of x l); [by apply sublist_cons | by apply sublist_skip].
Qed.

Lemma remove_dups_NoDup {A} `{EqDecision A} (l : list A) : NoDup l → remove_dups l = l.
Proof.
  induction l as [|x l IH]; [done|]. intros [Hx Hl]%NoDup_cons. cbn [remove_dups].
  destruct (decide_rel elem_of x l); [done|]. by rewrite IH.
Qed.

Lemma length_remove_dups_NoDup {A} `{EqDecision A} (l : list A) :
  length (remove_dups l) = length l → NoDup l.
Proof.
  intros Hlen.
  assert (remove_dups l ≡ₚ l) as <-; [|apply NoDup_remove_dups].
  apply submseteq_length_Permutation; [|lia].
  apply sublist_submseteq, remove_dups_sublist.
Qed.

Lemma slice_1_m1_sublist {A} (l : list A) : Bucketers.slice_1_m1 l `sublist_of` l.
Proof.
  unfold Bucketers.slice_1_m1. etrans; [apply sublist_take | apply sublist_drop].
Qed.

Section EqualFrequencyBucketer_more.
Import Bucketers BucketersSpec ColumnFacts EqualFrequencyBucketer.
Local Open Scope Qc_scope.
Context {Y : Type}.
Variable quantile : list Qc → Qc → Qc.

Local Abbreviation qcut := (qcut quantile).
Local Abbreviation compute_map := (compute_map (Y := Y) quantile).

(** X12.  Whichever way [pd.qcut] went, the boundaries that
    [EqualFrequencyBucketer] gives a feature are all different, and there are
    at most [n_bins - 1] of them. *)
Theorem EqualFrequencyBucketer_boundaries_distinct (self : config) feature X
    (y : option (list Y)) w special splits :
  compute_map self feature X y = (w, Ok (special, splits)) →
  ∃ boundaries,
    splits = Boundaries (Some <$> boundaries) ∧
    NoDup boundaries ∧
    (length boundaries ≤ n_bins self - 1)%nat.
Proof.
  unfold EqualFrequencyBucketer.compute_map. intros Hmap.
  destruct (getitem X feature) as [w0 [cells|e]] eqn:Hget;
    [|rewrite (bind_raised _ _ _ _ eq_refl) in Hmap; discriminate Hmap].
  rewrite (bind_ok _ _ _ _ eq_refl) in Hmap. cbv beta iota in Hmap.
  destruct (split_specials (specials self) feature cells y) as [special' [X_flt y_flt]].
  set (bins := quantile (values X_flt) <$> linspace 0 1 (n_bins self)) in *.
  assert (length bins = S (n_bins self)) as Hbins.
  { subst bins. by rewrite length_fmap, length_linspace. }
  assert (∃ w1 edges,
    try_except_ValueError (qcut X_flt (n_bins self) duplicates_raise)
      (boundaries ← qcut X_flt (n_bins self) duplicates_drop;
       emit (Warned approximation_warning);; mret boundaries) = (w1, Ok edges) ∧
    NoDup (slice_1_m1 edges) ∧ (length edges ≤ S (n_bins self))%nat) as (w1 & edges & Hq & Hnd & Hlen).
  { destruct (decide ((length (remove_dups bins) < length bins)%nat ∧ length bins ≠ 2%nat))
      as [[Hdup Hlen]|Hno].
    - destruct (qcut_duplicates quantile X_flt (n_bins self) Hdup Hlen) as [-> ->].
      eexists _, _. split; [reflexivity|]. split.
      + eapply sublist_NoDup; [apply NoDup_remove_dups | apply slice_1_m1_sublist].
      + fold bins. rewrite <- Hbins. apply sublist_length, remove_dups_sublist.
    - rewrite (qcut_distinct quantile X_flt (n_bins self) duplicates_raise Hno).
      eexists _, _. split; [reflexivity|]. fold bins. split; [|lia].
      destruct (decide (length bins = 2%nat)) as [Htwo|Hntwo].
      + assert (slice_1_m1 bins = []) as ->; [|apply NoDup_nil_2].
        apply nil_length_inv. rewrite length_slice_1_m1. lia.
      + eapply sublist_NoDup; [|apply slice_1_m1_sublist].
        apply length_remove_dups_NoDup.
        pose proof (sublist_length _ _ (remove_dups_sublist bins)).
        destruct (decide (length (remove_dups bins) < length bins)%nat); [|lia].
        exfalso. by apply Hno. }
  rewrite Hq in Hmap. rewrite (bind_ok _ _ _ _ eq_refl) in Hmap.
  unfold events, result in Hmap. cbn in Hmap. injection Hmap as _ _ <-.
  exists (slice_1_m1 edges). split; [done|]. split; [done|].
  rewrite length_slice_1_m1. lia.
Qed.

(** X13.  When the [n_bins + 1] quantile edges of a feature are all
    different, [pd.qcut] is called once and nothing is warned about: the
    feature gets [n_bins - 1] boundaries, the quantiles of its normal values
    at [1/n_bins], [2/n_bins], ..., the missing values being ignored. *)
Theorem EqualFrequencyBucketer_exact_quantiles (self : config) feature X
    (y : option (list Y)) cells :
  PyDict.get feature X = Some cells →
  let special := specials_of (specials self) feature in
  let bins := quantile (normal_values special cells) <$> linspace 0 1 (n_bins self) in
  NoDup bins →
  let boundaries :=
    (λ i, quantile (normal_values special cells) (Qc_of_nat i / Qc_of_nat (n_bins self)))
      <$> seq 1 (n_bins self - 1) in
  compute_map self feature X y =
    ([Called_qcut (n_bins self) duplicates_raise],
     Ok (special, Boundaries (Some <$> boundaries))) ∧
  length boundaries = (n_bins self - 1)%nat.
Proof.
  intros Hget special bins Hnd boundaries.
  split; [|subst boundaries; by rewrite length_fmap, length_seq].
  unfold EqualFrequencyBucketer.compute_map.
  rewrite (getitem_Some _ _ _ Hget), bind_ret_l.
  destruct (split_specials_values (specials self) feature cells y) as [Hsp Hval].
  destruct (split_specials (specials self) feature cells y) as [special' [X_flt y_flt]].
  cbn [fst snd] in Hsp, Hval. subst special'. fold special in Hval.
  rewrite (qcut_distinct quantile X_flt (n_bins self) duplicates_raise).
  - cbn [try_except_ValueError]. rewrite Hval.
    rewrite (bind_ok _ _ _ _ eq_refl). unfold events, result. cbn.
    do 4 f_equal. fold bins. subst bins boundaries.
    unfold linspace. rewrite <- list_fmap_compose.
    unfold slice_1_m1. rewrite length_fmap, length_seq.
    rewrite <- fmap_drop, <- fmap_take, drop_seq, take_seq.
    f_equal.
    assert (seq (1 + 0) ((n_bins self - 1) `min` (n_bins self - 0)) = seq 1 (n_bins self - 1))
      as -> by (f_equal; lia).
    apply list_fmap_ext. intros _ i _. cbn. f_equal. unfold Qcdiv. ring.
  - rewrite Hval. fold bins. rewrite (remove_dups_NoDup _ Hnd). lia.
Qed.

End EqualFrequencyBucketer_more.

Section DecisionTreeBucketer_more.
Import Bucketers BucketersSpec ColumnFacts BucketersFacts DecisionTreeBucketer.
Local Open Scope Qc_scope.
Context {Y : Type}.
Variable Table : Type.
Variable rows : Table → list row.
Variable build_bucket_table :
  DataFrame Qc → option (list Y) → string → BucketMapping Qc → Table.
Variable sort_values_Count_descending : list row → list row.
Variable DecisionTreeClassifier_thresholds :
  Z → Qc → Z → list Qc → option (list Y) → M (event Qc) (list Qc).

Local Abbreviation compute_map := (compute_map DecisionTreeClassifier_thresholds).
Local Abbreviation fit_tree := (fit_tree DecisionTreeClassifier_thresholds).
Local Abbreviation fit_feature :=
  (Bucketers.fit_feature (Val := Qc) (Y := Y) Table rows build_bucket_table
     sort_values_Count_descending).

(** [np.unique] gives its values in strictly increasing order. *)
Lemma np_unique_increasing (l : list Qc) : StronglySorted Qclt (np_unique l).
Proof.
  unfold np_unique, sort.
  assert (Total Qcle) as Htotal.
  { intros x y. destruct (Qclt_le_dec x y); [left; by apply Qclt_le_weak | by right]. }
  assert (StronglySorted Qcle (merge_sort Qcle (remove_dups l))) as Hsorted.
  { apply Sorted_StronglySorted; [intros ???; apply Qcle_trans|].
    apply (Sorted_merge_sort Qcle). }
  assert (NoDup (merge_sort Qcle (remove_dups l))) as Hnd.
  { rewrite merge_sort_Permutation. apply NoDup_remove_dups. }
  induction Hsorted as [|x l' Hl' IH Hx]; [constructor|].
  apply NoDup_cons in Hnd as [Hnotin Hnd]. constructor; [by apply IH|].
  apply Forall_forall. intros z Hz.
  eapply Forall_forall in Hx; [|exact Hz].
  destruct (Qcle_lt_or_eq _ _ Hx) as [Hlt|Heq]; [done | subst z; by destruct Hnotin].
Qed.

Lemma fit_tree_increasing (self : config) X n_special_bins X_flt y_flt w splits :
  fit_tree self X n_special_bins X_flt y_flt = (w, Ok splits) →
  StronglySorted Qclt splits.
Proof.
  unfold DecisionTreeBucketer.fit_tree.
  destruct (_filter_na_for_fit X_flt y_flt) as [X_flt' y_flt'].
  case_decide; [done|]. case_decide as Hfrac.
  2: { intros Heq. injection Heq as _ <-. constructor. }
  destruct (DecisionTreeClassifier_thresholds _ _ _ _ _) as [w1 [thresholds|e]];
    unfold emit, mbind, M_bind, bind, mret, M_ret, ret; simpl; intros Heq;
    [|discriminate Heq].
  injection Heq as _ <-. apply np_unique_increasing.
Qed.

(** X14.  Whatever the thresholds of the fitted tree, and in whatever
    order the tree lists them, the boundaries that [DecisionTreeBucketer]
    gives a feature are in strictly increasing order, without duplicates and
    without missing values. *)
Theorem DecisionTreeBucketer_boundaries_increasing (self : config) feature X
    (y : option (list Y)) w special splits :
  compute_map self feature X y = (w, Ok (special, splits)) →
  ∃ boundaries, splits = Boundaries (Some <$> boundaries) ∧ StronglySorted Qclt boundaries.
Proof.
  unfold DecisionTreeBucketer.compute_map. intros Hmap.
  assert (∀ n_special_bins X_flt y_flt special',
    (splits ← fit_tree self X n_special_bins X_flt y_flt;
     mret (special', Boundaries (Some <$> splits))) = (w, Ok (special, splits)) →
    ∃ boundaries, splits = Boundaries (Some <$> boundaries) ∧ StronglySorted Qclt boundaries)
    as Htree.
  { intros n X_flt y_flt special' Hbind.
    destruct (fit_tree self X n X_flt y_flt) as [w1 [boundaries|e]] eqn:Hfit;
      [|rewrite (bind_raised _ _ _ _ eq_refl) in Hbind; discriminate Hbind].
    rewrite (bind_ok _ _ _ _ eq_refl) in Hbind. unfold events, result in Hbind.
    cbn in Hbind. injection Hbind as _ _ <-.
    exists boundaries. split; [done|]. by eapply fit_tree_increasing. }
  destruct (specials self !! feature) as [special0|].
  - case_decide; [discriminate Hmap|].
    destruct (getitem X feature) as [w0 [cells|e]] eqn:Hget;
      [|rewrite (bind_raised _ _ _ _ eq_refl) in Hmap; discriminate Hmap].
    rewrite (bind_ok _ _ _ _ eq_refl) in Hmap. cbv beta iota in Hmap.
    destruct (_filter_specials_for_fit cells y special0) as [X_flt y_flt].
    destruct (fit_tree self X (length special0) X_flt y_flt) as [w1 [boundaries|e]] eqn:Hfit;
      [|rewrite (bind_raised _ _ _ _ eq_refl) in Hmap; discriminate Hmap].
    rewrite (bind_ok _ _ _ _ eq_refl) in Hmap. unfold events, result in Hmap.
    cbn in Hmap. injection Hmap as _ _ <-.
    exists boundaries. split; [done|]. by eapply fit_tree_increasing.
  - destruct (getitem X feature) as [w0 [cells|e]] eqn:Hget;
      [|rewrite (bind_raised _ _ _ _ eq_refl) in Hmap; discriminate Hmap].
    rewrite (bind_ok _ _ _ _ eq_refl) in Hmap. cbv beta iota in Hmap.
    destruct (fit_tree self X 0 cells y) as [w1 [boundaries|e]] eqn:Hfit;
      [|rewrite (bind_raised _ _ _ _ eq_refl) in Hmap; discriminate Hmap].
    rewrite (bind_ok _ _ _ _ eq_refl) in Hmap. unfold events, result in Hmap.
    cbn in Hmap. injection Hmap as _ _ <-.
    exists boundaries. split; [done|]. by eapply fit_tree_increasing.
Qed.

(** X15.  On a frame without rows, [DecisionTreeBucketer.fit] raises
    [ZeroDivisionError] at the first feature, where it divides the number of
    rows left by the number of rows of the frame: no tree is fitted and no
    bucket table is built. *)
Theorem DecisionTreeBucketer_frame_without_rows (self : config) feature X
    (y : option (list Y)) cells :
  PyDict.get feature X = Some cells →
  n_rows X = 0%nat →
  (is_Some (specials self !! feature) →
     (1 < max_n_bins self - Z.of_nat (length (specials_of (specials self) feature)))%Z) →
  fit_feature (bucketer DecisionTreeClassifier_thresholds self) feature X y
    = ([], Raise ZeroDivisionError).
Proof.
  intros Hget Hrows Hbudget.
  apply fit_feature_raise.
  change (Bucketers.compute_map (bucketer DecisionTreeClassifier_thresholds self) feature X y)
    with (compute_map self feature X y).
  assert (∀ n X_flt y_flt, fit_tree self X n X_flt y_flt = raise ZeroDivisionError) as Htree.
  { intros n X_flt y_flt. unfold DecisionTreeBucketer.fit_tree.
    destruct (_filter_na_for_fit X_flt y_flt). by rewrite decide_True. }
  unfold DecisionTreeBucketer.compute_map, specials_of in *.
  destruct (specials self !! feature) as [special0|]; cbn [default] in *.
  - specialize (Hbudget ltac:(by eexists)). unfold id in Hbudget.
    rewrite decide_False by lia.
    rewrite (getitem_Some _ _ _ Hget), bind_ret_l.
    destruct (_filter_specials_for_fit cells y special0). by rewrite Htree.
  - rewrite (getitem_Some _ _ _ Hget), bind_ret_l. by rewrite Htree.
Qed.

End DecisionTreeBucketer_more.

(** The column [1, 1, 1, 1, 2, 3, 4, 5, 6], whose first two quartile edges
    coincide. *)
Lemma EqualFrequencyBucketer_boundaries_distinct_witness :
  ∃ w special splits,
    Bucketers.EqualFrequencyBucketer.compute_map (Y := bool) Toy.quantile Toy.equal_frequency
      "LIMIT_BAL" (Toy.frame Toy.many_ones) None
    = (w, Ok (special, splits)) ∧
    ∃ boundaries,
      splits = Bucketers.Boundaries (Some <$> boundaries) ∧
      NoDup boundaries ∧ (length boundaries ≤ 3)%nat.
Proof.
  eexists. eexists. eexists. split; [vm_compute; reflexivity|].
  eapply (EqualFrequencyBucketer_boundaries_distinct (Y := bool) Toy.quantile
            Toy.equal_frequency "LIMIT_BAL" (Toy.frame Toy.many_ones) None).
  vm_compute. reflexivity.
Defined.

(** The column [1, 2, ..., 9], whose quartile edges are [1, 3, 5, 7, 9]. *)
Lemma EqualFrequencyBucketer_exact_quantiles_witness :
  (PyDict.get "LIMIT_BAL" (Toy.frame (Toy.column_1_to 9)) = Some (Toy.column_1_to 9) ∧
   NoDup (Toy.quantile (BucketersSpec.normal_values [] (Toy.column_1_to 9))
            <$> Bucketers.linspace 0 1 4)) ∧
  Bucketers.EqualFrequencyBucketer.compute_map (Y := bool) Toy.quantile Toy.equal_frequency
    "LIMIT_BAL" (Toy.frame (Toy.column_1_to 9)) None
  = ([Bucketers.Called_qcut 4 Bucketers.duplicates_raise],
     Ok ([], Bucketers.Boundaries
               (Some <$> ((λ i, Toy.quantile (BucketersSpec.normal_values [] (Toy.column_1_to 9))
                                  (Bucketers.Qc_of_nat i / Bucketers.Qc_of_nat 4)%Qc)
                          <$> seq 1 3)))) ∧
  (λ i, Toy.quantile (BucketersSpec.normal_values [] (Toy.column_1_to 9))
          (Bucketers.Qc_of_nat i / Bucketers.Qc_of_nat 4)%Qc) <$> seq 1 3
  = [Bucketers.Qc_of_nat 3; Bucketers.Qc_of_nat 5; Bucketers.Qc_of_nat 7].
Proof.
  assert (NoDup (Toy.quantile (BucketersSpec.normal_values [] (Toy.column_1_to 9))
                   <$> Bucketers.linspace 0 1 4)) as Hnd
    by (apply (bool_decide_unpack _); by vm_compute).
  split; [split; [reflexivity | exact Hnd]|].
  destruct (EqualFrequencyBucketer_exact_quantiles (Y := bool) Toy.quantile Toy.equal_frequency
              "LIMIT_BAL" (Toy.frame (Toy.column_1_to 9)) None (Toy.column_1_to 9)
              eq_refl Hnd) as [Hmap _].
  split; [exact Hmap|]. vm_compute. reflexivity.
Defined.

(** A tree on the column [1, 2, 3, 4]. *)
Lemma DecisionTreeBucketer_boundaries_increasing_witness :
  ∃ w special splits,
    Bucketers.DecisionTreeBucketer.compute_map (Y := bool) Toy.DecisionTreeClassifier_thresholds
      Toy.tree "LIMIT_BAL" (Toy.frame (Toy.column_1_to 4)) None
    = (w, Ok (special, splits)) ∧
    ∃ boundaries,
      splits = Bucketers.Boundaries (Some <$> boundaries) ∧
      StronglySorted Qclt boundaries ∧ length boundaries = 1%nat.
Proof.
  eexists. eexists. eexists. split; [vm_compute; reflexivity|].
  edestruct (DecisionTreeBucketer_boundaries_increasing (Y := bool)
               Toy.DecisionTreeClassifier_thresholds Toy.tree "LIMIT_BAL"
               (Toy.frame (Toy.column_1_to 4)) None) as (boundaries & Hsplits & Hsorted).
  { vm_compute. reflexivity. }
  exists boundaries. split; [exact Hsplits|]. split; [exact Hsorted|].
  injection Hsplits as Hb.
  apply (f_equal length) in Hb. rewrite length_fmap in Hb. by rewrite <- Hb.
Defined.

(** A frame whose column ["LIMIT_BAL"] has no rows. *)
Lemma DecisionTreeBucketer_frame_without_rows_witness :
  (PyDict.get "LIMIT_BAL" (Toy.frame []) = Some [] ∧
   Bucketers.n_rows (Toy.frame []) = 0%nat ∧
   (is_Some (Bucketers.DecisionTreeBucketer.specials Toy.tree !! "LIMIT_BAL") →
      (1 < Bucketers.DecisionTreeBucketer.max_n_bins Toy.tree
           - Z.of_nat (length (BucketersSpec.specials_of
                                 (Bucketers.DecisionTreeBucketer.specials Toy.tree)
                                 "LIMIT_BAL")))%Z)) ∧
  Bucketers.fit_feature (list Bucketers.row) Toy.rows Toy.build_bucket_table
    Toy.sort_values_Count_descending
    (Bucketers.DecisionTreeBucketer.bucketer (Y := bool) Toy.DecisionTreeClassifier_thresholds
       Toy.tree)
    "LIMIT_BAL" (Toy.frame []) None
  = ([], Raise ZeroDivisionError).
Proof.
  assert (is_Some (Bucketers.DecisionTreeBucketer.specials Toy.tree !! "LIMIT_BAL") →
      (1 < Bucketers.DecisionTreeBucketer.max_n_bins Toy.tree
           - Z.of_nat (length (BucketersSpec.specials_of
                                 (Bucketers.DecisionTreeBucketer.specials Toy.tree)
                                 "LIMIT_BAL")))%Z) as Hbudget.
  { intros _. vm_compute. reflexivity. }
  split; [split; [reflexivity | split; [reflexivity | exact Hbudget]]|].
  apply (DecisionTreeBucketer_frame_without_rows (Y := bool) (list Bucketers.row) Toy.rows
           Toy.build_bucket_table Toy.sort_values_Count_descending
           Toy.DecisionTreeClassifier_thresholds Toy.tree "LIMIT_BAL" (Toy.frame []) None []
           eq_refl eq_refl Hbudget).
Defined.

(** ** OptimalBucketer on categories, AsIsCategoricalBucketer and
    AsIsNumericalBucketer *)

Lemma elem_of_concat {A} (ls : list (list A)) (x : A) :
  x ∈ concat ls ↔ ∃ l, l ∈ ls ∧ x ∈ l.
Proof.
  induction ls as [|l ls IH]; cbn [concat].
  - split; [by intros ?%elem_of_nil | by intros (l & ?%elem_of_nil & _)].
  - rewrite elem_of_app, IH. split.
    + intros [Hin|(l' & Hl' & Hin)].
      * exists l. split; [apply elem_of_cons; by left | done].
      * exists l'. split; [apply elem_of_cons; by right | done].
    + intros (l' & [->|Hl']%elem_of_cons & Hin); [by left|]. right. by exists l'.
Qed.

Section OptimalBucketer_more.
Import PyDictFacts Bucketers BucketersSpec ColumnFacts OptimalBucketer.
Context {Y : Type}.
Variable OptimalBinning_splits :
  config → string → list Qc → list Qc → option (list Y) → M (event Qc) (list Qc).
Variable OptimalBinning_groups :
  config → string → list Qc → option (list Y) → M (event Qc) (list (list Qc)).

Local Abbreviation compute_map := (compute_map OptimalBinning_splits OptimalBinning_groups).

(** [for value in values: splits[value] = bucket_nr] *)
Local Abbreviation assign bucket_nr :=
  (foldl (λ (splits : list (Qc * Z)) (value : Qc), PyDict.set value bucket_nr splits)).
Local Abbreviation assign_groups :=
  (foldl (λ (splits : list (Qc * Z)) (item : nat * list Qc),
            assign (Z.of_nat item.1) splits item.2)).

Lemma get_assign bucket_nr (values : list Qc) acc value :
  PyDict.get value (assign bucket_nr acc values) =
    if decide (value ∈ values) then Some bucket_nr else PyDict.get value acc.
Proof.
  revert acc. induction values as [|v values IH]; intros acc.
  - cbn [foldl]. destruct (decide (value ∈ [])) as [Hin|_]; [by apply elem_of_nil in Hin | done].
  - cbn [foldl]. rewrite IH.
    destruct (decide (value ∈ values)) as [Hin|Hnin].
    + rewrite decide_True; [done | apply elem_of_cons; by right].
    + destruct (decide (v = value)) as [->|Hne].
      * rewrite get_set_eq. rewrite decide_True; [done | apply elem_of_cons; by left].
      * rewrite get_set_ne by done. rewrite decide_False; [done|].
        intros [?|?]%elem_of_cons; [congruence | done].
Qed.

Lemma get_assign_groups_other (items : list (nat * list Qc)) acc value :
  (∀ item, item ∈ items → value ∉ item.2) →
  PyDict.get value (assign_groups acc items) = PyDict.get value acc.
Proof.
  revert acc. induction items as [|item items IH]; intros acc Hnot; [done|].
  cbn [foldl]. rewrite IH by (intros i Hi; apply Hnot, elem_of_cons; by right).
  rewrite get_assign. rewrite decide_False; [done|]. apply Hnot, elem_of_cons. by left.
Qed.

Lemma get_assign_groups_last (before : list (nat * list Qc)) item after acc value :
  value ∈ item.2 → (∀ item', item' ∈ after → value ∉ item'.2) →
  PyDict.get value (assign_groups acc (before ++ item :: after)) = Some (Z.of_nat item.1).
Proof.
  intros Hin Hafter. rewrite foldl_app. cbn [foldl].
  rewrite get_assign_groups_other by done. rewrite get_assign. by rewrite decide_True.
Qed.

(** X16.  For a categorical feature, [OptimalBucketer] runs the solver on
    the normal values whatever their number, and turns the groups of the
    solver into a dict: a value gets as bucket the position of the last
    group that holds it, and a value that is in no group is not in the dict
    at all. *)
Theorem OptimalBucketer_categorical_buckets (self : config) feature X (y : option (list Y))
    cells :
  variables_type self = categorical →
  PyDict.get feature X = Some cells →
  let special := specials_of (specials self) feature in
  ∃ y_flt,
    compute_map self feature X y =
      (groups ← OptimalBinning_groups self feature (normal_values special cells) y_flt;
       mret (special, Categories (groups_to_dict groups))) ∧
    ∀ groups value,
      (value ∉ concat groups → PyDict.get value (groups_to_dict groups) = None) ∧
      (∀ bucket_nr values,
         groups !! bucket_nr = Some values → value ∈ values →
         (∀ later values', (bucket_nr < later)%nat → groups !! later = Some values' →
                           value ∉ values') →
         PyDict.get value (groups_to_dict groups) = Some (Z.of_nat bucket_nr)).
Proof.
  intros Htype Hget special.
  destruct (split_specials_values (specials self) feature cells y) as [Hsp Hval].
  destruct (split_specials (specials self) feature cells y) as [special' [X_flt y_flt]] eqn:Hsplit.
  cbn [fst snd] in Hsp, Hval. subst special'. fold special in Hval, Hsplit.
  pose proof (values_filter_na X_flt y_flt) as Hna.
  destruct (_filter_na_for_fit X_flt y_flt) as [X_flt' y_flt'] eqn:Hfilter.
  cbn [fst] in Hna.
  exists y_flt'. split.
  - unfold OptimalBucketer.compute_map.
    rewrite (getitem_Some _ _ _ Hget), bind_ret_l. rewrite Hsplit, Htype, Hfilter.
    by rewrite Hna, Hval.
  - intros groups value. unfold groups_to_dict. split.
    + intros Hnot. rewrite get_assign_groups_other; [done|].
      intros [i vs] Hitem Hin. cbn [snd] in Hin. apply Hnot.
      apply elem_of_lookup_imap in Hitem as (j & vs' & Heq & Hj).
      injection Heq as -> ->.
      apply list_elem_of_lookup_2 in Hj.
      apply elem_of_concat. by exists vs'.
    + intros bucket_nr values Hlookup Hin Hlater.
      rewrite <- (take_drop_middle _ _ _ Hlookup).
      rewrite imap_app, imap_cons.
      assert (length (take bucket_nr groups) = bucket_nr) as Hlen.
      { apply length_take_le. apply lookup_lt_Some in Hlookup. lia. }
      rewrite (get_assign_groups_last _ (length (take bucket_nr groups) + 0, values)%nat).
      * cbn [fst]. rewrite Hlen. f_equal. lia.
      * done.
      * intros [i vs] Hitem. cbn [snd].
        apply elem_of_lookup_imap in Hitem as (j & vs' & Heq & Hj).
        cbn in Heq. injection Heq as -> ->.
        rewrite lookup_drop in Hj.
        by apply (Hlater (S bucket_nr + j)%nat); [lia|].
Qed.

End OptimalBucketer_more.

Section AsIsCategoricalBucketer_more.
Import PyDictFacts Bucketers BucketersSpec CategoriesSpec ColumnFacts AsIsCategoricalBucketer.
Context {Val Y : Type} `{EqDecision Val}.

Lemma values_filter_ne (cell : option Val) (cells : list (option Val)) :
  values (filter (λ c, c ≠ cell) cells) =
    match cell with
    | Some v => filter (λ x, x ≠ v) (values cells)
    | None => values cells
    end.
Proof.
  induction cells as [|c cells IH]; [by destruct cell|].
  destruct (decide (c = cell)) as [->|Hne].
  - rewrite filter_cons_False by (by intros Hn; apply Hn). rewrite IH.
    destruct cell as [v|]; [|by rewrite values_cons_None].
    rewrite values_cons_Some. by rewrite filter_cons_False by (by intros Hn; apply Hn).
  - rewrite filter_cons_True by done.
    destruct c as [x|], cell as [v|].
    + rewrite !values_cons_Some, IH. rewrite filter_cons_True by congruence. done.
    + by rewrite !values_cons_Some, IH.
    + by rewrite !values_cons_None, IH.
    + done.
Qed.

(** [Series.unique()] on the values that are present. *)
Lemma values_unique_in_order (cells : list (option Val)) :
  values (unique_in_order cells) = in_order_of_appearance (values cells).
Proof.
  induction cells as [|[x|] cells IH]; [done| |]; cbn [unique_in_order].
  - rewrite !values_cons_Some. cbn [in_order_of_appearance].
    by rewrite values_filter_ne, IH.
  - rewrite !values_cons_None. by rewrite values_filter_ne.
Qed.

Lemma elem_of_in_order_of_appearance (l : list Val) x : x ∈ in_order_of_appearance l ↔ x ∈ l.
Proof.
  induction l as [|y l IH]; [done|]. cbn [in_order_of_appearance].
  rewrite !elem_of_cons, list_elem_of_filter, IH.
  destruct (decide (x = y)); tauto.
Qed.

Lemma NoDup_in_order_of_appearance (l : list Val) : NoDup (in_order_of_appearance l).
Proof.
  induction l as [|y l IH]; [apply NoDup_nil_2|]. cbn [in_order_of_appearance].
  apply NoDup_cons. split; [|by apply NoDup_filter].
  by intros [Hne _]%list_elem_of_filter.
Qed.

(** Rows that are added at the end only add categories at the end. *)
Lemma in_order_of_appearance_app (l more : list Val) :
  in_order_of_appearance (l ++ more) =
    in_order_of_appearance l ++ filter (λ x, x ∉ l) (in_order_of_appearance more).
Proof.
  induction l as [|y l IH].
  - cbn. symmetry. apply filter_all. intros x _. apply not_elem_of_nil.
  - cbn [app in_order_of_appearance]. rewrite IH, filter_app. f_equal. f_equal.
    rewrite list_filter_filter. apply list_filter_iff. intros x.
    rewrite not_elem_of_cons. tauto.
Qed.

Lemma set_new {A} (k : Val) (v : A) (d : list (Val * A)) :
  k ∉ PyDict.keys d → PyDict.set k v d = d ++ [(k, v)].
Proof.
  unfold PyDict.keys. induction d as [|[k' v'] d IH]; [done|].
  rewrite fmap_cons, not_elem_of_cons. intros [Hne Hnot]. cbn [PyDict.set fst].
  rewrite decide_False by done. cbn [app]. by rewrite IH.
Qed.

(** [dict(zip(unq, range(0, len(unq))))] for distinct [unq]. *)
Lemma enumerate_NoDup (l : list Val) (acc : list (Val * Z)) (first : nat) :
  NoDup l → (∀ x, x ∈ l → x ∉ PyDict.keys acc) →
  foldl (λ d (item : nat * Val), PyDict.set item.2 (Z.of_nat item.1) d) acc
    (imap (λ i cat, ((first + i)%nat, cat)) l)
  = acc ++ zip l (Z.of_nat <$> seq first (length l)).
Proof.
  revert acc first. induction l as [|x l IH]; intros acc first Hnd Hdisj.
  - cbn. by rewrite app_nil_r.
  - apply NoDup_cons in Hnd as [Hx Hnd].
    rewrite imap_cons. cbn [foldl snd fst length seq fmap list_fmap zip zip_with].
    rewrite set_new by (apply Hdisj, elem_of_cons; by left).
    rewrite Nat.add_0_r.
    rewrite (imap_ext _ (λ i cat, ((S first + i)%nat, cat)))
      by (intros i c _; cbn; f_equal; lia).
    rewrite IH; [by rewrite <- app_assoc | done |].
    intros y Hy. unfold PyDict.keys. rewrite fmap_app, elem_of_app. cbn.
    intros [Hin|Hin%list_elem_of_singleton].
    + eapply Hdisj; [apply elem_of_cons; by right | done].
    + by subst y.
Qed.

Lemma get_numbered (categories : list Val) i value :
  NoDup categories → categories !! i = Some value →
  PyDict.get value (numbered categories) = Some (Z.of_nat i).
Proof.
  intros Hnd Hi. apply elem_of_get.
  - unfold numbered, PyDict.keys. rewrite fst_zip; [done|].
    by rewrite length_fmap, length_seq.
  - unfold numbered. apply list_elem_of_lookup. exists i.
    apply lookup_zip_with_Some. exists value, (Z.of_nat i). split; [done|]. split; [done|].
    rewrite list_lookup_fmap, lookup_seq_lt; [done|]. by eapply lookup_lt_Some.
Qed.

(** The map of a feature, from the normal values of its column. *)
Lemma AsIsCategoricalBucketer_compute_map (self : config) var (X : DataFrame Val)
    (y : option (list Y)) cells :
  PyDict.get var X = Some cells →
  let special := specials_of (specials self) var in
  compute_map self var X y =
    ([], Ok (special,
             Categories (numbered (in_order_of_appearance (normal_values special cells))))).
Proof.
  intros Hget special. unfold AsIsCategoricalBucketer.compute_map.
  rewrite (getitem_Some _ _ _ Hget), bind_ret_l.
  destruct (split_specials_values (specials self) var cells y) as [Hsp Hval].
  destruct (split_specials (specials self) var cells y) as [special' [X_flt y_flt]].
  cbn [fst snd] in Hsp, Hval. subst special'. fold special in Hval.
  pose proof (values_filter_na X_flt y_flt) as Hna.
  destruct (_filter_na_for_fit X_flt y_flt) as [X_flt' y_flt'].
  cbn [fst] in Hna. rewrite values_unique_in_order, Hna, Hval.
  pose proof (enumerate_NoDup (in_order_of_appearance (normal_values special cells)) [] 0
                (NoDup_in_order_of_appearance _)) as Henum.
  cbn [app] in Henum.
  rewrite (imap_ext _ (λ i cat, (i, cat))) in Henum by done.
  rewrite Henum by (intros x _; apply not_elem_of_nil). done.
Qed.

(** X17.  [AsIsCategoricalBucketer] numbers the distinct normal values of
    a feature [0, 1, 2, ...] in the order in which they first appear in the
    column: the special and the missing values get no bucket in the dict, the
    value of the first normal row gets bucket [0], and on a column with more
    rows at its end every category keeps its bucket, the new categories being
    numbered after the old ones. *)
Theorem AsIsCategoricalBucketer_order_of_appearance (self : config) var
    (X : DataFrame Val) (y : option (list Y)) cells :
  PyDict.get var X = Some cells →
  let special := specials_of (specials self) var in
  ∃ categories,
    compute_map self var X y = ([], Ok (special, Categories (numbered categories))) ∧
    NoDup categories ∧
    (∀ value, value ∈ categories ↔ value ∈ normal_values special cells) ∧
    head categories = head (normal_values special cells) ∧
    (∀ i value, categories !! i = Some value →
       PyDict.get value (numbered categories) = Some (Z.of_nat i)) ∧
    (∀ (X' : DataFrame Val) (y' : option (list Y)) more,
       PyDict.get var X' = Some (cells ++ more) →
       ∃ new_categories,
         compute_map self var X' y' =
           ([], Ok (special, Categories (numbered (categories ++ new_categories)))) ∧
         ∀ i value, categories !! i = Some value →
           PyDict.get value (numbered (categories ++ new_categories)) = Some (Z.of_nat i)).
Proof.
  intros Hget special.
  exists (in_order_of_appearance (normal_values special cells)).
  split; [by apply AsIsCategoricalBucketer_compute_map|].
  split; [apply NoDup_in_order_of_appearance|].
  split; [apply elem_of_in_order_of_appearance|].
  split; [by destruct (normal_values special cells)|].
  split; [intros i value; apply get_numbered, NoDup_in_order_of_appearance|].
  intros X' y' more Hget'.
  exists (filter (λ x, x ∉ normal_values special cells)
            (in_order_of_appearance (normal_values special more))).
  assert (in_order_of_appearance (normal_values special (cells ++ more))
          = in_order_of_appearance (normal_values special cells)
            ++ filter (λ x, x ∉ normal_values special cells)
                 (in_order_of_appearance (normal_values special more))) as Happ.
  { unfold normal_values. rewrite omap_app, filter_app. apply in_order_of_appearance_app. }
  split.
  - rewrite (AsIsCategoricalBucketer_compute_map self var X' y' _ Hget'). fold special.
    by rewrite Happ.
  - intros i value Hi. apply get_numbered.
    + rewrite <- Happ. apply NoDup_in_order_of_appearance.
    + by apply lookup_app_l_Some.
Qed.

End AsIsCategoricalBucketer_more.

Section AsIsNumericalBucketer_more.
Import Bucketers BucketersSpec ColumnFacts AsIsNumericalBucketer.
Context {Y : Type}.
Variable list_sort : list (option Qc) → list (option Qc).

Local Abbreviation compute_map := (compute_map (Y := Y) list_sort).

Lemma remove_dups_fmap_Some (l : list Qc) : remove_dups (Some <$> l) = Some <$> remove_dups l.
Proof.
  induction l as [|x l IH]; [done|]. rewrite fmap_cons. cbn [remove_dups].
  destruct (decide_rel elem_of x l) as [Hin|Hnin];
    destruct (decide_rel elem_of (Some x) (Some <$> l)) as [Hin'|Hnin'].
  - done.
  - exfalso. apply Hnin'. apply list_elem_of_fmap. by exists x.
  - exfalso. apply Hnin. apply list_elem_of_fmap in Hin' as (x' & [= ->] & ?). done.
  - by rewrite fmap_cons, IH.
Qed.

Lemma split_specials_None_inv (specials : gmap string (list (string * list Qc))) feature
    (cells : list (option Qc)) (y : option (list Y)) :
  None ∉ cells → None ∉ (split_specials specials feature cells y).2.1.
Proof.
  intros Hnot. unfold split_specials.
  destruct (specials !! feature) as [special|]; cbn [fst snd]; [|done].
  rewrite filter_specials_cells. by intros [_ ?]%list_elem_of_filter.
Qed.

Lemma cells_without_None (cells : list (option Qc)) :
  None ∉ cells → cells = Some <$> values cells.
Proof.
  induction cells as [|[x|] cells IH]; [done| |].
  - intros Hnot. rewrite values_cons_Some, fmap_cons. f_equal. apply IH.
    intros Hin. apply Hnot, elem_of_cons. by right.
  - intros Hnot. exfalso. apply Hnot, elem_of_cons. by left.
Qed.

(** X18.  On a column without missing values, [AsIsNumericalBucketer]
    takes as boundaries the distinct normal values of the feature, each once
    and in strictly increasing order (the special values are not among them),
    as long as there are at most 100 of them. *)
Theorem AsIsNumericalBucketer_distinct_values_in_order (self : config) feature X
    (y : option (list Y)) cells :
  (∀ l : list Qc, list_sort (Some <$> l) = Some <$> sort l) →
  PyDict.get feature X = Some cells →
  None ∉ cells →
  let special := specials_of (specials self) feature in
  let boundaries := np_unique (normal_values special cells) in
  (length boundaries ≤ 100)%nat →
  compute_map self feature X y = ([], Ok (special, Boundaries (Some <$> boundaries))) ∧
  StronglySorted Qclt boundaries ∧
  (∀ value, value ∈ boundaries ↔ value ∈ normal_values special cells).
Proof.
  intros Hsort Hget Hnone special boundaries Hfew.
  split; [|split].
  - unfold AsIsNumericalBucketer.compute_map.
    rewrite (getitem_Some _ _ _ Hget), bind_ret_l.
    destruct (split_specials_values (specials self) feature cells y) as [Hsp Hval].
    pose proof (split_specials_None_inv (specials self) feature cells y Hnone) as Hnone'.
    destruct (split_specials (specials self) feature cells y) as [special' [X_flt y_flt]].
    cbn [fst snd] in Hsp, Hval, Hnone'. subst special'. fold special in Hval.
    rewrite (cells_without_None X_flt Hnone'), Hval.
    unfold unique. rewrite remove_dups_fmap_Some, Hsort.
    fold (np_unique (normal_values special cells)). fold boundaries.
    rewrite length_fmap. by rewrite decide_False by lia.
  - apply np_unique_increasing.
  - intros value. subst boundaries. unfold np_unique, sort.
    by rewrite merge_sort_Permutation, elem_of_remove_dups.
Qed.

End AsIsNumericalBucketer_more.

(** The solver that puts every category in a group of its own, on the
    column [3, 1, 2, 3, 2]; and the groups [[3, 1], [2]]. *)
Lemma OptimalBucketer_categorical_buckets_witness :
  (Bucketers.OptimalBucketer.variables_type ToyCategories.optimal_categorical
   = Bucketers.categorical ∧
   PyDict.get "EDUCATION" (ToyCategories.frame ToyCategories.EDUCATION)
   = Some ToyCategories.EDUCATION) ∧
  Bucketers.OptimalBucketer.compute_map Toy.OptimalBinning_splits Toy.OptimalBinning_groups
    ToyCategories.optimal_categorical "EDUCATION"
    (ToyCategories.frame ToyCategories.EDUCATION) None
  = ([], Ok ([], Bucketers.Categories
                   [(Qc_of_Z 1, 0); (Qc_of_Z 2, 1); (Qc_of_Z 3, 2)])) ∧
  PyDict.get (Qc_of_Z 2)
    (Bucketers.OptimalBucketer.groups_to_dict [[Qc_of_Z 3; Qc_of_Z 1]; [Qc_of_Z 2]])
  = Some 1 ∧
  PyDict.get (Qc_of_Z 4)
    (Bucketers.OptimalBucketer.groups_to_dict [[Qc_of_Z 3; Qc_of_Z 1]; [Qc_of_Z 2]])
  = None.
Proof.
  split; [split; reflexivity|].
  destruct (OptimalBucketer_categorical_buckets Toy.OptimalBinning_splits
              Toy.OptimalBinning_groups ToyCategories.optimal_categorical "EDUCATION"
              (ToyCategories.frame ToyCategories.EDUCATION) None ToyCategories.EDUCATION
              eq_refl eq_refl) as (y_flt & Hmap & Hbuckets).
  split; [rewrite Hmap; vm_compute; reflexivity|].
  destruct (Hbuckets [[Qc_of_Z 3; Qc_of_Z 1]; [Qc_of_Z 2]] (Qc_of_Z 2)) as [_ Hin].
  destruct (Hbuckets [[Qc_of_Z 3; Qc_of_Z 1]; [Qc_of_Z 2]] (Qc_of_Z 4)) as [Hout _].
  split.
  - apply (Hin 1%nat [Qc_of_Z 2]); [reflexivity | apply elem_of_cons; by left |].
    intros [|[|[|later]]] values' Hlater Hgroup; try lia; discriminate Hgroup.
  - apply Hout. apply (bool_decide_unpack _). by vm_compute.
Defined.

(** The column [3, 1, 2, 3, 2] with the special value [1]: [3] gets bucket
    [0] and keeps it when the rows [5, 2] are added. *)
Lemma AsIsCategoricalBucketer_order_of_appearance_witness :
  PyDict.get "EDUCATION" (ToyCategories.frame ToyCategories.EDUCATION)
  = Some ToyCategories.EDUCATION ∧
  ∃ categories,
    Bucketers.AsIsCategoricalBucketer.compute_map (Y := bool) ToyCategories.asis_categorical
      "EDUCATION" (ToyCategories.frame ToyCategories.EDUCATION) None
    = ([], Ok ([("=1", [Qc_of_Z 1])],
               Bucketers.Categories (CategoriesSpec.numbered categories))) ∧
    head categories = Some (Qc_of_Z 3) ∧
    ∃ new_categories,
      Bucketers.AsIsCategoricalBucketer.compute_map (Y := bool) ToyCategories.asis_categorical
        "EDUCATION"
        (ToyCategories.frame (ToyCategories.EDUCATION ++ [Some (Qc_of_Z 5); Some (Qc_of_Z 2)]))
        None
      = ([], Ok ([("=1", [Qc_of_Z 1])],
                 Bucketers.Categories
                   (CategoriesSpec.numbered (categories ++ new_categories)))) ∧
      PyDict.get (Qc_of_Z 3) (CategoriesSpec.numbered (categories ++ new_categories))
      = Some 0.
Proof.
  split; [reflexivity|].
  destruct (AsIsCategoricalBucketer_order_of_appearance (Y := bool)
              ToyCategories.asis_categorical "EDUCATION"
              (ToyCategories.frame ToyCategories.EDUCATION) None ToyCategories.EDUCATION
              eq_refl) as (categories & Hmap & _ & _ & Hhead & _ & Hmore).
  exists categories. split; [exact Hmap|]. split; [exact Hhead|].
  destruct (Hmore (ToyCategories.frame
                     (ToyCategories.EDUCATION ++ [Some (Qc_of_Z 5); Some (Qc_of_Z 2)]))
              None [Some (Qc_of_Z 5); Some (Qc_of_Z 2)] eq_refl)
    as (new_categories & Hmap' & Hkeep).
  exists new_categories. split; [exact Hmap'|].
  apply (Hkeep 0%nat (Qc_of_Z 3)).
  destruct categories as [|category categories]; [discriminate Hhead|].
  exact Hhead.
Defined.

(** The sort of a Python list of floats orders a list without NaN as
    [np.sort] does. *)
Lemma Toy_list_sort_floats (l : list Qc) :
  Toy.list_sort (Some <$> l) = Some <$> Bucketers.sort l.
Proof.
  assert (Transitive Toy.float_le) as Htrans.
  { intros [a|] [b|] [c|]; simpl; try done. apply Qcle_trans. }
  assert (AntiSymm (=) Toy.float_le) as Hanti.
  { intros [a|] [b|]; simpl; try done. intros ??. f_equal. by apply Qcle_antisym. }
  assert (Total Toy.float_le) as Htotal.
  { intros [a|] [b|]; simpl; try tauto. apply (total Qcle). }
  apply (StronglySorted_unique Toy.float_le).
  - apply StronglySorted_merge_sort; apply _.
  - assert (StronglySorted Qcle (Bucketers.sort l)) as Hs
      by (apply StronglySorted_merge_sort; apply _).
    induction Hs as [|x l' Hs IH Hall]; [constructor|].
    rewrite fmap_cons. constructor; [done|].
    apply Forall_fmap. eapply Forall_impl; [exact Hall|]. by intros y.
  - unfold Toy.list_sort, Bucketers.sort. by rewrite !merge_sort_Permutation.
Qed.

(** The column [3, 1, 2, 3, 2] with the special value [1]: the boundaries
    are [2, 3]. *)
Lemma AsIsNumericalBucketer_distinct_values_in_order_witness :
  ((∀ l : list Qc, Toy.list_sort (Some <$> l) = Some <$> Bucketers.sort l) ∧
   PyDict.get "EDUCATION" (ToyCategories.frame ToyCategories.EDUCATION)
   = Some ToyCategories.EDUCATION ∧
   (None ∉ ToyCategories.EDUCATION) ∧
   (length (Bucketers.np_unique
              (BucketersSpec.normal_values [("=1", [Qc_of_Z 1])] ToyCategories.EDUCATION))
    ≤ 100)%nat) ∧
  Bucketers.AsIsNumericalBucketer.compute_map (Y := bool) Toy.list_sort
    ToyCategories.asis_numerical "EDUCATION" (ToyCategories.frame ToyCategories.EDUCATION) None
  = ([], Ok ([("=1", [Qc_of_Z 1])],
             Bucketers.Boundaries
               (Some <$> Bucketers.np_unique
                           (BucketersSpec.normal_values [("=1", [Qc_of_Z 1])]
                              ToyCategories.EDUCATION)))) ∧
  Bucketers.np_unique (BucketersSpec.normal_values [("=1", [Qc_of_Z 1])] ToyCategories.EDUCATION)
  = [Qc_of_Z 2; Qc_of_Z 3].
Proof.
  assert (None ∉ ToyCategories.EDUCATION) as Hnone
    by (apply (bool_decide_unpack _); by vm_compute).
  assert ((length (Bucketers.np_unique
                     (BucketersSpec.normal_values [("=1", [Qc_of_Z 1])]
                        ToyCategories.EDUCATION)) ≤ 100)%nat) as Hfew
    by (apply (bool_decide_unpack _); by vm_compute).
  split; [split; [exact Toy_list_sort_floats | split; [reflexivity | split; done]]|].
  destruct (AsIsNumericalBucketer_distinct_values_in_order (Y := bool) Toy.list_sort
              ToyCategories.asis_numerical "EDUCATION"
              (ToyCategories.frame ToyCategories.EDUCATION) None ToyCategories.EDUCATION
              Toy_list_sort_floats eq_refl Hnone Hfew) as (Hmap & _ & _).
  split; [exact Hmap | vm_compute; reflexivity].
Defined.

(** ** OrdinalCategoricalBucketer: the categories that are kept *)

Section fit_raise_more.
Import PyDictFacts Bucketers BucketersFacts.
Context {Val Y : Type} `{EqDecision Val}.
Variable Table : Type.
Variable rows : Table → list row.
Variable build_bucket_table :
  DataFrame Val → option (list Y) → string → BucketMapping Val → Table.
Variable sort_values_Count_descending : list row → list row.

Local Abbreviation fit_feature :=
  (fit_feature (Val := Val) (Y := Y) Table rows build_bucket_table sort_values_Count_descending).
Local Abbreviation fit_features :=
  (fit_features (Val := Val) (Y := Y) Table rows build_bucket_table
     sort_values_Count_descending).

(** Where an exception of [fit_feature] comes from. *)
Lemma fit_feature_raise_inv (self : Bucketer Val Y) feature X y e :
  result (fit_feature self feature X y) = Raise e →
  result (compute_map self feature X y) = Raise e ∨ e = IndexError ∨ e = KeyError "1".
Proof.
  unfold Bucketers.fit_feature. intros Hfit.
  destruct (compute_map self feature X y) as [w1 [[special splits]|e1]] eqn:Hc;
    [|rewrite (bind_raised _ _ _ _ eq_refl) in Hfit; injection Hfit as <-; by left].
  rewrite (bind_ok _ _ _ _ eq_refl) in Hfit. cbv beta iota in Hfit.
  match type of Hfit with
  | context [call_build_bucket_table _ _ _ _ _ ?m ≫= ?k] =>
      rewrite (bind_ok (call_build_bucket_table Table build_bucket_table X y feature m) k
                 [Built_bucket_table feature m] (build_bucket_table X y feature m) eq_refl)
        in Hfit
  end.
  destruct (bucketer_missing_treatment self).
  - unfold events, result in Hfit. cbn in Hfit. discriminate Hfit.
  - match type of Hfit with
    | context [most_frequent_bucket ?s ?t] =>
        destruct (most_frequent_bucket (Val := Val) s t) as [w2 [missing_bucket|e2]] eqn:Hmf
    end.
    + rewrite (bind_ok _ _ _ _ eq_refl) in Hfit.
      match type of Hfit with
      | context [call_build_bucket_table _ _ _ _ _ ?m ≫= ?k] =>
          rewrite (bind_ok (call_build_bucket_table Table build_bucket_table X y feature m) k
                     [Built_bucket_table feature m] (build_bucket_table X y feature m) eq_refl)
            in Hfit
      end.
      unfold events, result in Hfit. cbn in Hfit. discriminate Hfit.
    + rewrite (bind_raised _ _ _ _ eq_refl) in Hfit.
      unfold events, result in Hfit. cbn in Hfit. injection Hfit as <-.
      right. unfold most_frequent_bucket in Hmf.
      repeat case_match; try discriminate Hmf; injection Hmf as _ <-; tauto.
  - unfold events, result in Hfit. cbn in Hfit. discriminate Hfit.
Qed.

(** An exception of the loop is the exception of one of its features. *)
Lemma fit_features_raise_inv (self : Bucketer Val Y) features X y fbm tables e :
  result (fit_features self features X y fbm tables) = Raise e →
  ∃ feature, feature ∈ features ∧ result (fit_feature self feature X y) = Raise e.
Proof.
  revert fbm tables. induction features as [|f features IH]; intros fbm tables Hfit.
  { discriminate Hfit. }
  simpl in Hfit.
  destruct (fit_feature self f X y) as [w1 [[bm table]|e1]] eqn:Hf.
  - rewrite (bind_ok _ _ _ _ eq_refl) in Hfit. cbv beta iota in Hfit.
    unfold result at 1 in Hfit. cbn [snd] in Hfit.
    destruct (IH _ _ Hfit) as (feature & Hin & Hraise).
    exists feature. split; [apply elem_of_cons; by right | done].
  - rewrite (bind_raised _ _ _ _ eq_refl) in Hfit. injection Hfit as <-.
    exists f. split; [apply elem_of_cons; by left | by rewrite Hf].
Qed.

End fit_raise_more.

Section OrdinalCategoricalBucketer_more.
Import PyDictFacts Bucketers BucketersSpec CategoriesSpec ColumnFacts OrdinalCategoricalBucketer.
Context {Val Y : Type} `{EqDecision Val}.
Variable value_counts_normalized : list Val → list (Val * Qc).
Variable categories_by_target_mean : list Val → option (list Y) → list Val.

Local Abbreviation compute_map :=
  (compute_map (Y := Y) value_counts_normalized categories_by_target_mean).
Local Abbreviation reindex := (reindex (Val := Val)).


(** An exception of [reindex] is a [KeyError]. *)
Lemma reindex_raise (counts : list (Val * Qc)) (cats : list Val) e :
  result (reindex counts cats) = Raise e → ∃ key, e = KeyError key.
Proof.
  induction cats as [|cat cats IH]; [discriminate|].
  cbn [OrdinalCategoricalBucketer.reindex].
  destruct (PyDict.get cat counts) as [share|]; [|intros [= <-]; by eexists].
  destruct (reindex counts cats) as [w [tl|e']] eqn:Hre.
  - rewrite (bind_ok _ _ _ _ eq_refl). discriminate.
  - rewrite (bind_raised _ _ _ _ eq_refl). intros [= <-]. by apply IH.
Qed.



Variable Table : Type.
Variable rows : Table → list row.
Variable build_bucket_table :
  DataFrame Val → option (list Y) → string → BucketMapping Val → Table.
Variable sort_values_Count_descending : list row → list row.

Local Abbreviation fit :=
  (fit (Y := Y) value_counts_normalized categories_by_target_mean Table rows
     build_bucket_table sort_values_Count_descending).

(** With a target, the map of a feature fails with a [KeyError] or not at
    all. *)
Lemma compute_map_raise (self : config) var (X : DataFrame Val) (y : option (list Y)) e :
  y ≠ None → result (compute_map self var X y) = Raise e → ∃ key, e = KeyError key.
Proof.
  intros Hy. unfold OrdinalCategoricalBucketer.compute_map, getitem.
  destruct (PyDict.get var X) as [cells|]; [|intros [= <-]; by eexists].
  rewrite bind_ret_l.
  destruct (split_specials (specials self) var cells y) as [special [X_flt y_flt]].
  destruct (_filter_na_for_fit X_flt y_flt) as [X_flt' y_flt'].
  destruct (encoding_method self).
  - rewrite bind_ret_l. discriminate.
  - rewrite decide_False by done.
    destruct (reindex (value_counts_normalized (values X_flt'))
                (categories_by_target_mean (values X_flt') y_flt')) as [w [nc|e']] eqn:Hre.
    + rewrite (bind_ok _ _ _ _ eq_refl). discriminate.
    + rewrite (bind_raised _ _ _ _ eq_refl). intros [= <-].
      apply (reindex_raise (value_counts_normalized (values X_flt'))
               (categories_by_target_mean (values X_flt') y_flt')).
      by rewrite Hre.
Qed.

(** X20.  [OrdinalCategoricalBucketer.fit] without a target fails on its
    first line, with an [AssertionError], under both encodings and before a
    column is read or a table is built.  So the [ValueError] that the loop
    holds for ["ordered"] without a target is never what [fit] raises. *)
Theorem OrdinalCategoricalBucketer_fit_without_target (self : config) (X : DataFrame Val) :
  fit self X None = ([], Raise AssertionError) ∧
  ∀ y w e, fit self X y = (w, Raise e) → e ≠ ValueError ordered_without_y_msg.
Proof.
  split; [done|]. intros y w e Hfit. unfold OrdinalCategoricalBucketer.fit in Hfit.
  destruct (decide (y = None)) as [Hy|Hy]; [by injection Hfit as _ <-|].
  apply (f_equal result) in Hfit. unfold result at 2 in Hfit. cbn [snd] in Hfit.
  unfold Bucketers.fit in Hfit.
  apply fit_features_raise_inv in Hfit as (feature & _ & Hraise).
  apply fit_feature_raise_inv in Hraise as [Hraise|[->| ->]]; [|done..].
  apply (compute_map_raise self feature X y e Hy) in Hraise as [key ->]. done.
Qed.

End OrdinalCategoricalBucketer_more.


(** ** UserInputBucketer: the tables of a given mapping *)

Section UserInputBucketer_more.
Import PyDictFacts Bucketers UserInputBucketer.
Context {Val Y : Type}.
Variable Table : Type.
Variable build_bucket_table :
  DataFrame Val → option (list Y) → string → BucketMapping Val → Table.

Local Abbreviation fit_tables := (fit_tables (Val := Val) (Y := Y) Table build_bucket_table).
Local Abbreviation fit := (fit (Val := Val) (Y := Y) Table build_bucket_table).

(** The loop over features that all have a mapping. *)
Lemma fit_tables_mapped (fbm mapped : list (string * BucketMapping Val)) X (y : option (list Y))
    (tables : list (string * Table)) :
  NoDup (PyDict.keys mapped) →
  (∀ feature, feature ∈ PyDict.keys mapped → feature ∉ PyDict.keys tables) →
  (∀ feature bm, (feature, bm) ∈ mapped → PyDict.get feature fbm = Some bm) →
  fit_tables fbm (PyDict.keys mapped) X y tables =
    ((λ item, Built_bucket_table item.1 item.2) <$> mapped,
     Ok (tables ++ ((λ item, (item.1, build_bucket_table X y item.1 item.2)) <$> mapped))).
Proof.
  revert tables. induction mapped as [|[f bm] mapped IH]; intros tables Hnd Hnew Hget.
  { cbn. by rewrite app_nil_r. }
  unfold PyDict.keys in Hnd, Hnew. rewrite fmap_cons in Hnd, Hnew. cbn [fst] in Hnd, Hnew.
  apply NoDup_cons in Hnd as [Hf Hnd].
  unfold PyDict.keys. rewrite fmap_cons. cbn [fst UserInputBucketer.fit_tables].
  rewrite (Hget f bm) by (apply elem_of_cons; by left).
  rewrite (bind_ok (call_build_bucket_table Table build_bucket_table X y f bm) _
             [Built_bucket_table f bm] (build_bucket_table X y f bm) eq_refl).
  rewrite set_new by (apply Hnew, elem_of_cons; by left).
  fold (PyDict.keys mapped). rewrite IH; [| done | |].
  - unfold events, result. cbn [fst snd]. rewrite !fmap_cons. cbn [fst snd app].
    by rewrite <- app_assoc.
  - intros feature Hin. unfold PyDict.keys. rewrite fmap_app, elem_of_app. cbn.
    intros [Hold|Heq%list_elem_of_singleton].
    + eapply Hnew; [apply elem_of_cons; by right | done].
    + by subst feature.
  - intros feature bm' Hin. apply Hget, elem_of_cons. by right.
Qed.

(** X21.  A [UserInputBucketer] that is made without [variables] takes
    the features of its mapping, in the order of the mapping.  The loop of its
    [fit] then builds one bucket table per feature, with the mapping of that
    feature, and no other table; the mapping that the user gave is left as it
    is, whatever the frame holds. *)
Theorem UserInputBucketer_tables_of_all_features (fbm : list (string * BucketMapping Val))
    X (y : option (list Y)) :
  NoDup (PyDict.keys fbm) →
  ∃ self',
    fit (__init__ Table fbm []) X y
      = ((λ item, Built_bucket_table item.1 item.2) <$> fbm, Ok self') ∧
    features_bucket_mapping_ _ self' = fbm ∧
    variables _ self' = PyDict.keys fbm ∧
    PyDict.keys (bucket_tables_ _ self') = PyDict.keys fbm ∧
    ∀ feature bm, PyDict.get feature fbm = Some bm →
      PyDict.get feature (bucket_tables_ _ self') = Some (build_bucket_table X y feature bm).
Proof.
  intros Hnd.
  pose proof (fit_tables_mapped fbm fbm X y [] Hnd) as Hloop. cbn [app] in Hloop.
  eexists. split.
  - unfold UserInputBucketer.fit, __init__. cbn [features_bucket_mapping_ variables].
    rewrite Hloop.
    + rewrite bind_ok with (w := (λ item, Built_bucket_table item.1 item.2) <$> fbm)
                           (a := (λ item, (item.1, build_bucket_table X y item.1 item.2)) <$> fbm)
        by done.
      unfold events, result, mret, M_ret, ret. cbn [fst snd]. by rewrite app_nil_r.
    + intros feature _. apply not_elem_of_nil.
    + intros feature bm. by apply elem_of_get.
  - cbn [features_bucket_mapping_ variables bucket_tables_].
    split; [done|]. split; [done|].
    assert (PyDict.keys ((λ item : string * BucketMapping Val,
                            (item.1, build_bucket_table X y item.1 item.2)) <$> fbm)
            = PyDict.keys fbm) as Hkeys.
    { unfold PyDict.keys. rewrite <- list_fmap_compose. by apply list_fmap_ext. }
    split; [done|].
    intros feature bm Hget. apply elem_of_get; [by rewrite Hkeys|].
    apply list_elem_of_fmap. exists (feature, bm). split; [done|].
    by apply get_Some_elem_of.
Qed.

End UserInputBucketer_more.

(** ** AgglomerativeClusteringBucketer: clusters of any shape *)

Section AgglomerativeClusteringBucketer_more.
Import Bucketers BucketersSpec ColumnFacts ClusterFacts AgglomerativeClusteringBucketer.
Local Open Scope Qc_scope.
Context {Y : Type}.
Variable AgglomerativeClustering_labels : nat → list Qc → M (event Qc) (list Z).

Local Abbreviation compute_map := (compute_map (Y := Y) AgglomerativeClustering_labels).

Lemma StronglySorted_lookup_le {A} (R : relation A) (l : list A) i j a b :
  StronglySorted R l → l !! i = Some a → l !! j = Some b → (i < j)%nat → R a b.
Proof.
  intros Hs. revert i j. induction Hs as [|x l Hs IH Hall]; intros i j Hi Hj Hlt.
  { discriminate Hi. }
  destruct j as [|j]; [lia|]. destruct i as [|i].
  - injection Hi as <-. rewrite Forall_forall in Hall. apply Hall.
    by eapply list_elem_of_lookup_2.
  - apply (IH i j); [done..|lia].
Qed.

Lemma fmap_seq_StronglySorted (f : nat → Qc) first len :
  (∀ i j, (first ≤ i)%nat → (i < j)%nat → (j < first + len)%nat → f i ≤ f j) →
  StronglySorted Qcle (f <$> seq first len).
Proof.
  revert first. induction len as [|len IH]; intros first Hf; [constructor|].
  cbn [seq fmap list_fmap]. constructor.
  - apply IH. intros i j ???. apply Hf; lia.
  - apply Forall_fmap, Forall_forall. intros j Hj. apply elem_of_seq in Hj.
    apply Hf; lia.
Qed.

Lemma mean2_mono a a' b b' : a ≤ a' → b ≤ b' → mean2 a b ≤ mean2 a' b'.
Proof.
  intros Ha Hb. unfold mean2, Qcdiv. apply Qcmult_le_compat_r.
  - by apply Qcplus_le_compat.
  - apply (bool_decide_unpack _). by vm_compute.
Qed.

Lemma mean2_same a : mean2 a a = a.
Proof. unfold mean2. field. discriminate. Qed.

Lemma mean2_between lo hi a b :
  lo ≤ a → a ≤ hi → lo ≤ b → b ≤ hi → lo ≤ mean2 a b ∧ mean2 a b ≤ hi.
Proof.
  intros. split.
  - rewrite <- (mean2_same lo). by apply mean2_mono.
  - rewrite <- (mean2_same hi). by apply mean2_mono.
Qed.

(** Every group of [groupby] holds a value, and values of the frame only. *)
Lemma groupby_label_groups (df : list (Qc * Z)) g :
  g ∈ groupby_label df → g.2 ≠ [] ∧ ∀ v, v ∈ g.2 → v ∈ df.*1.
Proof.
  unfold groupby_label. intros (k & -> & Hk)%list_elem_of_fmap. cbn [snd].
  rewrite merge_sort_Permutation, elem_of_remove_dups in Hk.
  apply list_elem_of_fmap in Hk as ([v k'] & -> & Hin). cbn [snd] in *.
  split.
  - intros Hnil. apply fmap_nil_inv in Hnil.
    eapply (filter_nil_elim _ _ _ Hnil); [exact Hin | done].
  - intros v' (r & -> & [_ Hr]%list_elem_of_filter)%list_elem_of_fmap.
    apply list_elem_of_fmap. by exists r.
Qed.

Lemma groups_extrema_in_range (f : list Qc → Qc) (df : list (Qc * Z)) x :
  (∀ l, l ≠ [] → f l ∈ l) → df.*1 ≡ₚ x →
  ∀ v, v ∈ sort ((λ g, f g.2) <$> groupby_label df) → minimum x ≤ v ∧ v ≤ maximum x.
Proof.
  intros Hf Hx v. unfold sort. rewrite merge_sort_Permutation.
  intros (g & -> & Hg)%list_elem_of_fmap.
  destruct (groupby_label_groups df g Hg) as [Hne Hin].
  assert (f g.2 ∈ x) as Hv by (rewrite <- Hx; by apply Hin, Hf).
  split; [by apply minimum_le | by apply maximum_ge].
Qed.

(** The boundaries of any labelling of the values. *)
Lemma find_boundaries_any (x : list Qc) (labels : list Z) :
  length x = length labels →
  ∃ boundaries,
    find_boundaries x labels = ([], Ok boundaries) ∧
    length boundaries = (length (remove_dups labels) - 1)%nat ∧
    StronglySorted Qcle boundaries ∧
    Forall (λ boundary, minimum x ≤ boundary ∧ boundary ≤ maximum x) boundaries.
Proof.
  intros Hlen. unfold find_boundaries, frame.
  rewrite decide_True by done. rewrite bind_ret_l.
  set (df := sort_by_x (zip x labels)).
  assert (df ≡ₚ zip x labels) as Hdf by (unfold df, sort_by_x; by rewrite merge_sort_Permutation).
  assert (df.*1 ≡ₚ x) as Hx by (rewrite Hdf, fst_zip; [done | lia]).
  assert (df.*2 ≡ₚ labels) as Hlabels by (rewrite Hdf, snd_zip; [done | lia]).
  assert (length (groupby_label df) = length (remove_dups labels)) as Hgroups.
  { unfold groupby_label. rewrite length_fmap.
    rewrite (Permutation_length (merge_sort_Permutation Z.le (remove_dups df.*2))).
    apply Permutation_length, NoDup_Permutation; [apply NoDup_remove_dups..|].
    intros k. by rewrite !elem_of_remove_dups, Hlabels. }
  assert (length (cluster_minimum_values df) = length (remove_dups labels)) as Hmins.
  { unfold cluster_minimum_values. by rewrite length_sort, length_fmap. }
  assert (length (cluster_maximum_values df) = length (remove_dups labels)) as Hmaxs.
  { unfold cluster_maximum_values. by rewrite length_sort, length_fmap. }
  assert (StronglySorted Qcle (cluster_minimum_values df)) as Hsmins
    by (apply StronglySorted_merge_sort; apply _).
  assert (StronglySorted Qcle (cluster_maximum_values df)) as Hsmaxs
    by (apply StronglySorted_merge_sort; apply _).
  eexists. split; [done|]. unfold boundaries_of.
  split; [by rewrite length_fmap, length_seq, Hmins|]. split.
  - apply fmap_seq_StronglySorted. intros i j _ Hij Hj. rewrite Hmins in Hj.
    destruct (lookup_lt_is_Some_2 (cluster_minimum_values df) (S i)) as [a Ha]; [lia|].
    destruct (lookup_lt_is_Some_2 (cluster_minimum_values df) (S j)) as [a' Ha']; [lia|].
    destruct (lookup_lt_is_Some_2 (cluster_maximum_values df) i) as [b Hb]; [lia|].
    destruct (lookup_lt_is_Some_2 (cluster_maximum_values df) j) as [b' Hb']; [lia|].
    rewrite Ha, Ha', Hb, Hb'. cbn [default]. apply mean2_mono.
    + apply (StronglySorted_lookup_le Qcle (cluster_minimum_values df) (S i) (S j));
        [done..|lia].
    + by apply (StronglySorted_lookup_le Qcle (cluster_maximum_values df) i j).
  - apply Forall_fmap, Forall_forall. intros i Hi. apply elem_of_seq in Hi.
    rewrite Hmins in Hi.
    destruct (lookup_lt_is_Some_2 (cluster_minimum_values df) (S i)) as [a Ha]; [lia|].
    destruct (lookup_lt_is_Some_2 (cluster_maximum_values df) i) as [b Hb]; [lia|].
    cbn [compose]. rewrite Ha, Hb. cbn [default].
    destruct (groups_extrema_in_range minimum df x minimum_elem Hx a)
      as [? ?]; [by eapply list_elem_of_lookup_2|].
    destruct (groups_extrema_in_range maximum df x maximum_elem Hx b)
      as [? ?]; [by eapply list_elem_of_lookup_2|].
    by apply mean2_between.
Qed.

(** X22.  Whatever clusters the clustering finds, also clusters that
    overlap: a feature gets one boundary less than there are clusters (none
    for a single cluster), the boundaries come in non-decreasing order, and
    every one of them lies between the smallest and the largest normal value
    of the feature. *)
Theorem AgglomerativeClusteringBucketer_any_clusters (self : config) feature X
    (y : option (list Y)) cells w labels_ :
  PyDict.get feature X = Some cells →
  let special := specials_of (specials self) feature in
  let x := normal_values special cells in
  AgglomerativeClustering_labels (n_bins self) x = (w, Ok labels_) →
  length x = length labels_ →
  ∃ boundaries,
    compute_map self feature X y = (w, Ok (special, Boundaries (Some <$> boundaries))) ∧
    length boundaries = (length (remove_dups labels_) - 1)%nat ∧
    StronglySorted Qcle boundaries ∧
    Forall (λ boundary, minimum x ≤ boundary ∧ boundary ≤ maximum x) boundaries.
Proof.
  intros Hget special x Hlabels Hlen.
  destruct (find_boundaries_any x labels_ Hlen) as (boundaries & Hb & Hcount & Hsorted & Hrange).
  exists boundaries. split; [|done].
  unfold AgglomerativeClusteringBucketer.compute_map.
  rewrite (getitem_Some _ _ _ Hget), bind_ret_l.
  destruct (split_specials_values (specials self) feature cells y) as [Hsp Hval].
  destruct (split_specials (specials self) feature cells y) as [special' [X_flt y_flt]].
  cbn [fst snd] in Hsp, Hval. subst special'. fold special in Hval.
  pose proof (values_filter_na X_flt y_flt) as Hna.
  destruct (_filter_na_for_fit X_flt y_flt) as [X_flt' y_flt'].
  cbn [fst] in Hna. rewrite Hna, Hval. fold x.
  rewrite (bind_ok _ _ _ _ Hlabels). rewrite Hb, bind_nil_ok.
  unfold events, result, mret, M_ret, ret. cbn [fst snd]. by rewrite app_nil_r.
Qed.

End AgglomerativeClusteringBucketer_more.

(** A mapping of ["AGE"] and ["EDUCATION"], on a frame that has a third
    column. *)
Lemma UserInputBucketer_tables_of_all_features_witness :
  NoDup (PyDict.keys ToyUserInput.features_bucket_mapping) ∧
  ∃ self',
    Bucketers.UserInputBucketer.fit (list Bucketers.row) Toy.build_bucket_table
      (Bucketers.UserInputBucketer.__init__ (list Bucketers.row)
         ToyUserInput.features_bucket_mapping [])
      ToyColumns.three_columns None
    = ([Bucketers.Built_bucket_table "AGE" ToyUserInput.AGE_mapping;
        Bucketers.Built_bucket_table "EDUCATION" ToyUserInput.EDUCATION_mapping], Ok self') ∧
    PyDict.keys (Bucketers.UserInputBucketer.bucket_tables_ _ self') = ["AGE"; "EDUCATION"] ∧
    PyDict.get "EDUCATION" (Bucketers.UserInputBucketer.bucket_tables_ _ self')
    = Some (Toy.build_bucket_table ToyColumns.three_columns None "EDUCATION"
              ToyUserInput.EDUCATION_mapping).
Proof.
  assert (NoDup (PyDict.keys ToyUserInput.features_bucket_mapping)) as Hnd
    by (apply (bool_decide_unpack _); by vm_compute).
  split; [exact Hnd|].
  destruct (UserInputBucketer_tables_of_all_features (list Bucketers.row)
              Toy.build_bucket_table ToyUserInput.features_bucket_mapping
              ToyColumns.three_columns None Hnd) as (self' & Hfit & _ & _ & Hkeys & Htables).
  exists self'. split; [exact Hfit|]. split; [exact Hkeys|].
  apply Htables. reflexivity.
Defined.

(** The overlapping clusters [{5, 10}] and [{1, 2, 6}]: one boundary,
    between [1] and [10]. *)
Lemma AgglomerativeClusteringBucketer_any_clusters_witness :
  (PyDict.get "LIMIT_BAL" (Toy.frame Toy.clustered) = Some Toy.clustered ∧
   ToyOverlap.AgglomerativeClustering_labels
     (Bucketers.AgglomerativeClusteringBucketer.n_bins ToyOverlap.agglomerative)
     (BucketersSpec.normal_values [] Toy.clustered)
   = ([], Ok [0; 1; 0; 1; 1]%Z) ∧
   length (BucketersSpec.normal_values [] Toy.clustered) = length [0; 1; 0; 1; 1]%Z) ∧
  ∃ boundaries,
    Bucketers.AgglomerativeClusteringBucketer.compute_map (Y := bool)
      ToyOverlap.AgglomerativeClustering_labels ToyOverlap.agglomerative "LIMIT_BAL"
      (Toy.frame Toy.clustered) None
    = ([], Ok ([], Bucketers.Boundaries (Some <$> boundaries))) ∧
    length boundaries = 1%nat ∧
    Forall (λ boundary, (Qc_of_Z 1 ≤ boundary)%Qc ∧ (boundary ≤ Qc_of_Z 10)%Qc) boundaries.
Proof.
  split; [split; [reflexivity | split; reflexivity]|].
  destruct (AgglomerativeClusteringBucketer_any_clusters (Y := bool)
              ToyOverlap.AgglomerativeClustering_labels ToyOverlap.agglomerative "LIMIT_BAL"
              (Toy.frame Toy.clustered) None Toy.clustered [] [0; 1; 0; 1; 1]%Z
              eq_refl eq_refl eq_refl) as (boundaries & Hmap & Hcount & _ & Hrange).
  exists boundaries. split; [exact Hmap|]. split; [exact Hcount|].
  assert (Bucketers.minimum (BucketersSpec.normal_values [] Toy.clustered) = Qc_of_Z 1)
    as Hmin by (vm_compute; reflexivity).
  assert (Bucketers.maximum (BucketersSpec.normal_values [] Toy.clustered) = Qc_of_Z 10)
    as Hmax by (vm_compute; reflexivity).
  change (BucketersSpec.specials_of
            (Bucketers.AgglomerativeClusteringBucketer.specials ToyOverlap.agglomerative)
            "LIMIT_BAL") with (@nil (string * list Qc)) in Hrange.
  rewrite Hmin, Hmax in Hrange. exact Hrange.
Defined.
